(** * Cluster reconciliation core: phases of the Cluster reconciler and the
      resource enumerator of the administrative tool.

    Shallow embedding of [controllers/cluster_controller_phases.go] and of the
    [ListResources] method of the clusterctl proxy.  Go pointers that may be
    nil are [option]s, Go maps are [gmap]s, [sets.String] is a [gset string].
    A Go method that mutates the [*Cluster] it receives and talks to the API
    server is a computation over the pair (cluster, world): the cluster is
    returned in every outcome, also next to an error, because the caller keeps
    the mutated object. *)

From Stdlib Require Import ZArith Ascii String List.
From stdpp Require Import base option list strings gmap fin_maps.

Local Open Scope string_scope.
Local Open Scope Z_scope.

(** ** Kubernetes data model *)

(** [metav1.Time] as seconds from the zero instant; a [*metav1.Time] is an
    [option].  [IsZero] is true for the nil pointer and for the zero instant. *)
Definition Time := Z.

Definition Time_IsZero (t : option Time) : bool :=
  match t with
  | None => true
  | Some v => bool_decide (v = 0)
  end.

(** [time.Duration], in nanoseconds. *)
Definition Duration := Z.
Definition Second : Duration := 1000000000.

Record ObjectReference := mkRef {
  ref_APIVersion : string;
  ref_Kind : string;
  ref_Namespace : string;
  ref_Name : string
}.

Record APIEndpoint := mkEndpoint {
  Host : string;
  Port : Z
}.

Inductive ConditionStatus := ConditionTrue | ConditionFalse | ConditionUnknown.
Inductive ConditionSeverity :=
  SeverityError | SeverityWarning | SeverityInfo | SeverityNone.

Record Condition := mkCondition {
  cond_Type : string;
  cond_Status : ConditionStatus;
  cond_Severity : ConditionSeverity;
  cond_LastTransitionTime : Time;
  cond_Reason : string;
  cond_Message : string
}.

Record FailureDomainSpec := mkFailureDomain {
  fd_ControlPlane : bool;
  fd_Attributes : gmap string string
}.

Record OwnerReference := mkOwner {
  own_APIVersion : string;
  own_Kind : string;
  own_Name : string;
  own_UID : string;
  own_Controller : bool;
  own_BlockOwnerDeletion : bool
}.

#[global] Instance ConditionStatus_eq_dec : EqDecision ConditionStatus.
Proof. solve_decision. Defined.
#[global] Instance ObjectReference_eq_dec : EqDecision ObjectReference.
Proof. solve_decision. Defined.

(** ** The Cluster object *)

Record ClusterSpec := mkSpec {
  ControlPlaneEndpoint : APIEndpoint;
  ControlPlaneRef : option ObjectReference;
  InfrastructureRef : option ObjectReference;
  ManagedExternalEtcdRef : option ObjectReference
}.

Record ClusterStatus := mkStatus {
  FailureDomains : gmap string FailureDomainSpec;
  FailureReason : option string;
  FailureMessage : option string;
  Phase : string;
  InfrastructureReady : bool;
  ControlPlaneReady : bool;
  ManagedExternalEtcdInitialized : bool;
  ManagedExternalEtcdReady : bool;
  Conditions : list Condition
}.

Record Cluster := mkCluster {
  Name : string;
  Namespace : string;
  UID : string;
  Annotations : gmap string string;
  DeletionTimestamp : option Time;
  Spec : ClusterSpec;
  Status : ClusterStatus
}.

(** Field assignments [cluster.Status.X = v] and [cluster.Spec.X = v]. *)
Definition with_Status (f : ClusterStatus → ClusterStatus) (c : Cluster) : Cluster :=
  mkCluster (Name c) (Namespace c) (UID c) (Annotations c) (DeletionTimestamp c)
            (Spec c) (f (Status c)).

Definition with_Spec (f : ClusterSpec → ClusterSpec) (c : Cluster) : Cluster :=
  mkCluster (Name c) (Namespace c) (UID c) (Annotations c) (DeletionTimestamp c)
            (f (Spec c)) (Status c).

Definition set_Phase (p : string) (s : ClusterStatus) : ClusterStatus :=
  mkStatus (FailureDomains s) (FailureReason s) (FailureMessage s) p
           (InfrastructureReady s) (ControlPlaneReady s)
           (ManagedExternalEtcdInitialized s) (ManagedExternalEtcdReady s)
           (Conditions s).

Definition set_FailureDomains (v : gmap string FailureDomainSpec) (s : ClusterStatus) :=
  mkStatus v (FailureReason s) (FailureMessage s) (Phase s)
           (InfrastructureReady s) (ControlPlaneReady s)
           (ManagedExternalEtcdInitialized s) (ManagedExternalEtcdReady s)
           (Conditions s).

Definition set_FailureReason (v : option string) (s : ClusterStatus) :=
  mkStatus (FailureDomains s) v (FailureMessage s) (Phase s)
           (InfrastructureReady s) (ControlPlaneReady s)
           (ManagedExternalEtcdInitialized s) (ManagedExternalEtcdReady s)
           (Conditions s).

Definition set_FailureMessage (v : option string) (s : ClusterStatus) :=
  mkStatus (FailureDomains s) (FailureReason s) v (Phase s)
           (InfrastructureReady s) (ControlPlaneReady s)
           (ManagedExternalEtcdInitialized s) (ManagedExternalEtcdReady s)
           (Conditions s).

Definition set_InfrastructureReady (v : bool) (s : ClusterStatus) :=
  mkStatus (FailureDomains s) (FailureReason s) (FailureMessage s) (Phase s)
           v (ControlPlaneReady s)
           (ManagedExternalEtcdInitialized s) (ManagedExternalEtcdReady s)
           (Conditions s).

Definition set_ControlPlaneReady (v : bool) (s : ClusterStatus) :=
  mkStatus (FailureDomains s) (FailureReason s) (FailureMessage s) (Phase s)
           (InfrastructureReady s) v
           (ManagedExternalEtcdInitialized s) (ManagedExternalEtcdReady s)
           (Conditions s).

Definition set_ManagedExternalEtcdInitialized (v : bool) (s : ClusterStatus) :=
  mkStatus (FailureDomains s) (FailureReason s) (FailureMessage s) (Phase s)
           (InfrastructureReady s) (ControlPlaneReady s)
           v (ManagedExternalEtcdReady s)
           (Conditions s).

Definition set_ManagedExternalEtcdReady (v : bool) (s : ClusterStatus) :=
  mkStatus (FailureDomains s) (FailureReason s) (FailureMessage s) (Phase s)
           (InfrastructureReady s) (ControlPlaneReady s)
           (ManagedExternalEtcdInitialized s) v
           (Conditions s).

Definition set_Conditions (v : list Condition) (s : ClusterStatus) :=
  mkStatus (FailureDomains s) (FailureReason s) (FailureMessage s) (Phase s)
           (InfrastructureReady s) (ControlPlaneReady s)
           (ManagedExternalEtcdInitialized s) (ManagedExternalEtcdReady s)
           v.

Definition set_ControlPlaneEndpoint (v : APIEndpoint) (s : ClusterSpec) :=
  mkSpec v (ControlPlaneRef s) (InfrastructureRef s) (ManagedExternalEtcdRef s).

(** The phase vocabulary of [api/v1beta1]; [status.phase] itself is a plain
    string, so a value outside the vocabulary can be stored in it. *)
Definition ClusterPhasePending := "Pending".
Definition ClusterPhaseProvisioning := "Provisioning".
Definition ClusterPhaseProvisioned := "Provisioned".
Definition ClusterPhaseDeleting := "Deleting".
Definition ClusterPhaseFailed := "Failed".

(** Modelled from the spec: [ClusterStatus.SetTypedPhase] (api/v1beta1) is not
    among the sources; the phase is persisted bit-exact as its string. *)
Definition SetTypedPhase (p : string) (c : Cluster) : Cluster :=
  with_Status (set_Phase p) c.

(** Modelled from the spec: [APIEndpoint.IsValid] (api/v1beta1) is not among
    the sources; an endpoint is valid iff its host is non-empty and its port
    non-zero. *)
Definition IsValid (e : APIEndpoint) : bool :=
  negb (bool_decide (Host e = "")) && negb (bool_decide (Port e = 0)).

(** ** The phase labeler *)

Definition reconcilePhase (cluster : Cluster) : Cluster :=
  let cluster :=
    if bool_decide (Phase (Status cluster) = "")
    then SetTypedPhase ClusterPhasePending cluster else cluster in
  let cluster :=
    if bool_decide (InfrastructureRef (Spec cluster) ≠ None)
    then SetTypedPhase ClusterPhaseProvisioning cluster else cluster in
  let cluster :=
    if InfrastructureReady (Status cluster)
       && IsValid (ControlPlaneEndpoint (Spec cluster))
    then SetTypedPhase ClusterPhaseProvisioned cluster else cluster in
  let cluster :=
    if bool_decide (FailureReason (Status cluster) ≠ None)
       || bool_decide (FailureMessage (Status cluster) ≠ None)
    then SetTypedPhase ClusterPhaseFailed cluster else cluster in
  let cluster :=
    if negb (Time_IsZero (DeletionTimestamp cluster))
    then SetTypedPhase ClusterPhaseDeleting cluster else cluster in
  cluster.

(** The labeler as the specification words it: five (condition, phase)
    clauses, run in order, each one setting the phase when its condition
    holds on the cluster as the earlier clauses left it. *)
Definition phaseClauses : list ((Cluster → bool) * string) :=
  [ (λ c, bool_decide (Phase (Status c) = ""), ClusterPhasePending);
    (λ c, bool_decide (InfrastructureRef (Spec c) ≠ None), ClusterPhaseProvisioning);
    (λ c, InfrastructureReady (Status c) && IsValid (ControlPlaneEndpoint (Spec c)),
     ClusterPhaseProvisioned);
    (λ c, bool_decide (FailureReason (Status c) ≠ None)
          || bool_decide (FailureMessage (Status c) ≠ None), ClusterPhaseFailed);
    (λ c, negb (Time_IsZero (DeletionTimestamp c)), ClusterPhaseDeleting) ].

Definition runClause (c : Cluster) (cl : (Cluster → bool) * string) : Cluster :=
  if cl.1 c then SetTypedPhase cl.2 c else c.

Definition phaseLabeler_spec (c : Cluster) : Cluster :=
  fold_left runClause phaseClauses c.

(** ** Referenced provider objects

    A provider object is an [unstructured.Unstructured]: a free-form tree.
    The reconciler reads a fixed set of paths in it, so the tree is kept as
    a typed view of exactly those paths.  A path holds a value of the
    expected type, is missing, or holds a value of another type (the nested
    accessors report the last as an error). *)

Inductive Field (A : Type) :=
  | Absent
  | Present (a : A)
  | Malformed.
Arguments Absent {A}.
Arguments Present {A} a.
Arguments Malformed {A}.

Record Unstructured := mkObj {
  obj_APIVersion : string;
  obj_Kind : string;
  obj_Namespace : string;
  obj_Name : string;
  obj_Annotations : gmap string string;
  obj_Labels : gmap string string;
  obj_OwnerReferences : list OwnerReference;
  obj_DeletionTimestamp : option Time;
  obj_spec_controlPlaneEndpoint : Field APIEndpoint;
  obj_status_ready : Field bool;
  obj_status_initialized : Field bool;
  obj_status_failureReason : Field string;
  obj_status_failureMessage : Field string;
  obj_status_failureDomains : Field (gmap string FailureDomainSpec);
  obj_status_conditions : list Condition
}.

Definition SetAnnotations (a : gmap string string) (o : Unstructured) : Unstructured :=
  mkObj (obj_APIVersion o) (obj_Kind o) (obj_Namespace o) (obj_Name o)
        a (obj_Labels o) (obj_OwnerReferences o) (obj_DeletionTimestamp o)
        (obj_spec_controlPlaneEndpoint o) (obj_status_ready o)
        (obj_status_initialized o) (obj_status_failureReason o)
        (obj_status_failureMessage o) (obj_status_failureDomains o)
        (obj_status_conditions o).

Definition SetLabels (l : gmap string string) (o : Unstructured) : Unstructured :=
  mkObj (obj_APIVersion o) (obj_Kind o) (obj_Namespace o) (obj_Name o)
        (obj_Annotations o) l (obj_OwnerReferences o) (obj_DeletionTimestamp o)
        (obj_spec_controlPlaneEndpoint o) (obj_status_ready o)
        (obj_status_initialized o) (obj_status_failureReason o)
        (obj_status_failureMessage o) (obj_status_failureDomains o)
        (obj_status_conditions o).

Definition SetOwnerReferences (r : list OwnerReference) (o : Unstructured) : Unstructured :=
  mkObj (obj_APIVersion o) (obj_Kind o) (obj_Namespace o) (obj_Name o)
        (obj_Annotations o) (obj_Labels o) r (obj_DeletionTimestamp o)
        (obj_spec_controlPlaneEndpoint o) (obj_status_ready o)
        (obj_status_initialized o) (obj_status_failureReason o)
        (obj_status_failureMessage o) (obj_status_failureDomains o)
        (obj_status_conditions o).

(** Label and annotation keys of [api/v1beta1]. *)
Definition PausedAnnotation := "cluster.x-k8s.io/paused".
Definition ClusterLabelName := "cluster.x-k8s.io/cluster-name".
Definition ProviderLabelName := "cluster.x-k8s.io/provider".

(** [unstructured.RemoveNestedField(o.Object, "metadata", "annotations", k)]. *)
Definition RemoveAnnotation (k : string) (o : Unstructured) : Unstructured :=
  SetAnnotations (delete k (obj_Annotations o)) o.

(** Modelled from the spec: [annotations.HasPausedAnnotation]
    (util/annotations) is not among the sources; the object carries the
    paused annotation, whatever its value. *)
Definition HasPausedAnnotation (a : gmap string string) : bool :=
  bool_decide (is_Some (a !! PausedAnnotation)).

(** Modelled from the spec: [annotations.IsPaused] (package util/annotations)
    is not among the sources.  The pause gate reads: the fetched object or
    the Cluster itself carries the [cluster.x-k8s.io/paused] annotation. *)
Definition IsPaused (cluster : Cluster) (o : Unstructured) : bool :=
  HasPausedAnnotation (Annotations cluster) || HasPausedAnnotation (obj_Annotations o).

(** ** Group, version, kind *)

Fixpoint countSlash (s : string) : nat :=
  match s with
  | EmptyString => 0%nat
  | String c r => ((if Ascii.eqb c "/" then 1 else 0) + countSlash r)%nat
  end.

Fixpoint beforeSlash (s : string) : string :=
  match s with
  | EmptyString => EmptyString
  | String c r => if Ascii.eqb c "/" then EmptyString else String c (beforeSlash r)
  end.

Fixpoint afterSlash (s : string) : string :=
  match s with
  | EmptyString => EmptyString
  | String c r => if Ascii.eqb c "/" then r else afterSlash r
  end.

(** [schema.ParseGroupVersion]: the empty string and a lone slash give the
    empty pair, no slash is a version of the core group, one slash separates
    group and version, anything else is an error ([None]). *)
Definition ParseGroupVersion (gv : string) : option (string * string) :=
  if bool_decide (gv = "") || bool_decide (gv = "/") then Some ("", "")
  else match countSlash gv with
       | O => Some ("", gv)
       | S O => Some (beforeSlash gv, afterSlash gv)
       | _ => None
       end.

Record GroupVersionKind := mkGVK {
  gvk_Group : string;
  gvk_Version : string;
  gvk_Kind : string
}.

(** [GroupVersionKind.String], the same text in [metav1] and [schema]. *)
Definition GVK_String (g : GroupVersionKind) : string :=
  gvk_Group g +:+ "/" +:+ gvk_Version g +:+ ", Kind=" +:+ gvk_Kind g.

(** [schema.FromAPIVersionAndKind]: an unparsable apiVersion leaves group and
    version empty. *)
Definition FromAPIVersionAndKind (apiVersion kind : string) : GroupVersionKind :=
  match ParseGroupVersion apiVersion with
  | Some (g, v) => mkGVK g v kind
  | None => mkGVK "" "" kind
  end.

Definition obj_GroupVersionKind (o : Unstructured) : GroupVersionKind :=
  FromAPIVersionAndKind (obj_APIVersion o) (obj_Kind o).

(** ** Errors and results *)

Inductive error :=
  | ErrNotFound
  | ErrReferenceNotSet
  | ErrAlreadyOwned
  | ErrFieldType (path : string)
  | ErrUnstructuredFieldNotFound
  | ErrDependentCertificateNotFound
  | ErrWrapped (context : string) (cause : error)
  | ErrServer (msg : string).

#[global] Instance error_eq_dec : EqDecision error.
Proof. solve_decision. Defined.

(** [errors.Cause]: the innermost error of a chain of wraps. *)
Fixpoint Cause (e : error) : error :=
  match e with
  | ErrWrapped _ c => Cause c
  | _ => e
  end.

(** [apierrors.IsNotFound]; it does not look through wraps itself. *)
Definition IsNotFound (e : error) : bool :=
  match e with
  | ErrNotFound => true
  | _ => false
  end.

(** [ctrl.Result]. *)
Record Result := mkResult {
  Requeue : bool;
  RequeueAfter : Duration
}.

Definition Result_zero : Result := mkResult false 0.

(** [external.ReconcileOutput]. *)
Record ReconcileOutput := mkOutput {
  out_RequeueAfter : Duration;
  out_Paused : bool;
  out_Result : option Unstructured
}.

Definition ReconcileOutput_zero : ReconcileOutput := mkOutput 0 false None.

(** ** The API server as the reconciler sees it *)

Abbreviation ObjectKey := (string * string * string * string)%type.

Definition key_of (o : Unstructured) : ObjectKey :=
  (obj_APIVersion o, obj_Kind o, obj_Namespace o, obj_Name o).

Record World := mkWorld {
  objects : gmap ObjectKey Unstructured;
  secrets : gset (string * string);
  watches : gset string
}.

Definition with_objects (f : gmap ObjectKey Unstructured → gmap ObjectKey Unstructured)
    (w : World) : World :=
  mkWorld (f (objects w)) (secrets w) (watches w).

(** The calls a reconcile makes out of the process.  Any of them can fail
    for reasons the reconciler does not control; [faults] says which do. *)
Inductive Op :=
  | OpGet (k : ObjectKey)
  | OpNewHelper (k : ObjectKey)
  | OpSetControllerReference (k : ObjectKey)
  | OpPatch (k : ObjectKey)
  | OpUpdate (k : ObjectKey)
  | OpWatch (kind : string)
  | OpSecretGet (ns name : string)
  | OpCreateSecret (ns name : string).

Record Env := mkEnv {
  faults : Op → option error;
  (** the apiVersion the conversion collaborator picks for a reference *)
  contractVersion : ObjectReference → error + string;
  now : Time
}.

(** ** Computations over (cluster, world) with early return

    [M R A]: a piece of a Go function whose result type is [R].  It either
    goes on with a value of type [A] or has executed a [return]. *)

Record State := mkState {
  st_cluster : Cluster;
  st_world : World
}.

Definition M (R A : Type) : Type := State → (A + R) * State.

#[global] Instance M_ret {R} : MRet (M R) := λ A a s, (inl a, s).

#[global] Instance M_bind {R} : MBind (M R) := λ A B f m s,
  match m s with
  | (inl a, s') => f a s'
  | (inr r, s') => (inr r, s')
  end.

Definition Return {R A} (r : R) : M R A := λ s, (inr r, s).

Definition getCluster {R} : M R Cluster := λ s, (inl (st_cluster s), s).
Definition getWorld {R} : M R World := λ s, (inl (st_world s), s).

Definition modifyCluster {R} (f : Cluster → Cluster) : M R unit :=
  λ s, (inl tt, mkState (f (st_cluster s)) (st_world s)).

Definition modifyWorld {R} (f : World → World) : M R unit :=
  λ s, (inl tt, mkState (st_cluster s) (f (st_world s))).

(** Run a whole function body: falling off the end and [return] agree. *)
Definition run {R} (m : M R R) (s : State) : R * State :=
  match m s with
  | (inl r, s') => (r, s')
  | (inr r, s') => (r, s')
  end.

(** Call a function from inside another one. *)
Definition call {R R'} (m : M R R) : M R' R :=
  λ s, let '(r, s') := run m s in (inl r, s').

(** [v, err := f(); if err != nil { return onErr(err) }]. *)
Definition orReturn {R A} (r : A + error) (onErr : error → R) : M R A :=
  match r with
  | inl a => mret a
  | inr e => Return (onErr e)
  end.

(** [if err := f(); err != nil { return onErr(err) }]. *)
Definition check {R} (e : option error) (onErr : error → R) : M R unit :=
  match e with
  | None => mret tt
  | Some err => Return (onErr err)
  end.

(** ** Collaborators of the reconciler

    Packages [controllers/external], [util], [util/conditions],
    [util/conversion], [util/patch], [util/secret] and [util/kubeconfig], and
    the controller-runtime client, are called by the phases but are not among
    the sources.  Each is given here through the interface the phases use. *)

(** The three references of a Cluster.  A sub-reconciler passes a pointer
    into [cluster.Spec], so what the conversion step writes through it lands
    in the cluster: the pointer is the name of the field. *)
Inductive RefField := FInfrastructureRef | FControlPlaneRef | FManagedExternalEtcdRef.

Definition get_ref (f : RefField) (c : Cluster) : option ObjectReference :=
  match f with
  | FInfrastructureRef => InfrastructureRef (Spec c)
  | FControlPlaneRef => ControlPlaneRef (Spec c)
  | FManagedExternalEtcdRef => ManagedExternalEtcdRef (Spec c)
  end.

Definition set_ref (f : RefField) (r : option ObjectReference) (c : Cluster) : Cluster :=
  with_Spec (λ s,
    match f with
    | FInfrastructureRef =>
        mkSpec (ControlPlaneEndpoint s) (ControlPlaneRef s) r (ManagedExternalEtcdRef s)
    | FControlPlaneRef =>
        mkSpec (ControlPlaneEndpoint s) r (InfrastructureRef s) (ManagedExternalEtcdRef s)
    | FManagedExternalEtcdRef =>
        mkSpec (ControlPlaneEndpoint s) (ControlPlaneRef s) (InfrastructureRef s) r
    end) c.

(** Modelled from the spec: [utilconversion.UpdateReferenceAPIContract] is
    not among the sources.  It asks the conversion collaborator for the
    preferred served version of the reference's group and kind and rewrites
    the reference's apiVersion to it; an error fails the reconcile. *)
Definition UpdateReferenceAPIContract {R} (env : Env) (f : RefField)
    : M R (option error) :=
  cluster ← getCluster;
  match get_ref f cluster with
  | None => mret (Some ErrReferenceNotSet)
  | Some ref =>
      match contractVersion env ref with
      | inl err => mret (Some err)
      | inr v =>
          _ ← modifyCluster
                (set_ref f (Some (mkRef v (ref_Kind ref) (ref_Namespace ref) (ref_Name ref))));
          mret None
      end
  end.

(** Modelled from the spec: [external.Get] is not among the sources.  It
    fetches the referenced object by (apiVersion, kind, namespace, name) and
    wraps the client's error.  A nil reference names no object: the helper
    cannot produce one, which is reported as an error here. *)
Definition external_Get (env : Env) (w : World) (ref : option ObjectReference)
    (namespace : string) : Unstructured + error :=
  match ref with
  | None => inr ErrReferenceNotSet
  | Some ref =>
      let k := (ref_APIVersion ref, ref_Kind ref, namespace, ref_Name ref) in
      match faults env (OpGet k) with
      | Some err => inr (ErrWrapped "failed to retrieve external object" err)
      | None =>
          match objects w !! k with
          | Some o => inl o
          | None => inr (ErrWrapped "failed to retrieve external object" ErrNotFound)
          end
      end
  end.

Definition NestedBool (path : string) (f : Field bool) : (bool * bool) + error :=
  match f with
  | Absent => inl (false, false)
  | Present b => inl (b, true)
  | Malformed => inr (ErrFieldType path)
  end.

Definition NestedString (path : string) (f : Field string) : (string * bool) + error :=
  match f with
  | Absent => inl ("", false)
  | Present s => inl (s, true)
  | Malformed => inr (ErrFieldType path)
  end.

(** Modelled from the spec: [external.IsReady] is not among the sources; it
    reads the boolean at [status.ready]. *)
Definition IsReady (o : Unstructured) : bool + error :=
  match NestedBool "status.ready" (obj_status_ready o) with
  | inl (ready, found) => inl (ready && found)
  | inr err => inr (ErrWrapped "failed to determine readiness" err)
  end.

(** Modelled from the spec: [external.IsInitialized] is not among the
    sources; it reads the boolean at [status.initialized]. *)
Definition IsInitialized (o : Unstructured) : bool + error :=
  match NestedBool "status.initialized" (obj_status_initialized o) with
  | inl (initialized, found) => inl (initialized && found)
  | inr err => inr (ErrWrapped "failed to determine initialization" err)
  end.

(** Modelled from the spec: [external.FailuresFrom] is not among the sources;
    it reads the strings at [status.failureReason] and
    [status.failureMessage], a missing path reading as the empty string. *)
Definition FailuresFrom (o : Unstructured) : (string * string) + error :=
  match NestedString "status.failureReason" (obj_status_failureReason o) with
  | inr err => inr (ErrWrapped "failed to determine failureReason" err)
  | inl (failureReason, _) =>
      match NestedString "status.failureMessage" (obj_status_failureMessage o) with
      | inr err => inr (ErrWrapped "failed to determine failureMessage" err)
      | inl (failureMessage, _) => inl (failureReason, failureMessage)
      end
  end.

(** Modelled from the spec: [util.UnstructuredUnmarshalField] is not among
    the sources; it extracts a field by path, a missing path being the
    distinguished error [ErrUnstructuredFieldNotFound] and an unparsable value
    another error. *)
Definition UnstructuredUnmarshalField {A} (path : string) (f : Field A) : A + error :=
  match f with
  | Absent => inr ErrUnstructuredFieldNotFound
  | Present a => inl a
  | Malformed => inr (ErrWrapped "failed to retrieve field" (ErrFieldType path))
  end.

(** *** Ownership *)

Definition groupOf (apiVersion : string) : string :=
  match ParseGroupVersion apiVersion with
  | Some (g, _) => g
  | None => ""
  end.

Definition referSameObject (a b : OwnerReference) : bool :=
  bool_decide (groupOf (own_APIVersion a) = groupOf (own_APIVersion b))
  && bool_decide (own_Kind a = own_Kind b)
  && bool_decide (own_Name a = own_Name b).

Fixpoint upsertOwnerRef (ref : OwnerReference) (l : list OwnerReference)
    : list OwnerReference :=
  match l with
  | [] => [ref]
  | r :: l' => if referSameObject r ref then ref :: l' else r :: upsertOwnerRef ref l'
  end.

Definition ClusterAPIVersion := "cluster.x-k8s.io/v1beta1".
Definition ClusterKind := "Cluster".

Definition controllerRefOf (cluster : Cluster) : OwnerReference :=
  mkOwner ClusterAPIVersion ClusterKind (Name cluster) (UID cluster) true true.

(** [controllerutil.SetControllerReference]: refuses an object that another
    controller owns, otherwise inserts or refreshes the owner reference. *)
Definition SetControllerReference (env : Env) (cluster : Cluster) (o : Unstructured)
    : Unstructured + error :=
  match faults env (OpSetControllerReference (key_of o)) with
  | Some err => inr err
  | None =>
      let ref := controllerRefOf cluster in
      match List.find own_Controller (obj_OwnerReferences o) with
      | Some existing =>
          if referSameObject existing ref
          then inl (SetOwnerReferences (upsertOwnerRef ref (obj_OwnerReferences o)) o)
          else inr ErrAlreadyOwned
      | None => inl (SetOwnerReferences (upsertOwnerRef ref (obj_OwnerReferences o)) o)
      end
  end.

(** *** Writes to the API server *)

(** [patchHelper.Patch]: on success the server holds the object as mutated. *)
Definition Patch {R} (env : Env) (o : Unstructured) : M R (option error) :=
  match faults env (OpPatch (key_of o)) with
  | Some err => mret (Some err)
  | None => _ ← modifyWorld (with_objects (<[key_of o := o]>)); mret None
  end.

(** [r.Client.Update]: a full update, the stored object is replaced. *)
Definition Update {R} (env : Env) (o : Unstructured) : M R (option error) :=
  match faults env (OpUpdate (key_of o)) with
  | Some err => mret (Some err)
  | None => _ ← modifyWorld (with_objects (<[key_of o := o]>)); mret None
  end.

(** [r.externalTracker.Watch]: remembers the kind; idempotent. *)
Definition Watch {R} (env : Env) (o : Unstructured) : M R (option error) :=
  match faults env (OpWatch (obj_Kind o)) with
  | Some err => mret (Some err)
  | None =>
      _ ← modifyWorld (λ w, mkWorld (objects w) (secrets w) ({[obj_Kind o]} ∪ watches w));
      mret None
  end.

(** *** Conditions *)

Definition ReadyCondition := "Ready".
Definition InfrastructureReadyCondition := "InfrastructureReady".
Definition WaitingForInfrastructureFallbackReason := "WaitingForInfrastructure".
Definition ControlPlaneReadyCondition := "ControlPlaneReady".
Definition WaitingForControlPlaneFallbackReason := "WaitingForControlPlane".
Definition ControlPlaneInitializedCondition := "ControlPlaneInitialized".
Definition WaitingForControlPlaneProviderInitializedReason :=
  "WaitingForControlPlaneProviderInitialized".
Definition ManagedExternalEtcdClusterInitializedCondition := "ManagedEtcdInitialized".
Definition ManagedExternalEtcdClusterReadyCondition := "ManagedEtcdReady".
Definition WaitingForEtcdClusterInitializedReason :=
  "WaitingForEtcdClusterProviderInitialized".

Definition conditions_Get (cs : list Condition) (t : string) : option Condition :=
  List.find (λ c, bool_decide (cond_Type c = t)) cs.

(** Modelled from the spec: [conditions.IsTrue] is not among the sources; the
    condition of that type exists and its status is True. *)
Definition conditions_IsTrue (cluster : Cluster) (t : string) : bool :=
  match conditions_Get (Conditions (Status cluster)) t with
  | Some c => bool_decide (cond_Status c = ConditionTrue)
  | None => false
  end.

Definition stamp (t : Time) (c : Condition) : Condition :=
  mkCondition (cond_Type c) (cond_Status c) (cond_Severity c) t
              (cond_Reason c) (cond_Message c).

Fixpoint replaceCondition (tnow : Time) (c : Condition) (cs : list Condition)
    : list Condition :=
  match cs with
  | [] => [stamp tnow c]
  | e :: cs' =>
      if bool_decide (cond_Type e = cond_Type c)
      then (if bool_decide (cond_Status e = cond_Status c)
            then stamp (cond_LastTransitionTime e) c
            else stamp tnow c) :: cs'
      else e :: replaceCondition tnow c cs'
  end.

(** Modelled from the spec: [conditions.Set] is not among the sources.  The
    condition set holds at most one entry per type, and lastTransitionTime
    changes exactly when the status does. *)
Definition conditions_Set (env : Env) (c : Condition) (cluster : Cluster) : Cluster :=
  with_Status (λ s, set_Conditions (replaceCondition (now env) c (Conditions s)) s) cluster.

Definition TrueCondition (t : string) : Condition :=
  mkCondition t ConditionTrue SeverityNone 0 "" "".

Definition FalseCondition (t reason : string) (sev : ConditionSeverity) (msg : string)
    : Condition :=
  mkCondition t ConditionFalse sev 0 reason msg.

Definition MarkTrue (env : Env) (t : string) : Cluster → Cluster :=
  conditions_Set env (TrueCondition t).

Definition MarkFalse (env : Env) (t reason : string) (sev : ConditionSeverity)
    (msg : string) : Cluster → Cluster :=
  conditions_Set env (FalseCondition t reason sev msg).

(** Modelled from the spec: [conditions.SetMirror] with [WithFallbackValue]
    is not among the sources.  It copies the Ready condition of the
    subordinate under the target type if there is one, else synthesizes a
    fallback whose status is the readiness. *)
Definition SetMirror (env : Env) (target : string) (from : Unstructured)
    (ready : bool) (reason : string) (sev : ConditionSeverity) (msg : string)
    : Cluster → Cluster :=
  let c :=
    match conditions_Get (obj_status_conditions from) ReadyCondition with
    | Some r => mkCondition target (cond_Status r) (cond_Severity r)
                            (cond_LastTransitionTime r) (cond_Reason r) (cond_Message r)
    | None => if ready then TrueCondition target
              else FalseCondition target reason sev msg
    end in
  conditions_Set env c.

(** *** Text of the failure message *)

Definition dquote : ascii := "034"%char.
Definition backslash : ascii := "092"%char.

Fixpoint escape (s : string) : string :=
  match s with
  | EmptyString => EmptyString
  | String c r =>
      if Ascii.eqb c dquote || Ascii.eqb c backslash
      then String backslash (String c (escape r))
      else String c (escape r)
  end.

(** The [%q] verb on a string of printable characters: the text between
    double quotes, quotes and backslashes escaped. *)
Definition Quote (s : string) : string :=
  String dquote (escape s) +:+ String dquote EmptyString.

Definition citation (o : Unstructured) : string :=
  "Failure detected from referenced resource " +:+ GVK_String (obj_GroupVersionKind o)
  +:+ " with name " +:+ Quote (obj_Name o) +:+ ": ".

(** ** The external reconciler *)

Abbreviation ExtOut := (ReconcileOutput * option error)%type.
Abbreviation PhaseOut := (Result * option error)%type.

Definition reconcileExternal (env : Env) (ref : RefField) : M ExtOut ExtOut :=
  e ← UpdateReferenceAPIContract env ref;
  _ ← check e (λ err, (ReconcileOutput_zero, Some err));

  cluster ← getCluster;
  w ← getWorld;
  obj ← orReturn (external_Get env w (get_ref ref cluster) (Namespace cluster))
        (λ err, if IsNotFound (Cause err)
                then (mkOutput (30 * Second) false None, None)
                else (ReconcileOutput_zero, Some err));

  (* if external ref is paused, return. *)
  if IsPaused cluster obj then Return (mkOutput 0 true None, None) else

  (* Initialize the patch helper. *)
  _ ← check (faults env (OpNewHelper (key_of obj)))
        (λ err, (ReconcileOutput_zero, Some err));

  (* Set external object ControllerReference to the Cluster. *)
  obj ← orReturn (SetControllerReference env cluster obj)
        (λ err, (ReconcileOutput_zero, Some err));

  (* Set the Cluster label. *)
  let labels := obj_Labels obj in
  let labels := <[ClusterLabelName := Name cluster]> labels in
  let obj := SetLabels labels obj in

  (* Always attempt to Patch the external object. *)
  e ← Patch env obj;
  _ ← check e (λ err, (ReconcileOutput_zero, Some err));

  (* Ensure we add a watcher to the external object. *)
  e ← Watch env obj;
  _ ← check e (λ err, (ReconcileOutput_zero, Some err));

  (* Set failure reason and message, if any. *)
  '(failureReason, failureMessage) ←
      orReturn (FailuresFrom obj) (λ err, (ReconcileOutput_zero, Some err));
  _ ← (if bool_decide (failureReason ≠ "")
       then modifyCluster (with_Status (set_FailureReason (Some failureReason)))
       else mret tt);
  _ ← (if bool_decide (failureMessage ≠ "")
       then modifyCluster
              (with_Status (set_FailureMessage (Some (citation obj +:+ failureMessage))))
       else mret tt);

  Return (mkOutput 0 false (Some obj), None).

(** The result of a successful [reconcileExternal] that neither requeues nor
    is paused always carries the object. *)
Definition theObject (o : option Unstructured) : Unstructured :=
  default (mkObj "" "" "" "" ∅ ∅ [] None Absent Absent Absent Absent Absent Absent []) o.

(** ** The infrastructure sub-reconciler *)

Definition reconcileInfrastructure (env : Env) : M PhaseOut PhaseOut :=
  cluster ← getCluster;
  if bool_decide (InfrastructureRef (Spec cluster) = None)
  then Return (Result_zero, None) else

  (* Call generic external reconciler. *)
  '(infraReconcileResult, err) ← call (reconcileExternal env FInfrastructureRef);
  _ ← check err (λ err, (Result_zero, Some err));
  (* Return early if we need to requeue. *)
  if bool_decide (out_RequeueAfter infraReconcileResult > 0)
  then Return (mkResult false (out_RequeueAfter infraReconcileResult), None) else
  (* If the external object is paused, return without any further processing. *)
  if out_Paused infraReconcileResult then Return (Result_zero, None) else
  let infraConfig := theObject (out_Result infraReconcileResult) in

  (* There's no need to go any further if the Cluster is marked for deletion. *)
  if negb (Time_IsZero (obj_DeletionTimestamp infraConfig))
  then Return (Result_zero, None) else

  (* Determine if the infrastructure provider is ready. *)
  ready ← orReturn (IsReady infraConfig) (λ err, (Result_zero, Some err));
  _ ← modifyCluster (with_Status (set_InfrastructureReady ready));

  (* Report a summary of current status of the infrastructure object. *)
  _ ← modifyCluster
        (SetMirror env InfrastructureReadyCondition infraConfig ready
           WaitingForInfrastructureFallbackReason SeverityInfo "");

  if negb ready then Return (Result_zero, None) else

  (* Get and parse Spec.ControlPlaneEndpoint field from the infrastructure provider. *)
  cluster ← getCluster;
  _ ← (if negb (IsValid (ControlPlaneEndpoint (Spec cluster)))
       then
         ep ← orReturn
                (UnstructuredUnmarshalField "spec.controlPlaneEndpoint"
                   (obj_spec_controlPlaneEndpoint infraConfig))
                (λ err, (Result_zero,
                         Some (ErrWrapped "failed to retrieve Spec.ControlPlaneEndpoint from infrastructure provider" err)));
         modifyCluster (with_Spec (set_ControlPlaneEndpoint ep))
       else mret tt);

  (* Get and parse Status.FailureDomains from the infrastructure provider. *)
  _ ← match UnstructuredUnmarshalField "status.failureDomains"
              (obj_status_failureDomains infraConfig) with
      | inl fds =>
          modifyCluster (with_Status (λ s, set_FailureDomains (fds ∪ FailureDomains s) s))
      | inr err =>
          if bool_decide (err ≠ ErrUnstructuredFieldNotFound)
          then Return (Result_zero,
                       Some (ErrWrapped "failed to retrieve Status.FailureDomains from infrastructure provider" err))
          else mret tt
      end;

  Return (Result_zero, None).

(** ** The control-plane sub-reconciler *)

Definition reconcileControlPlane (env : Env) : M PhaseOut PhaseOut :=
  cluster ← getCluster;
  if bool_decide (ControlPlaneRef (Spec cluster) = None)
  then Return (Result_zero, None) else

  _ ← (if bool_decide (ManagedExternalEtcdRef (Spec cluster) ≠ None) then
         (* check if the referenced etcd cluster is ready or not *)
         let etcdRef := ManagedExternalEtcdRef (Spec cluster) in
         w ← getWorld;
         externalEtcd ← orReturn (external_Get env w etcdRef (Namespace cluster))
             (λ err, if IsNotFound (Cause err)
                     then (mkResult false (30 * Second), None)
                     else (Result_zero, Some err));
         externalEtcdReady ← orReturn (IsReady externalEtcd) (λ err, (Result_zero, Some err));
         if negb externalEtcdReady then
           (* External Etcd Cluster has not been created, pause control plane
              provisioning by setting the paused annotation on the Control plane object *)
           controlPlane ← orReturn
               (external_Get env w (ControlPlaneRef (Spec cluster)) (Namespace cluster))
               (λ err, if IsNotFound (Cause err)
                       then (mkResult false (30 * Second), None)
                       else (Result_zero, Some err));
           let controlPlane := SetAnnotations {[PausedAnnotation := "true"]} controlPlane in
           e ← Update env controlPlane;
           check e (λ err, (mkResult true 0, Some err))
         else mret tt
       else mret tt);

  (* Call generic external reconciler. *)
  '(controlPlaneReconcileResult, err) ← call (reconcileExternal env FControlPlaneRef);
  _ ← check err (λ err, (Result_zero, Some err));
  (* Return early if we need to requeue. *)
  if bool_decide (out_RequeueAfter controlPlaneReconcileResult > 0)
  then Return (mkResult false (out_RequeueAfter controlPlaneReconcileResult), None) else
  (* If the external object is paused, return without any further processing. *)
  if out_Paused controlPlaneReconcileResult then Return (Result_zero, None) else
  let controlPlaneConfig := theObject (out_Result controlPlaneReconcileResult) in

  (* There's no need to go any further if the control plane resource is marked for deletion. *)
  if negb (Time_IsZero (obj_DeletionTimestamp controlPlaneConfig))
  then Return (Result_zero, None) else

  (* Determine if the control plane provider is ready. *)
  ready ← orReturn (IsReady controlPlaneConfig) (λ err, (Result_zero, Some err));
  _ ← modifyCluster (with_Status (set_ControlPlaneReady ready));

  (* Report a summary of current status of the control plane object. *)
  _ ← modifyCluster
        (SetMirror env ControlPlaneReadyCondition controlPlaneConfig ready
           WaitingForControlPlaneFallbackReason SeverityInfo "");

  (* Update cluster.Status.ControlPlaneInitialized if it hasn't already been set *)
  cluster ← getCluster;
  _ ← (if negb (conditions_IsTrue cluster ControlPlaneInitializedCondition) then
         initialized ← orReturn (IsInitialized controlPlaneConfig)
                         (λ err, (Result_zero, Some err));
         if (initialized : bool)
         then modifyCluster (MarkTrue env ControlPlaneInitializedCondition)
         else modifyCluster
                (MarkFalse env ControlPlaneInitializedCondition
                   WaitingForControlPlaneProviderInitializedReason SeverityInfo
                   "Waiting for control plane provider to indicate the control plane has been initialized")
       else mret tt);

  Return (Result_zero, None).

(** ** The etcd sub-reconciler *)

Definition reconcileEtcdCluster (env : Env) : M PhaseOut PhaseOut :=
  cluster ← getCluster;
  if bool_decide (ManagedExternalEtcdRef (Spec cluster) = None)
  then Return (Result_zero, None) else
  (* Call generic external reconciler. *)
  '(etcdPlaneReconcileResult, err) ← call (reconcileExternal env FManagedExternalEtcdRef);
  _ ← check err (λ err, (Result_zero, Some err));
  (* Return early if we need to requeue. *)
  if bool_decide (out_RequeueAfter etcdPlaneReconcileResult > 0)
  then Return (mkResult false (out_RequeueAfter etcdPlaneReconcileResult), None) else
  (* If the external object is paused, return without any further processing. *)
  if out_Paused etcdPlaneReconcileResult then Return (Result_zero, None) else
  let etcdPlaneConfig := theObject (out_Result etcdPlaneReconcileResult) in

  (* There's no need to go any further if the etcd cluster resource is marked for deletion. *)
  if negb (Time_IsZero (obj_DeletionTimestamp etcdPlaneConfig))
  then Return (Result_zero, None) else

  (* Determine if the etcd cluster is ready. *)
  ready ← orReturn (IsReady etcdPlaneConfig) (λ err, (Result_zero, Some err));
  _ ← modifyCluster (with_Status (set_ManagedExternalEtcdReady ready));

  _ ← (if (ready : bool) then
         (* resume control plane *)
         cluster ← getCluster;
         w ← getWorld;
         controlPlane ← orReturn
             (external_Get env w (ControlPlaneRef (Spec cluster)) (Namespace cluster))
             (λ err, if IsNotFound (Cause err)
                     then (mkResult false (30 * Second), None)
                     else (Result_zero, Some err));
         if HasPausedAnnotation (obj_Annotations controlPlane) then
           let controlPlane := RemoveAnnotation PausedAnnotation controlPlane in
           e ← Update env controlPlane;
           check e (λ err, (mkResult true 0, Some err))
         else mret tt
       else mret tt);

  (* Report a summary of current status of the etcd cluster object. *)
  _ ← modifyCluster
        (SetMirror env ManagedExternalEtcdClusterReadyCondition etcdPlaneConfig ready
           WaitingForEtcdClusterInitializedReason SeverityInfo "");

  (* Update the ManagedExternalEtcdClusterInitialized condition if it hasn't already been set *)
  cluster ← getCluster;
  _ ← (if negb (conditions_IsTrue cluster ManagedExternalEtcdClusterInitializedCondition) then
         initialized ← orReturn (IsInitialized etcdPlaneConfig)
                         (λ err, (Result_zero, Some err));
         if (initialized : bool) then
           _ ← modifyCluster (with_Status (set_ManagedExternalEtcdInitialized true));
           modifyCluster (MarkTrue env ManagedExternalEtcdClusterInitializedCondition)
         else modifyCluster
                (MarkFalse env ManagedExternalEtcdClusterInitializedCondition
                   WaitingForEtcdClusterInitializedReason SeverityInfo
                   "Waiting for etcd cluster provider to indicate the etcd has been initialized")
       else mret tt);
  Return (Result_zero, None).

(** ** The kubeconfig sub-reconciler *)

Definition kubeconfigSecretName (cluster : Cluster) : string := Name cluster +:+ "-kubeconfig".
Definition caSecretName (cluster : Cluster) : string := Name cluster +:+ "-ca".

(** Modelled from the spec: [secret.Get] (util/secret) is not among the
    sources; it looks up the secret named [{cluster.name}-kubeconfig] in the
    cluster's namespace. *)
Definition secret_Get (env : Env) (w : World) (cluster : Cluster) : option error :=
  match faults env (OpSecretGet (Namespace cluster) (kubeconfigSecretName cluster)) with
  | Some err => Some err
  | None =>
      if bool_decide ((Namespace cluster, kubeconfigSecretName cluster) ∈ secrets w)
      then None else Some ErrNotFound
  end.

(** Modelled from the spec: [kubeconfig.CreateSecret] (util/kubeconfig) is
    not among the sources; it mints the kubeconfig secret from the cluster CA
    secret and reports a missing CA secret by a distinguished error. *)
Definition CreateSecret {R} (env : Env) (cluster : Cluster) : M R (option error) :=
  w ← getWorld;
  if bool_decide ((Namespace cluster, caSecretName cluster) ∈ secrets w) then
    match faults env (OpCreateSecret (Namespace cluster) (kubeconfigSecretName cluster)) with
    | Some err => mret (Some err)
    | None =>
        _ ← modifyWorld (λ w, mkWorld (objects w)
                                ({[(Namespace cluster, kubeconfigSecretName cluster)]} ∪ secrets w)
                                (watches w));
        mret None
    end
  else mret (Some ErrDependentCertificateNotFound).

Definition reconcileKubeconfig (env : Env) : M PhaseOut PhaseOut :=
  cluster ← getCluster;
  if negb (IsValid (ControlPlaneEndpoint (Spec cluster)))
  then Return (Result_zero, None) else

  (* Do not generate the Kubeconfig if there is a ControlPlaneRef. *)
  if bool_decide (ControlPlaneRef (Spec cluster) ≠ None)
  then Return (Result_zero, None) else

  w ← getWorld;
  match secret_Get env w cluster with
  | Some err =>
      if IsNotFound err then
        e ← CreateSecret env cluster;
        _ ← check e (λ err,
              if bool_decide (err = ErrDependentCertificateNotFound)
              then (mkResult false (30 * Second), None)
              else (Result_zero, Some err));
        Return (Result_zero, None)
      else Return (Result_zero,
                   Some (ErrWrapped "failed to retrieve Kubeconfig Secret for Cluster" err))
  | None => Return (Result_zero, None)
  end.

(** ** The resource enumerator *)

Definition ClusterctlCoreLabelName := "clusterctl.cluster.x-k8s.io/core".
Definition ClusterctlCoreLabelCertManagerValue := "cert-manager".

Record APIResource := mkAPIResource {
  res_Name : string;
  res_Kind : string;
  res_Namespaced : bool;
  res_Verbs : list string
}.

Record APIResourceList := mkAPIResourceList {
  GroupVersion : string;
  APIResources : list APIResource
}.

Record CustomResourceDefinition := mkCRD {
  crd_Labels : gmap string string;
  crd_Group : string;
  crd_Kind : string;
  crd_Versions : list string
}.

(** The management cluster as the enumerator's two clients show it.  The
    retry wrappers only repeat a call, so each call is given by its final
    outcome. *)
Record Server := mkServer {
  srv_newClientSet : option error;
  srv_newClient : option error;
  srv_preferredResources : list APIResourceList + error;
  srv_crds : list CustomResourceDefinition + error;
  srv_objects : list Unstructured;
  srv_listFault : string → string → option error
}.

(** [client.MatchingLabels]: every pair of the selector is on the object. *)
Definition matchesLabels (labels : gmap string string) (o : Unstructured) : bool :=
  bool_decide (map_Forall (λ k v, obj_Labels o !! k = Some v) labels).

Definition inNamespace (namespace : option string) (o : Unstructured) : bool :=
  match namespace with
  | None => true
  | Some ns => bool_decide (obj_Namespace o = ns)
  end.

(** What the server answers to a list call for one apiVersion and kind. *)
Definition serverList (srv : Server) (groupVersion kind : string)
    (labels : gmap string string) (namespace : option string) : list Unstructured :=
  filter (λ o, obj_APIVersion o = groupVersion ∧ obj_Kind o = kind
               ∧ matchesLabels labels o = true ∧ inNamespace namespace o = true)
         (srv_objects srv).

Definition listObjByGVK (srv : Server) (groupVersion kind : string)
    (labels : gmap string string) (namespace : option string)
    : list Unstructured + error :=
  match srv_listFault srv groupVersion kind with
  | Some err =>
      if negb (IsNotFound err)
      then inr (ErrWrapped "failed to list objects for the GroupVersionKind" err)
      else inl []
  | None => inl (serverList srv groupVersion kind labels namespace)
  end.

(** The first loop of [ListResources]: the text of every (group, version,
    kind) whose objects are left out. *)
Definition excludeVersions (crd : CustomResourceDefinition) (acc : gset string)
    : gset string :=
  fold_left (λ acc version,
               {[ GVK_String (mkGVK (crd_Group crd) version (crd_Kind crd)) ]} ∪ acc)
            (crd_Versions crd) acc.

Definition excludeCRD (labels : gmap string string) (crd : CustomResourceDefinition)
    : bool :=
  let component := labels !! ClusterctlCoreLabelName in
  let isProviderResource := bool_decide (is_Some (crd_Labels crd !! ProviderLabelName)) in
  bool_decide (component = Some ClusterctlCoreLabelCertManagerValue) || isProviderResource.

Definition crdsToExclude (labels : gmap string string)
    (crds : list CustomResourceDefinition) : gset string :=
  fold_left (λ acc crd, if excludeCRD labels crd then excludeVersions crd acc else acc)
            crds ∅.

(** [discovery.SupportsAllVerbs{list, delete}] under [discovery.FilteredBy]:
    resources without both verbs are dropped, and so are groups left empty. *)
Definition supportsListDelete (r : APIResource) : bool :=
  bool_decide ("list" ∈ res_Verbs r) && bool_decide ("delete" ∈ res_Verbs r).

Definition FilteredBy (rls : list APIResourceList) : list APIResourceList :=
  omap (λ rl, let rs := filter (λ r, supportsListDelete r = true) (APIResources rl) in
              match rs with
              | [] => None
              | _ => Some (mkAPIResourceList (GroupVersion rl) rs)
              end) rls.

(** The resources that exist in two api groups. *)
Definition duplicatedInExtensions (groupVersion : string) (r : APIResource) : bool :=
  bool_decide (groupVersion = "extensions/v1beta1")
  && (bool_decide (res_Name r = "daemonsets") || bool_decide (res_Name r = "deployments")
      || bool_decide (res_Name r = "replicasets")
      || bool_decide (res_Name r = "networkpolicies")
      || bool_decide (res_Name r = "ingresses")).

Fixpoint listInNamespaces (srv : Server) (labels : gmap string string)
    (groupVersion kind : string) (namespaces : list string) (ret : list Unstructured)
    : list Unstructured + error :=
  match namespaces with
  | [] => inl ret
  | namespace :: rest =>
      match listObjByGVK srv groupVersion kind labels (Some namespace) with
      | inr err => inr err
      | inl items => listInNamespaces srv labels groupVersion kind rest (ret ++ items)%list
      end
  end.

Fixpoint listKinds (srv : Server) (labels : gmap string string) (excluded : gset string)
    (namespaces : list string) (groupVersion : string) (kinds : list APIResource)
    (ret : list Unstructured) : list Unstructured + error :=
  match kinds with
  | [] => inl ret
  | resourceKind :: rest =>
      if duplicatedInExtensions groupVersion resourceKind
      then listKinds srv labels excluded namespaces groupVersion rest ret
      else
        match ParseGroupVersion groupVersion with
        | None => inr (ErrWrapped "failed to parse GroupVersion" (ErrServer groupVersion))
        | Some (g, v) =>
            if bool_decide (GVK_String (mkGVK g v (res_Kind resourceKind)) ∈ excluded)
            then listKinds srv labels excluded namespaces groupVersion rest ret
            else
              let listed :=
                if res_Namespaced resourceKind
                then listInNamespaces srv labels groupVersion (res_Kind resourceKind)
                                      namespaces ret
                else match listObjByGVK srv groupVersion (res_Kind resourceKind) labels None with
                     | inr err => inr err
                     | inl items => inl (ret ++ items)%list
                     end in
              match listed with
              | inr err => inr err
              | inl ret => listKinds srv labels excluded namespaces groupVersion rest ret
              end
        end
  end.

Fixpoint listGroups (srv : Server) (labels : gmap string string) (excluded : gset string)
    (namespaces : list string) (groups : list APIResourceList) (ret : list Unstructured)
    : list Unstructured + error :=
  match groups with
  | [] => inl ret
  | resourceGroup :: rest =>
      match listKinds srv labels excluded namespaces (GroupVersion resourceGroup)
                      (APIResources resourceGroup) ret with
      | inr err => inr err
      | inl ret => listGroups srv labels excluded namespaces rest ret
      end
  end.

Definition ListResources (srv : Server) (labels : gmap string string)
    (namespaces : list string) : list Unstructured + error :=
  match srv_newClientSet srv with
  | Some err => inr err
  | None =>
  match srv_newClient srv with
  | Some err => inr err
  | None =>
  (* Get all the API resources in the cluster. *)
  match srv_preferredResources srv with
  | inr err => inr (ErrWrapped "failed to list api resources" err)
  | inl resourceList =>
  (* Exclude from discovery the objects from the cert-manager/provider's CRDs. *)
  match srv_crds srv with
  | inr err => inr (ErrWrapped "failed to list CRDs" err)
  | inl crdList =>
      let excluded := crdsToExclude labels crdList in
      (* Select resources with list and delete methods *)
      let resourceList := FilteredBy resourceList in
      listGroups srv labels excluded namespaces resourceList []
  end end end end.

(** ** Statements about the phase labeler *)

Definition failureSet (c : Cluster) : Prop :=
  FailureReason (Status c) ≠ None ∨ FailureMessage (Status c) ≠ None.

Definition deletionSet (c : Cluster) : Prop :=
  Time_IsZero (DeletionTimestamp c) = false.

(** Failed exactly when a failure field is set, Deleting under a deletion
    timestamp. *)
Definition phaseInvariant (c : Cluster) : Prop :=
  let c' := reconcilePhase c in
  if Time_IsZero (DeletionTimestamp c')
  then Phase (Status c') = ClusterPhaseFailed ↔ failureSet c'
  else Phase (Status c') = ClusterPhaseDeleting.

(** No clause before the Failed one fires: the phase is not empty, there is
    no infrastructure reference, and the cluster is not provisioned. *)
Definition phaseKept (c : Cluster) : Prop :=
  InfrastructureRef (Spec c) = None
  ∧ InfrastructureReady (Status c) && IsValid (ControlPlaneEndpoint (Spec c)) = false.

Definition emptyStatus : ClusterStatus :=
  mkStatus ∅ None None "" false false false false [].

Definition emptySpec : ClusterSpec :=
  mkSpec (mkEndpoint "" 0) None None None.

(** A cluster whose stored phase is Failed while nothing reports a failure. *)
Definition staleFailedCluster : Cluster :=
  mkCluster "c1" "default" "uid-1" ∅ None emptySpec
            (set_Phase ClusterPhaseFailed emptyStatus).

(** A failed cluster that is being deleted. *)
Definition failedDeletedCluster : Cluster :=
  mkCluster "c1" "default" "uid-1" ∅ (Some 1700000000) emptySpec
            (set_FailureMessage (Some "boom")
               (set_FailureReason (Some "InvalidImage") emptyStatus)).

(** ** Sequences of phases

    The entry point that orders the phases is not among the sources.  A
    reconcile is some sequence of the phases of this file, each run on the
    state its predecessor left (a phase that reports an error has still
    mutated the cluster it was given); the statements about "a reconcile"
    are made for every such sequence. *)

Inductive phase :=
  | PInfrastructure
  | PEtcdCluster
  | PControlPlane
  | PKubeconfig
  | PPhase.

Definition runPhase (env : Env) (s : State) (p : phase) : State :=
  match p with
  | PInfrastructure => (run (reconcileInfrastructure env) s).2
  | PEtcdCluster => (run (reconcileEtcdCluster env) s).2
  | PControlPlane => (run (reconcileControlPlane env) s).2
  | PKubeconfig => (run (reconcileKubeconfig env) s).2
  | PPhase => mkState (reconcilePhase (st_cluster s)) (st_world s)
  end.

Definition runPhases (env : Env) (ps : list phase) (s : State) : State :=
  fold_left (runPhase env) ps s.

(** The order the specification gives. *)
Definition reconcileOrder : list phase :=
  [PInfrastructure; PEtcdCluster; PControlPlane; PKubeconfig; PPhase].

(** What a phase may do to the two fields the invariants speak of. *)
Definition phaseFrame (c c' : Cluster) : Prop :=
  (InfrastructureRef (Spec c) = None →
     InfrastructureRef (Spec c') = None
     ∧ InfrastructureReady (Status c') = InfrastructureReady (Status c))
  ∧ (ManagedExternalEtcdInitialized (Status c) = true →
     ManagedExternalEtcdInitialized (Status c') = true).

(** What the external reconciler may do to the cluster: rewrite the
    apiVersion of the reference it was given, and write the failure fields. *)
Definition externalFrame (f : RefField) (c c' : Cluster) : Prop :=
  Name c' = Name c ∧ Namespace c' = Namespace c ∧ UID c' = UID c
  ∧ Annotations c' = Annotations c ∧ DeletionTimestamp c' = DeletionTimestamp c
  ∧ ControlPlaneEndpoint (Spec c') = ControlPlaneEndpoint (Spec c)
  ∧ (∀ g, g ≠ f → get_ref g c' = get_ref g c)
  ∧ (get_ref f c = None → get_ref f c' = None)
  ∧ (∀ r, get_ref f c = Some r →
       ∃ v, get_ref f c' = Some (mkRef v (ref_Kind r) (ref_Namespace r) (ref_Name r)))
  ∧ FailureDomains (Status c') = FailureDomains (Status c)
  ∧ Phase (Status c') = Phase (Status c)
  ∧ InfrastructureReady (Status c') = InfrastructureReady (Status c)
  ∧ ControlPlaneReady (Status c') = ControlPlaneReady (Status c)
  ∧ ManagedExternalEtcdInitialized (Status c') = ManagedExternalEtcdInitialized (Status c)
  ∧ ManagedExternalEtcdReady (Status c') = ManagedExternalEtcdReady (Status c)
  ∧ Conditions (Status c') = Conditions (Status c).

(** The claim that a reconcile clears [infrastructureReady] when there is no
    infrastructure reference. *)
Definition infrastructureReadyCleared (env : Env) (ps : list phase) (s : State) : Prop :=
  InfrastructureRef (Spec (st_cluster s)) = None →
  InfrastructureReady (Status (st_cluster (runPhases env ps s))) = false.

(** ** Scenarios *)

(** Nothing fails and every reference already has its preferred version. *)
Definition env0 : Env := mkEnv (λ _, None) (λ ref, inr (ref_APIVersion ref)) 100.

Definition emptyWorld : World := mkWorld ∅ ∅ ∅.

Definition fooRef : ObjectReference :=
  mkRef "infrastructure.cluster.x-k8s.io/v1beta1" "Foo" "default" "foo1".
Definition etcdRef : ObjectReference :=
  mkRef "etcdcluster.cluster.x-k8s.io/v1beta1" "EtcdadmCluster" "default" "etcd1".
Definition cpRef : ObjectReference :=
  mkRef "controlplane.cluster.x-k8s.io/v1beta1" "KubeadmControlPlane" "default" "cp1".

Definition objectFor (ref : ObjectReference) (annotations : gmap string string)
    (ready : Field bool) (reason message : Field string) : Unstructured :=
  mkObj (ref_APIVersion ref) (ref_Kind ref) (ref_Namespace ref) (ref_Name ref)
        annotations ∅ [] None Absent ready Absent reason message Absent [].

Definition clusterWith (annotations : gmap string string) (spec : ClusterSpec)
    (status : ClusterStatus) : Cluster :=
  mkCluster "c1" "default" "uid-1" annotations None spec status.

(** Scenario 1: only an infrastructure reference, the object absent. *)
Definition freshCluster : Cluster :=
  clusterWith ∅ (mkSpec (mkEndpoint "" 0) None (Some fooRef) None) emptyStatus.

(** Scenario 5: the infrastructure object reports a failure. *)
Definition failingFoo : Unstructured :=
  objectFor fooRef ∅ Absent (Present "InvalidImage") (Present "not found").
Definition failingWorld : World := mkWorld {[ key_of failingFoo := failingFoo ]} ∅ ∅.

(** A paused infrastructure object. *)
Definition pausedFoo : Unstructured :=
  objectFor fooRef {[ PausedAnnotation := "" ]} Absent (Present "InvalidImage") Absent.
Definition pausedWorld : World := mkWorld {[ key_of pausedFoo := pausedFoo ]} ∅ ∅.

(** No infrastructure reference, yet [infrastructureReady] stored as true. *)
Definition readyWithoutInfra : Cluster :=
  clusterWith ∅ emptySpec (set_InfrastructureReady true emptyStatus).

(** An etcd reference and no control-plane reference; etcd is ready. *)
Definition etcdOnlyCluster : Cluster :=
  clusterWith ∅ (mkSpec (mkEndpoint "" 0) None None (Some etcdRef)) emptyStatus.
Definition readyEtcd : Unstructured :=
  objectFor etcdRef ∅ (Present true) Absent Absent.
Definition etcdOnlyWorld : World := mkWorld {[ key_of readyEtcd := readyEtcd ]} ∅ ∅.

(** Scenario 3: etcd gates the control plane; the control-plane object
    carries an annotation of its own. *)
Definition gatedCluster : Cluster :=
  clusterWith ∅ (mkSpec (mkEndpoint "" 0) (Some cpRef) None (Some etcdRef)) emptyStatus.
Definition pendingEtcd : Unstructured :=
  objectFor etcdRef ∅ (Present false) Absent Absent.
Definition annotatedControlPlane : Unstructured :=
  objectFor cpRef {[ "example.com/team" := "platform" ]} Absent Absent Absent.
Definition gatedWorld : World :=
  mkWorld {[ key_of pendingEtcd := pendingEtcd;
             key_of annotatedControlPlane := annotatedControlPlane ]} ∅ ∅.

(** An initialized etcd latch, the etcd object no longer reporting so. *)
Definition latchedCluster : Cluster :=
  clusterWith ∅ (mkSpec (mkEndpoint "" 0) None None (Some etcdRef))
    (set_Conditions [stamp 50 (TrueCondition ManagedExternalEtcdClusterInitializedCondition)]
       (set_ManagedExternalEtcdInitialized true emptyStatus)).
Definition latchedWorld : World := mkWorld {[ key_of pendingEtcd := pendingEtcd ]} ∅ ∅.

(** A reference after the conversion step chose apiVersion [v] for it. *)
Definition rewritten (v : string) (r : ObjectReference) : ObjectReference :=
  mkRef v (ref_Kind r) (ref_Namespace r) (ref_Name r).

(** ** Scenario 6: CRD exclusion in the enumerator *)

(** An object was listed under a group, version and kind outside the
    exclusion set. *)
Definition listedUnder (excluded : gset string) (o : Unstructured) : Prop :=
  ∃ g v, ParseGroupVersion (obj_APIVersion o) = Some (g, v)
         ∧ GVK_String (mkGVK g v (obj_Kind o)) ∉ excluded.

(** The objects the server holds for a resource and a selector, within the
    namespaces asked for when the resource is namespaced. *)
Definition answers (srv : Server) (labels : gmap string string)
    (namespaces : list string) (gv : string) (r : APIResource) (o : Unstructured)
    : Prop :=
  o ∈ srv_objects srv ∧ obj_APIVersion o = gv ∧ obj_Kind o = res_Kind r
  ∧ matchesLabels labels o = true
  ∧ (res_Namespaced r = true → obj_Namespace o ∈ namespaces).

Definition awsSelector : gmap string string := {[ ProviderLabelName := "aws" ]}.

Definition allVerbs : list string :=
  ["create"; "delete"; "deletecollection"; "get"; "list"; "patch"; "update"; "watch"].

Definition awsResources : list APIResourceList :=
  [ mkAPIResourceList "apps/v1"
      [mkAPIResource "deployments" "Deployment" true allVerbs];
    mkAPIResourceList "extensions/v1beta1"
      [mkAPIResource "deployments" "Deployment" true allVerbs];
    mkAPIResourceList "infrastructure.cluster.x-k8s.io/v2"
      [mkAPIResource "awsclusters" "AWSCluster" true allVerbs];
    mkAPIResourceList "v1"
      [mkAPIResource "bindings" "Binding" true ["create"]] ].

Definition awsClusterCRD : CustomResourceDefinition :=
  mkCRD {[ ProviderLabelName := "aws" ]} "infrastructure.cluster.x-k8s.io" "AWSCluster"
        ["v1"; "v2"].

Definition labelled (apiVersion kind ns name : string) (labels : gmap string string)
    : Unstructured :=
  mkObj apiVersion kind ns name ∅ labels [] None Absent Absent Absent Absent Absent Absent [].

Definition awsDeployment : Unstructured :=
  labelled "apps/v1" "Deployment" "default" "capa-controller-manager" awsSelector.
Definition awsClusterV1 : Unstructured :=
  labelled "infrastructure.cluster.x-k8s.io/v1" "AWSCluster" "default" "old" awsSelector.
Definition awsClusterV2 : Unstructured :=
  labelled "infrastructure.cluster.x-k8s.io/v2" "AWSCluster" "default" "prod" awsSelector.

Definition awsServer : Server :=
  mkServer None None (inl awsResources) (inl [awsClusterCRD])
           [awsClusterV1; awsDeployment; awsClusterV2] (λ _ _, None).

(** ** Further scenarios *)

(** Scenario 2: the infrastructure object is ready and names the endpoint. *)
Definition readyFoo : Unstructured :=
  mkObj (ref_APIVersion fooRef) (ref_Kind fooRef) (ref_Namespace fooRef) (ref_Name fooRef)
        ∅ ∅ [] None (Present (mkEndpoint "1.2.3.4" 6443)) (Present true)
        Absent Absent Absent Absent [].
Definition readyFooWorld : World := mkWorld {[ key_of readyFoo := readyFoo ]} ∅ ∅.

(** The infrastructure object is ready but names no endpoint. *)
Definition readyFooNoEndpoint : Unstructured :=
  objectFor fooRef ∅ (Present true) Absent Absent.
Definition readyFooNoEndpointWorld : World :=
  mkWorld {[ key_of readyFooNoEndpoint := readyFooNoEndpoint ]} ∅ ∅.

(** The two latched conditions. *)
Definition isLatch (t : string) : Prop :=
  t = ControlPlaneInitializedCondition ∨ t = ManagedExternalEtcdClusterInitializedCondition.

(** A Cluster whose control plane was seen initialized, the control-plane
    object no longer saying so. *)
Definition initializedCluster : Cluster :=
  clusterWith ∅ (mkSpec (mkEndpoint "" 0) (Some cpRef) None None)
    (set_Conditions [stamp 50 (TrueCondition ControlPlaneInitializedCondition)] emptyStatus).
Definition plainControlPlane : Unstructured := objectFor cpRef ∅ Absent Absent Absent.
Definition initializedWorld : World :=
  mkWorld {[ key_of plainControlPlane := plainControlPlane ]} ∅ ∅.

(** An API server that refuses every update. *)
Definition updateFailsEnv : Env :=
  mkEnv (λ op, match op with
               | OpUpdate _ => Some (ErrServer "the object has been modified")
               | _ => None
               end)
        (λ ref, inr (ref_APIVersion ref)) 100.

(** Scenario 4: the control plane is paused and carries an annotation of its
    own; etcd is ready. *)
Definition pausedControlPlane : Unstructured :=
  objectFor cpRef {[ PausedAnnotation := "true"; "example.com/team" := "platform" ]}
            Absent Absent Absent.
Definition resumeWorld : World :=
  mkWorld {[ key_of readyEtcd := readyEtcd;
             key_of pausedControlPlane := pausedControlPlane ]} ∅ ∅.

(** A Cluster with a valid endpoint and no control-plane provider. *)
Definition bareCluster : Cluster :=
  clusterWith ∅ (mkSpec (mkEndpoint "1.2.3.4" 6443) None None None) emptyStatus.
Definition caWorld : World := mkWorld ∅ {[ ("default", "c1-ca") ]} ∅.

(** ** The clusterctl proxy

    The proxy reads a kubeconfig through the client-go loader and builds
    clients from it.  The loader, the client configuration, the formatting of
    a duration and the build's version are libraries outside the sources;
    [Clientcmd] holds what they answer. *)

Record Kubeconfig := mkKubeconfig {
  kc_Path : string;
  kc_Context : string
}.

Record KubeContext := mkKubeContext {
  ctx_Cluster : string;
  ctx_AuthInfo : string;
  ctx_Namespace : string
}.

Record ApiConfig := mkApiConfig {
  CurrentContext : string;
  Contexts : gmap string KubeContext
}.

Record ClientConfigLoadingRules := mkRules {
  ExplicitPath : string;
  Precedence : list string
}.

Record proxy := mkProxy {
  kubeconfig : Kubeconfig;
  timeout : Duration;
  configLoadingRules : ClientConfigLoadingRules
}.

Record ConfigOverrides := mkOverrides {
  ov_CurrentContext : string;
  ov_Timeout : string
}.

(** [rest.Config]; [QPS] is a float in Go and only ever assigned the literal
    20 here, which the integer stands for. *)
Record RestConfig := mkRestConfig {
  rc_Host : string;
  rc_UserAgent : string;
  rc_QPS : Z;
  rc_Burst : Z
}.

Record Clientcmd := mkClientcmd {
  cc_defaultRules : ClientConfigLoadingRules;
  cc_Load : ClientConfigLoadingRules → ApiConfig + error;
  (** the client configuration, or the text of its error *)
  cc_ClientConfig : ApiConfig → ConfigOverrides → RestConfig + string;
  cc_durationString : Duration → string;
  cc_GitVersion : string;
  cc_Platform : string
}.

(** [errors.Errorf] and [errors.New]: an error that is only its text. *)
Definition Errorf (msg : string) : error := ErrServer msg.

Definition GetExplicitFile (rules : ClientConfigLoadingRules) : string :=
  ExplicitPath rules.

Definition GetLoadingPrecedence (rules : ClientConfigLoadingRules) : list string :=
  if bool_decide (ExplicitPath rules ≠ "") then [ExplicitPath rules] else Precedence rules.

Fixpoint joinWith (sep : string) (l : list string) : string :=
  match l with
  | [] => ""
  | [x] => x
  | x :: rest => x +:+ sep +:+ joinWith sep rest
  end.

(** The [%q] verb on a slice of strings. *)
Definition QuoteList (l : list string) : string :=
  "[" +:+ joinWith " " (Quote <$> l) +:+ "]".

Definition CurrentNamespace (lib : Clientcmd) (k : proxy) : string + error :=
  match cc_Load lib (configLoadingRules k) with
  | inr err => inr (ErrWrapped "failed to load Kubeconfig" err)
  | inl config =>
      let context := CurrentContext config in
      (* If a context is explicitly provided use that instead *)
      let context :=
        if bool_decide (kc_Context (kubeconfig k) ≠ "")
        then kc_Context (kubeconfig k) else context in
      match Contexts config !! context with
      | None =>
          if bool_decide (kc_Path (kubeconfig k) ≠ "")
          then inr (Errorf ("failed to get context " +:+ Quote context +:+ " from "
                            +:+ Quote (GetExplicitFile (configLoadingRules k))))
          else inr (Errorf ("failed to get context " +:+ Quote context +:+ " from "
                            +:+ QuoteList (GetLoadingPrecedence (configLoadingRules k))))
      | Some v =>
          if bool_decide (ctx_Namespace v ≠ "") then inl (ctx_Namespace v)
          else inl "default"
      end
  end.

(** [strings.HasPrefix]. *)
Definition HasPrefix (s prefix : string) : bool := String.prefix prefix s.

Fixpoint dropString (n : nat) (s : string) : string :=
  match n, s with
  | O, _ => s
  | S n', String _ r => dropString n' r
  | S _, EmptyString => EmptyString
  end.

(** [strings.Replace(s, old, new, 1)]: the first occurrence of [old], if
    there is one, gives way to [new]. *)
Fixpoint replaceFirst (old new s : string) : string :=
  if String.prefix old s then new +:+ dropString (String.length old) s
  else match s with
       | EmptyString => EmptyString
       | String c r => String c (replaceFirst old new r)
       end.

Definition invalidConfigurationPrefix := "invalid configuration:".
Definition invalidKubeconfigPrefix :=
  "invalid kubeconfig file; clusterctl requires a valid kubeconfig file to connect to the management cluster:".

Definition GetConfig (lib : Clientcmd) (k : proxy) : RestConfig + error :=
  match cc_Load lib (configLoadingRules k) with
  | inr err => inr (ErrWrapped "failed to load Kubeconfig" err)
  | inl config =>
      let configOverrides :=
        mkOverrides (kc_Context (kubeconfig k)) (cc_durationString lib (timeout k)) in
      match cc_ClientConfig lib config configOverrides with
      | inr errText =>
          if HasPrefix errText invalidConfigurationPrefix
          then inr (Errorf (replaceFirst invalidConfigurationPrefix
                                         invalidKubeconfigPrefix errText))
          else inr (Errorf errText)
      | inl restConfig =>
          let userAgent :=
            "clusterctl/" +:+ cc_GitVersion lib +:+ " (" +:+ cc_Platform lib +:+ ")" in
          (* Set QPS and Burst to a threshold that ensures the client doesn't
             generate throttling log messages *)
          inl (mkRestConfig (rc_Host restConfig) userAgent 20 100)
      end
  end.

(** Go leaves the order of a [range] over a map unspecified; the order of
    [map_to_list] stands for whichever order a run takes, and statements
    about the result speak of membership only. *)
Definition GetContexts (lib : Clientcmd) (k : proxy) (prefix : string)
    : list string + error :=
  match cc_Load lib (configLoadingRules k) with
  | inr err => inr err
  | inl config =>
      inl (filter (λ name, HasPrefix name prefix = true)
                  ((map_to_list (Contexts config)).*1))
  end.

(** The list options a caller passes are a label selector and, possibly, a
    namespace, as in [ListResources]. *)
Definition GetResourceNames (srv : Server) (groupVersion kind : string)
    (labels : gmap string string) (namespace : option string) (prefix : string)
    : list string + error :=
  match srv_newClient srv with
  | Some err => inr err
  | None =>
      match listObjByGVK srv groupVersion kind labels namespace with
      | inr err => inr err
      | inl items =>
          inl (filter (λ name, HasPrefix name prefix = true) (obj_Name <$> items))
      end
  end.

(** [ProxyOption]: a function that changes the proxy. *)
Definition ProxyOption := proxy → proxy.



Definition newProxy (lib : Clientcmd) (kubeconfig : Kubeconfig) (opts : list ProxyOption)
    : proxy :=
  (* If a kubeconfig file isn't provided, find one in the standard locations. *)
  let rules := cc_defaultRules lib in
  let rules :=
    if bool_decide (kc_Path kubeconfig ≠ "")
    then mkRules (kc_Path kubeconfig) (Precedence rules) else rules in
  let p := mkProxy kubeconfig (30 * Second) rules in
  fold_left (λ p o, o p) opts p.


(** An object of the result was listed for a resource of the discovery list
    that has the list and delete verbs and is not one of the aliases, under
    the selector, and within the namespaces when the resource is namespaced. *)
Definition listedFor (srv : Server) (labels : gmap string string)
    (namespaces : list string) (rls : list APIResourceList) (o : Unstructured) : Prop :=
  o ∈ srv_objects srv ∧ matchesLabels labels o = true
  ∧ ∃ rl r, rl ∈ rls ∧ r ∈ APIResources rl
            ∧ supportsListDelete r = true
            ∧ duplicatedInExtensions (GroupVersion rl) r = false
            ∧ obj_APIVersion o = GroupVersion rl ∧ obj_Kind o = res_Kind r
            ∧ (res_Namespaced r = true → obj_Namespace o ∈ namespaces).

(** Proxy scenarios. *)
Definition devConfig : ApiConfig :=
  mkApiConfig "dev"
    {[ "dev" := mkKubeContext "dev-cluster" "me" "";
       "prod" := mkKubeContext "prod-cluster" "me" "capi-system";
       "prod-eu" := mkKubeContext "prod-eu-cluster" "me" "capi-eu" ]}.

Definition devLib : Clientcmd :=
  mkClientcmd (mkRules "" ["/home/me/.kube/config"])
              (λ _, inl devConfig)
              (λ _ _, inr "invalid configuration: no server found")
              (λ _, "30s") "v1.2.3" "linux/amd64".

(** An object was listed for one of the resources [kinds] of the group
    version [gv]. *)
Definition listedIn (srv : Server) (labels : gmap string string)
    (namespaces : list string) (gv : string) (kinds : list APIResource)
    (o : Unstructured) : Prop :=
  o ∈ srv_objects srv ∧ matchesLabels labels o = true ∧ obj_APIVersion o = gv
  ∧ ∃ r, r ∈ kinds ∧ duplicatedInExtensions gv r = false
         ∧ obj_Kind o = res_Kind r
         ∧ (res_Namespaced r = true → obj_Namespace o ∈ namespaces).

(** A list call failed with something other than not-found. *)
Definition listFailure (srv : Server) (e : error) : Prop :=
  ∃ gv kind e', srv_listFault srv gv kind = Some e' ∧ IsNotFound e' = false
                ∧ e = ErrWrapped "failed to list objects for the GroupVersionKind" e'.

(** A server whose AWSCluster resource has gone: listing it answers
    not-found. *)
Definition awsServerCRDGone : Server :=
  mkServer None None (inl awsResources) (inl [])
           [awsDeployment]
           (λ gv kind, if bool_decide (kind = "AWSCluster") then Some ErrNotFound else None).

(** ** The pause gate and the conversion step *)

(** The claim that a paused reference leaves everything as it was: the
    external reconciler answers [{paused: true}] and the state it leaves is
    the state it was given. *)
Definition pausedWithoutMutation (env : Env) (f : RefField) (s : State) : Prop :=
  ∀ ref v obj,
    get_ref f (st_cluster s) = Some ref →
    contractVersion env ref = inr v →
    external_Get env (st_world s) (Some (rewritten v ref)) (Namespace (st_cluster s))
    = inl obj →
    HasPausedAnnotation (obj_Annotations obj) = true
    ∨ HasPausedAnnotation (Annotations (st_cluster s)) = true →
    run (reconcileExternal env f) s = ((mkOutput 0 true None, None), s).

(** The conversion collaborator prefers v1beta2 for every reference. *)
Definition upgradingEnv : Env :=
  mkEnv (λ _, None) (λ _, inr "infrastructure.cluster.x-k8s.io/v1beta2") 100.

(** The paused infrastructure object, served at v1beta2. *)
Definition pausedFooV2 : Unstructured :=
  objectFor (rewritten "infrastructure.cluster.x-k8s.io/v1beta2" fooRef)
            {[ PausedAnnotation := "" ]} Absent Absent Absent.
Definition pausedV2World : World := mkWorld {[ key_of pausedFooV2 := pausedFooV2 ]} ∅ ∅.

(** * Properties *)

(** ** The phase labeler *)

(** The labeler in closed form: only the phase changes, and the last clause
    that fires decides it. *)
Lemma reconcilePhase_unfold (c : Cluster) :
  reconcilePhase c =
  SetTypedPhase
    (if negb (Time_IsZero (DeletionTimestamp c)) then ClusterPhaseDeleting
     else if bool_decide (FailureReason (Status c) ≠ None)
             || bool_decide (FailureMessage (Status c) ≠ None) then ClusterPhaseFailed
     else if InfrastructureReady (Status c) && IsValid (ControlPlaneEndpoint (Spec c))
          then ClusterPhaseProvisioned
     else if bool_decide (InfrastructureRef (Spec c) ≠ None) then ClusterPhaseProvisioning
     else if bool_decide (Phase (Status c) = "") then ClusterPhasePending
     else Phase (Status c)) c.
Proof.
  destruct c as [n ns u an dt [ep cp ir er] [fd fr fm ph iry cpr ei ery cs]].
  unfold reconcilePhase; cbn.
  destruct (bool_decide (ph = "")); cbn;
    destruct (bool_decide (ir ≠ None)); cbn;
    destruct (iry && IsValid ep); cbn;
    destruct (bool_decide (fr ≠ None) || bool_decide (fm ≠ None)); cbn;
    destruct (negb (Time_IsZero dt)); reflexivity.
Qed.

Lemma reconcilePhase_spec_eq (c : Cluster) :
  reconcilePhase c = phaseLabeler_spec c.
Proof. reflexivity. Qed.

Lemma not_None_bool {A} (o : option A) :
  bool_decide (o ≠ None) = false → o = None.
Proof. intros H. apply bool_decide_eq_false in H. destruct o; [exfalso; apply H |]; done. Qed.

(** C1 (as stated) fails: a cluster stored with phase Failed and no failure
    field keeps the phase Failed when no earlier clause fires. *)
Lemma phaseInvariant_counterexample : ¬ phaseInvariant staleFailedCluster.
Proof.
  unfold phaseInvariant. cbn. intros [H _].
  destruct (H eq_refl) as [Hr | Hm]; [apply Hr | apply Hm]; reflexivity.
Qed.

(** C1 (amended): after the phase labeler a cluster with a deletion
    timestamp is Deleting; without one, its phase is Failed exactly when a
    failure field is set, or when the phase was Failed on input and neither
    the Provisioning nor the Provisioned clause fired. *)
Theorem reconcilePhase_failed_iff (c : Cluster) :
  let c' := reconcilePhase c in
  if Time_IsZero (DeletionTimestamp c)
  then Phase (Status c') = ClusterPhaseFailed
       ↔ failureSet c ∨ (Phase (Status c) = ClusterPhaseFailed ∧ phaseKept c)
  else Phase (Status c') = ClusterPhaseDeleting.
Proof.
  cbv zeta. rewrite reconcilePhase_unfold.
  unfold failureSet, phaseKept.
  destruct (Time_IsZero (DeletionTimestamp c)); cbn; [| reflexivity].
  destruct (bool_decide (FailureReason (Status c) ≠ None)) eqn:Hfr; cbn.
  { apply bool_decide_eq_true in Hfr. split; [intros _; auto | reflexivity]. }
  destruct (bool_decide (FailureMessage (Status c) ≠ None)) eqn:Hfm; cbn.
  { apply bool_decide_eq_true in Hfm. split; [intros _; auto | reflexivity]. }
  apply not_None_bool in Hfr, Hfm. rewrite Hfr, Hfm.
  destruct (InfrastructureReady (Status c) && IsValid (ControlPlaneEndpoint (Spec c))); cbn.
  { split; [discriminate | intros [[H | H] | (_ & _ & H)]; congruence]. }
  destruct (bool_decide (InfrastructureRef (Spec c) ≠ None)) eqn:Hir; cbn.
  { apply bool_decide_eq_true in Hir.
    split; [discriminate | intros [[H | H] | (_ & H & _)]; congruence]. }
  apply not_None_bool in Hir.
  destruct (bool_decide_reflect (Phase (Status c) = "")) as [Hph | Hph]; cbn.
  { split; [discriminate | intros [[H | H] | (H & _)]; [congruence.. |]].
    rewrite Hph in H. discriminate. }
  split; [intros ->; right; done | intros [[H | H] | (H & _)]; congruence].
Qed.

(** C2: for every Cluster the labeler is the run, in this order, of the five
    clauses Pending, Provisioning, Provisioned, Failed, Deleting, each one
    setting the phase when its condition holds on the cluster as it then is;
    so the phase is that of the last clause that fires, and a cluster with
    both failure fields set and a deletion timestamp set is Failed after the
    fourth clause and ends in Deleting, not Failed, after the fifth. *)
Theorem reconcilePhase_failed_deleted (c : Cluster) :
  reconcilePhase c
  = fold_left (λ (c : Cluster) (cl : (Cluster → bool) * string),
                 if cl.1 c then SetTypedPhase cl.2 c else c)
      [ (λ c, bool_decide (Phase (Status c) = ""), "Pending");
        (λ c, bool_decide (InfrastructureRef (Spec c) ≠ None), "Provisioning");
        (λ c, InfrastructureReady (Status c) && IsValid (ControlPlaneEndpoint (Spec c)),
         "Provisioned");
        (λ c, bool_decide (FailureReason (Status c) ≠ None)
              || bool_decide (FailureMessage (Status c) ≠ None), "Failed");
        (λ c, negb (Time_IsZero (DeletionTimestamp c)), "Deleting") ] c
  ∧ reconcilePhase c
    = with_Status
        (set_Phase
           (if negb (Time_IsZero (DeletionTimestamp c)) then "Deleting"
            else if bool_decide (FailureReason (Status c) ≠ None)
                    || bool_decide (FailureMessage (Status c) ≠ None) then "Failed"
            else if InfrastructureReady (Status c)
                    && IsValid (ControlPlaneEndpoint (Spec c)) then "Provisioned"
            else if bool_decide (InfrastructureRef (Spec c) ≠ None) then "Provisioning"
            else if bool_decide (Phase (Status c) = "") then "Pending"
            else Phase (Status c))) c
  ∧ (FailureReason (Status c) ≠ None →
     FailureMessage (Status c) ≠ None →
     deletionSet c →
     Phase (Status
              (fold_left (λ (c : Cluster) (cl : (Cluster → bool) * string),
                 if cl.1 c then SetTypedPhase cl.2 c else c)
                 [ (λ c, bool_decide (Phase (Status c) = ""), "Pending");
                   (λ c, bool_decide (InfrastructureRef (Spec c) ≠ None), "Provisioning");
                   (λ c, InfrastructureReady (Status c)
                         && IsValid (ControlPlaneEndpoint (Spec c)), "Provisioned");
                   (λ c, bool_decide (FailureReason (Status c) ≠ None)
                         || bool_decide (FailureMessage (Status c) ≠ None), "Failed") ] c))
     = "Failed"
     ∧ Phase (Status (reconcilePhase c)) = "Deleting"
     ∧ Phase (Status (reconcilePhase c)) ≠ "Failed").
Proof.
  split; [reflexivity |]. split; [apply reconcilePhase_unfold |].
  intros Hfr Hfm Hdel. split.
  - destruct c as [n ns u an dt [ep cp ir er] [fd fr fm ph iry cpr ei ery cs]].
    cbn in Hfr, Hfm. cbn [fold_left fst snd].
    unfold SetTypedPhase, with_Status, set_Phase; cbn.
    destruct (bool_decide (ph = "")); cbn;
      destruct (bool_decide (ir ≠ None)); cbn;
      destruct (iry && IsValid ep); cbn;
      by rewrite (bool_decide_eq_true_2 _ Hfr).
  - rewrite reconcilePhase_unfold. unfold deletionSet in Hdel. rewrite Hdel. cbn.
    split; [reflexivity | discriminate].
Qed.

Lemma reconcilePhase_failed_deleted_witness :
  Phase (Status (reconcilePhase failedDeletedCluster)) = "Deleting"
  ∧ Phase (Status (reconcilePhase failedDeletedCluster)) ≠ "Failed".
Proof.
  destruct (reconcilePhase_failed_deleted failedDeletedCluster) as (_ & _ & H).
  destruct H as (_ & H5 & H6); [discriminate | discriminate | reflexivity |].
  split; [exact H5 | exact H6].
Defined.

(** ** The external reconciler *)

Ltac innermost x :=
  lazymatch x with
  | context [match ?y with _ => _ end] => innermost y
  | _ => x
  end.

(** Case analysis on the first test the code performs. *)
Ltac case_inner :=
  match goal with
  | |- context [match ?x with _ => _ end] =>
      let y := innermost x in destruct y eqn:?
  end.

Ltac munfold :=
  unfold UpdateReferenceAPIContract, check, orReturn, Patch, Update, Watch, Return,
    getCluster, getWorld, modifyCluster, modifyWorld, call, run,
    mbind, M_bind, mret, M_ret.

Ltac mexec := repeat (case_inner; cbn [st_cluster st_world fst snd]).

Lemma externalFrame_refl f c : externalFrame f c c.
Proof. unfold externalFrame. repeat split; eauto. intros r ->. destruct r; eauto. Qed.

Lemma externalFrame_set_ref f c r v :
  get_ref f c = Some r →
  externalFrame f c (set_ref f (Some (mkRef v (ref_Kind r) (ref_Namespace r) (ref_Name r))) c).
Proof.
  intros Hr. destruct c as [n ns u an dt [ep cp ir er] st].
  unfold externalFrame. destruct f; cbn in *; subst;
    repeat split; try done; try (intros g Hg; destruct g; done);
    intros r' [= <-]; eauto.
Qed.

Lemma externalFrame_failures f c c' fr fm :
  externalFrame f c c' →
  externalFrame f c (with_Status (set_FailureMessage fm) (with_Status (set_FailureReason fr) c'))
  ∧ externalFrame f c (with_Status (set_FailureMessage fm) c')
  ∧ externalFrame f c (with_Status (set_FailureReason fr) c').
Proof.
  destruct c' as [n ns u an dt [ep cp ir er] st].
  unfold externalFrame. destruct f; cbn; intros H; repeat split; try apply H;
    try (intros g Hg; destruct H as (_&_&_&_&_&_&H&_); specialize (H g Hg);
         destruct g; done).
Qed.

Lemma reconcileExternal_frame env f s :
  externalFrame f (st_cluster s) (st_cluster (run (reconcileExternal env f) s).2).
Proof.
  unfold reconcileExternal. munfold. destruct s as [c w]. cbn [st_cluster st_world].
  mexec;
    first [ apply externalFrame_refl
          | by apply externalFrame_set_ref
          | by eapply externalFrame_failures, externalFrame_set_ref ].
Qed.

Lemma set_ref_facts f r c :
  Annotations (set_ref f r c) = Annotations c
  ∧ Namespace (set_ref f r c) = Namespace c
  ∧ Name (set_ref f r c) = Name c
  ∧ Status (set_ref f r c) = Status c
  ∧ get_ref f (set_ref f r c) = r.
Proof. destruct f; done. Qed.

(** C8 (as stated) fails: the conversion step runs before the pause gate
    and rewrites the reference's apiVersion on the Cluster; with a
    collaborator that prefers v1beta2 a paused reference comes back as
    [{paused: true}] with [spec.infrastructureRef.apiVersion] changed from
    v1beta1 to v1beta2. *)
Lemma pausedWithoutMutation_counterexample :
  ¬ pausedWithoutMutation upgradingEnv FInfrastructureRef
      (mkState freshCluster pausedV2World).
Proof.
  unfold pausedWithoutMutation. intros H.
  specialize (H fooRef "infrastructure.cluster.x-k8s.io/v1beta2" pausedFooV2
                eq_refl eq_refl).
  cbn [st_cluster st_world] in H.
  assert (external_Get upgradingEnv pausedV2World
            (Some (rewritten "infrastructure.cluster.x-k8s.io/v1beta2" fooRef))
            (Namespace freshCluster) = inl pausedFooV2) as Hget
    by (vm_compute; reflexivity).
  assert (HasPausedAnnotation (obj_Annotations pausedFooV2) = true) as Hp
    by (vm_compute; reflexivity).
  specialize (H Hget (or_introl Hp)).
  apply (f_equal (λ r, ref_APIVersion <$> InfrastructureRef (Spec (st_cluster r.2)))) in H.
  vm_compute in H. discriminate H.
Qed.

(** C8 (amended): when the fetched object or the Cluster carries the paused
    annotation, the external reconciler returns [{paused: true}] with a nil
    error, and the one thing it has changed is the apiVersion of the
    reference it was given, rewritten by the conversion step that precedes
    the gate: the API server holds what it held (no patch, so no owner
    reference and no cluster-name label is written), the Cluster's status,
    failure fields included, its metadata, its endpoint and its other
    references are as they were, and where the preferred version is the
    reference's own the state is the state on input. *)
Theorem reconcileExternal_paused env f cluster w ref v obj :
  get_ref f cluster = Some ref →
  contractVersion env ref = inr v →
  external_Get env w (Some (rewritten v ref)) (Namespace cluster) = inl obj →
  HasPausedAnnotation (obj_Annotations obj) = true
  ∨ HasPausedAnnotation (Annotations cluster) = true →
  ∃ s', run (reconcileExternal env f) (mkState cluster w)
        = ((mkOutput 0 true None, None), s')
        ∧ st_world s' = w
        ∧ st_cluster s' = set_ref f (Some (rewritten v ref)) cluster
        ∧ get_ref f (st_cluster s')
          = Some (mkRef v (ref_Kind ref) (ref_Namespace ref) (ref_Name ref))
        ∧ (∀ g, g ≠ f → get_ref g (st_cluster s') = get_ref g cluster)
        ∧ ControlPlaneEndpoint (Spec (st_cluster s')) = ControlPlaneEndpoint (Spec cluster)
        ∧ Name (st_cluster s') = Name cluster
        ∧ Namespace (st_cluster s') = Namespace cluster
        ∧ UID (st_cluster s') = UID cluster
        ∧ Annotations (st_cluster s') = Annotations cluster
        ∧ DeletionTimestamp (st_cluster s') = DeletionTimestamp cluster
        ∧ Status (st_cluster s') = Status cluster
        ∧ FailureReason (Status (st_cluster s')) = FailureReason (Status cluster)
        ∧ FailureMessage (Status (st_cluster s')) = FailureMessage (Status cluster)
        ∧ (v = ref_APIVersion ref → s' = mkState cluster w).
Proof.
  intros Href Hv Hget Hpaused.
  destruct (set_ref_facts f (Some (rewritten v ref)) cluster) as (Han & Hns & _ & Hst & Hr).
  unfold reconcileExternal. munfold. cbn [st_cluster st_world].
  rewrite Href, Hv. cbn [st_cluster st_world].
  fold (rewritten v ref). rewrite Hr, Hns, Hget.
  assert (IsPaused (set_ref f (Some (rewritten v ref)) cluster) obj = true) as ->.
  { unfold IsPaused. rewrite Han. destruct Hpaused as [-> | ->]; [apply orb_true_r | done]. }
  eexists. split; [reflexivity |]. cbn [st_world st_cluster]. rewrite Hst.
  split; [done |]. split; [done |]. split; [by rewrite Hr |].
  split; [by intros g Hg; destruct f, g |].
  split; [by destruct f |]. split; [by destruct f |]. split; [by destruct f |].
  split; [by destruct f |]. split; [by destruct f |]. split; [by destruct f |].
  split; [done |]. split; [done |]. split; [done |].
  intros ->. f_equal.
  destruct cluster as [n ns u an dt [ep cp ir er] st], ref as [av k rns rn].
  destruct f; cbn in Href; subst; reflexivity.
Qed.

(** C9: when the fetch fails, a not-found failure becomes
    [{requeueAfter: 30s}] with a nil error, and every other failure is
    returned as the error; in particular an object that is not stored, with
    no fault of the client, gives the requeue. *)
Theorem reconcileExternal_fetch_failure env f cluster w ref v :
  get_ref f cluster = Some ref →
  contractVersion env ref = inr v →
  (∀ err,
     external_Get env w (Some (rewritten v ref)) (Namespace cluster) = inr err →
     (run (reconcileExternal env f) (mkState cluster w)).1
     = if IsNotFound (Cause err)
       then (mkOutput (30 * Second) false None, None)
       else (ReconcileOutput_zero, Some err))
  ∧ (faults env (OpGet (v, ref_Kind ref, Namespace cluster, ref_Name ref)) = None →
     objects w !! (v, ref_Kind ref, Namespace cluster, ref_Name ref) = None →
     (run (reconcileExternal env f) (mkState cluster w)).1
     = (mkOutput (30 * Second) false None, None)).
Proof.
  intros Href Hv.
  destruct (set_ref_facts f (Some (rewritten v ref)) cluster) as (Han & Hns & _ & Hst & Hr).
  assert (∀ err,
     external_Get env w (Some (rewritten v ref)) (Namespace cluster) = inr err →
     (run (reconcileExternal env f) (mkState cluster w)).1
     = if IsNotFound (Cause err)
       then (mkOutput (30 * Second) false None, None)
       else (ReconcileOutput_zero, Some err)) as Hgen.
  { intros err Hget.
    unfold reconcileExternal. munfold. cbn [st_cluster st_world].
    rewrite Href, Hv. cbn [st_cluster st_world].
    fold (rewritten v ref). rewrite Hr, Hns, Hget.
    destruct (IsNotFound (Cause err)); reflexivity. }
  split; [exact Hgen |].
  intros Hf Hobj.
  rewrite (Hgen (ErrWrapped "failed to retrieve external object" ErrNotFound)); [done |].
  unfold external_Get, rewritten; cbn. rewrite Hf, Hobj. done.
Qed.

Lemma reconcileExternal_paused_witness :
  run (reconcileExternal upgradingEnv FInfrastructureRef)
      (mkState freshCluster pausedV2World)
  = ((mkOutput 0 true None, None),
     mkState (set_ref FInfrastructureRef
                (Some (rewritten "infrastructure.cluster.x-k8s.io/v1beta2" fooRef))
                freshCluster)
             pausedV2World).
Proof.
  destruct (reconcileExternal_paused upgradingEnv FInfrastructureRef freshCluster
              pausedV2World fooRef "infrastructure.cluster.x-k8s.io/v1beta2" pausedFooV2)
    as (s' & Hrun & Hw & Hc & _);
    [reflexivity | reflexivity | vm_compute; reflexivity | left; vm_compute; reflexivity |].
  rewrite Hrun. destruct s' as [c' w']. cbn [st_world st_cluster] in Hw, Hc.
  rewrite Hw, Hc. reflexivity.
Defined.

Lemma reconcileExternal_fetch_failure_witness :
  (run (reconcileExternal env0 FInfrastructureRef) (mkState freshCluster emptyWorld)).1
  = (mkOutput (30 * Second) false None, None).
Proof.
  apply (reconcileExternal_fetch_failure env0 FInfrastructureRef freshCluster emptyWorld
           fooRef (ref_APIVersion fooRef));
    [reflexivity | reflexivity | reflexivity | vm_compute; reflexivity].
Defined.

Lemma get_ref_with_Status f g c : get_ref f (with_Status g c) = get_ref f c.
Proof. by destruct f. Qed.



Lemma FailuresFrom_adopted (o : Unstructured) l r :
  FailuresFrom (SetLabels l (SetOwnerReferences r o)) = FailuresFrom o
  ∧ citation (SetLabels l (SetOwnerReferences r o)) = citation o.
Proof. done. Qed.

Lemma SetControllerReference_inv env c o o' :
  SetControllerReference env c o = inl o' → ∃ r, o' = SetOwnerReferences r o.
Proof.
  unfold SetControllerReference. intros H. repeat case_match; simplify_eq; eauto.
Qed.



(** ** What the phases leave alone *)

Lemma phaseFrame_refl c : phaseFrame c c.
Proof. by split. Qed.

Lemma phaseFrame_trans c1 c2 c3 : phaseFrame c1 c2 → phaseFrame c2 c3 → phaseFrame c1 c3.
Proof.
  intros [Ha Hb] [Hc Hd]. split.
  - intros H. destruct (Ha H) as [H1 H2]. destruct (Hc H1) as [H3 H4].
    split; [done | congruence].
  - auto.
Qed.

Lemma reconcileExternal_frame_raw env f s x s' :
  reconcileExternal env f s = (x, s') → externalFrame f (st_cluster s) (st_cluster s').
Proof.
  intros H. pose proof (reconcileExternal_frame env f s) as Hf.
  unfold run in Hf. rewrite H in Hf. by destruct x.
Qed.

(** After the external reconciler, further writes to fields other than the
    infrastructure reference, [infrastructureReady] and the etcd latch keep
    the frame. *)
Lemma externalFrame_phaseFrame f c c1 c' :
  externalFrame f c c1 →
  (f = FInfrastructureRef → InfrastructureRef (Spec c) ≠ None) →
  InfrastructureRef (Spec c') = InfrastructureRef (Spec c1) →
  (InfrastructureRef (Spec c) = None →
   InfrastructureReady (Status c') = InfrastructureReady (Status c1)) →
  (ManagedExternalEtcdInitialized (Status c1) = true →
   ManagedExternalEtcdInitialized (Status c') = true) →
  phaseFrame c c'.
Proof.
  intros (_&_&_&_&_&_& Hg & Hnone &_&_&_& Hir &_& Hin &_) Hf Hspec Hready Hlatch.
  split.
  - intros Hn. rewrite Hspec, Hready, Hir by done. split; [| done].
    destruct f; [by destruct (Hf eq_refl) | |].
    + by rewrite <- Hn; apply (Hg FInfrastructureRef).
    + by rewrite <- Hn; apply (Hg FInfrastructureRef).
  - intros Hi. apply Hlatch. by rewrite Hin.
Qed.

Ltac no_infra_ref :=
  match goal with
  | H : bool_decide (InfrastructureRef (Spec ?c) = None) = false |- _ =>
      apply bool_decide_eq_false in H; intros; done
  end.

(** Closes [phaseFrame c c'] where [c'] is the cluster some path of a phase
    leaves: the cluster after the external reconciler (if the path called
    it), with the later assignments of the path. *)
Ltac frame_tail :=
  lazymatch goal with
  | |- phaseFrame ?c ?c => apply phaseFrame_refl
  | H : reconcileExternal _ ?f _ = (_, ?s') |- phaseFrame ?c ?c' =>
      apply reconcileExternal_frame_raw in H; cbn [st_cluster] in H;
      apply (externalFrame_phaseFrame f c (st_cluster s') c' H);
      [ first [ discriminate | no_infra_ref ]
      | by destruct (st_cluster s') as [? ? ? ? ? [] []]
      | first [ no_infra_ref | by destruct (st_cluster s') as [? ? ? ? ? [] []] ]
      | by destruct (st_cluster s') as [? ? ? ? ? [] []] ]
  end.

Lemma reconcileInfrastructure_frame env s :
  phaseFrame (st_cluster s) (st_cluster (run (reconcileInfrastructure env) s).2).
Proof.
  unfold reconcileInfrastructure. munfold. destruct s as [c w].
  cbn [st_cluster st_world].
  mexec; frame_tail.
Qed.

Lemma reconcileControlPlane_frame env s :
  phaseFrame (st_cluster s) (st_cluster (run (reconcileControlPlane env) s).2).
Proof.
  unfold reconcileControlPlane. munfold. destruct s as [c w].
  cbn [st_cluster st_world].
  mexec; frame_tail.
Qed.

Lemma reconcileEtcdCluster_frame env s :
  phaseFrame (st_cluster s) (st_cluster (run (reconcileEtcdCluster env) s).2).
Proof.
  unfold reconcileEtcdCluster. munfold. destruct s as [c w].
  cbn [st_cluster st_world].
  mexec; frame_tail.
Qed.

Lemma reconcileKubeconfig_frame env s :
  phaseFrame (st_cluster s) (st_cluster (run (reconcileKubeconfig env) s).2).
Proof.
  unfold reconcileKubeconfig, CreateSecret. munfold. destruct s as [c w].
  cbn [st_cluster st_world].
  mexec; frame_tail.
Qed.

Lemma reconcilePhase_phaseFrame c : phaseFrame c (reconcilePhase c).
Proof. rewrite reconcilePhase_unfold. by destruct c as [? ? ? ? ? [] []]. Qed.

Lemma runPhase_frame env s p :
  phaseFrame (st_cluster s) (st_cluster (runPhase env s p)).
Proof.
  destruct p; cbn [runPhase st_cluster];
    auto using reconcileInfrastructure_frame, reconcileControlPlane_frame,
      reconcileEtcdCluster_frame, reconcileKubeconfig_frame, reconcilePhase_phaseFrame.
Qed.

Lemma runPhases_frame env ps s :
  phaseFrame (st_cluster s) (st_cluster (runPhases env ps s)).
Proof.
  revert s. induction ps as [| p ps IH]; intros s; [apply phaseFrame_refl |].
  eapply phaseFrame_trans; [apply (runPhase_frame env s p) | apply IH].
Qed.

(** C5 (as stated) fails: with no infrastructure reference the
    infrastructure sub-reconciler returns at once, and no other phase
    writes [infrastructureReady]; a stored [true] stays. *)
Lemma infrastructureReadyCleared_counterexample :
  ¬ infrastructureReadyCleared env0 reconcileOrder (mkState readyWithoutInfra emptyWorld).
Proof.
  unfold infrastructureReadyCleared. intros H. specialize (H eq_refl).
  vm_compute in H. discriminate.
Qed.

(** C5 (amended): for a Cluster without an infrastructure reference the
    infrastructure sub-reconciler returns an empty result and changes
    nothing, and at the end of any sequence of phases
    [status.infrastructureReady] has the value it had on input. *)
Theorem reconcile_keeps_infrastructureReady env ps s :
  InfrastructureRef (Spec (st_cluster s)) = None →
  run (reconcileInfrastructure env) s = ((Result_zero, None), s)
  ∧ InfrastructureReady (Status (st_cluster (runPhases env ps s)))
    = InfrastructureReady (Status (st_cluster s)).
Proof.
  intros Hn. split.
  - unfold reconcileInfrastructure. munfold. rewrite Hn. reflexivity.
  - by apply (runPhases_frame env ps s).
Qed.

Lemma reconcile_keeps_infrastructureReady_witness :
  run (reconcileInfrastructure env0) (mkState readyWithoutInfra emptyWorld)
  = ((Result_zero, None), mkState readyWithoutInfra emptyWorld)
  ∧ InfrastructureReady
      (Status (st_cluster (runPhases env0 reconcileOrder
                             (mkState readyWithoutInfra emptyWorld))))
    = true.
Proof.
  apply (reconcile_keeps_infrastructureReady env0 reconcileOrder
           (mkState readyWithoutInfra emptyWorld)).
  reflexivity.
Defined.

(** ** The etcd latch *)

Lemma conditions_Get_replace tnow c cs t :
  cond_Type c ≠ t →
  conditions_Get (replaceCondition tnow c cs) t = conditions_Get cs t.
Proof.
  intros Hne. unfold conditions_Get.
  induction cs as [| e cs IH]; cbn.
  - by rewrite bool_decide_eq_false_2.
  - destruct (bool_decide_reflect (cond_Type e = cond_Type c)) as [Heq | Heq]; cbn.
    + rewrite (bool_decide_eq_false_2 (cond_Type e = t)) by congruence.
      destruct (bool_decide (cond_Status e = cond_Status c)); cbn;
        by rewrite bool_decide_eq_false_2.
    + destruct (bool_decide (cond_Type e = t)); [done | apply IH].
Qed.

Lemma SetMirror_other env target o ready reason sev msg c t :
  target ≠ t →
  conditions_Get (Conditions (Status (SetMirror env target o ready reason sev msg c))) t
  = conditions_Get (Conditions (Status c)) t.
Proof.
  intros Hne. unfold SetMirror, conditions_Set. cbn.
  apply conditions_Get_replace.
  destruct (conditions_Get (obj_status_conditions o) ReadyCondition); [done |].
  by destruct ready.
Qed.

Lemma etcd_latch_reached env o ready c c1 f:
  externalFrame f c c1 →
  conditions_IsTrue c ManagedExternalEtcdClusterInitializedCondition = true →
  conditions_IsTrue
    (SetMirror env ManagedExternalEtcdClusterReadyCondition o ready
       WaitingForEtcdClusterInitializedReason SeverityInfo ""
       (with_Status (set_ManagedExternalEtcdReady ready) c1))
    ManagedExternalEtcdClusterInitializedCondition = false →
  False.
Proof.
  intros Hf Ht Hc. unfold conditions_IsTrue in *.
  rewrite SetMirror_other in Hc by done.
  replace (Conditions (Status (with_Status (set_ManagedExternalEtcdReady ready) c1)))
    with (Conditions (Status c)) in Hc; [congruence |].
  destruct Hf as (_&_&_&_&_&_&_&_&_&_&_&_&_&_&_& <-).
  by destruct c1 as [? ? ? ? ? ? []].
Qed.

Lemma reconcileEtcdCluster_latched env s :
  conditions_IsTrue (st_cluster s) ManagedExternalEtcdClusterInitializedCondition = true →
  let c' := st_cluster (run (reconcileEtcdCluster env) s).2 in
  conditions_Get (Conditions (Status c')) ManagedExternalEtcdClusterInitializedCondition
  = conditions_Get (Conditions (Status (st_cluster s)))
      ManagedExternalEtcdClusterInitializedCondition
  ∧ ManagedExternalEtcdInitialized (Status c')
    = ManagedExternalEtcdInitialized (Status (st_cluster s)).
Proof.
  intros Ht. cbv zeta.
  unfold reconcileEtcdCluster. munfold. destruct s as [c w].
  cbn [st_cluster st_world] in *.
  mexec; try done;
    match goal with
    | H : reconcileExternal _ _ _ = _ |- _ =>
        apply reconcileExternal_frame_raw in H; cbn [st_cluster] in H
    end;
    repeat match goal with
           | H : negb _ = true |- _ => apply negb_true_iff in H
           end;
    try (exfalso; eapply etcd_latch_reached; eassumption);
    rewrite ?SetMirror_other by done;
    match goal with
    | H : externalFrame _ _ ?c1 |- _ =>
        destruct H as (_&_&_&_&_&_&_&_&_&_&_&_&_& <- &_& <-);
        by destruct c1 as [? ? ? ? ? ? []]
    end.
Qed.

(** C7: a true [status.managedExternalEtcdInitialized] is still true after
    any sequence of phases; and once the ManagedEtcdInitialized condition is
    True, the etcd sub-reconciler leaves both the condition and the flag as
    they are, whatever the etcd object reports in [status.initialized]. *)
Theorem etcd_initialized_latched env :
  (∀ ps s,
     ManagedExternalEtcdInitialized (Status (st_cluster s)) = true →
     ManagedExternalEtcdInitialized (Status (st_cluster (runPhases env ps s))) = true)
  ∧ (∀ s,
       conditions_IsTrue (st_cluster s) ManagedExternalEtcdClusterInitializedCondition = true →
       let c' := st_cluster (run (reconcileEtcdCluster env) s).2 in
       conditions_IsTrue c' ManagedExternalEtcdClusterInitializedCondition = true
       ∧ conditions_Get (Conditions (Status c'))
           ManagedExternalEtcdClusterInitializedCondition
         = conditions_Get (Conditions (Status (st_cluster s)))
             ManagedExternalEtcdClusterInitializedCondition
       ∧ ManagedExternalEtcdInitialized (Status c')
         = ManagedExternalEtcdInitialized (Status (st_cluster s))).
Proof.
  split.
  - intros ps s H. by apply (runPhases_frame env ps s).
  - intros s Ht. cbv zeta.
    destruct (reconcileEtcdCluster_latched env s Ht) as [Hc Hi].
    split; [| done]. unfold conditions_IsTrue in *. by rewrite Hc.
Qed.

Lemma etcd_initialized_latched_witness :
  ManagedExternalEtcdInitialized
    (Status (st_cluster (runPhases env0 reconcileOrder
                           (mkState latchedCluster latchedWorld)))) = true
  ∧ conditions_IsTrue
      (st_cluster (run (reconcileEtcdCluster env0) (mkState latchedCluster latchedWorld)).2)
      ManagedExternalEtcdClusterInitializedCondition = true.
Proof.
  destruct (etcd_initialized_latched env0) as [Hmono Hlatch]. split.
  - apply Hmono. reflexivity.
  - apply (Hlatch (mkState latchedCluster latchedWorld)). reflexivity.
Defined.

(** ** The etcd and control-plane sub-reconcilers on the scenarios *)

(** The resume step fetches the control plane whenever etcd is ready; there
    is no test of [ControlPlaneRef] before it. *)
Lemma reconcileEtcdCluster_resume_unguarded env s out s1 :
  bool_decide (ManagedExternalEtcdRef (Spec (st_cluster s)) = None) = false →
  run (reconcileExternal env FManagedExternalEtcdRef) s = ((out, None), s1) →
  bool_decide (out_RequeueAfter out > 0) = false →
  out_Paused out = false →
  Time_IsZero (obj_DeletionTimestamp (theObject (out_Result out))) = true →
  IsReady (theObject (out_Result out)) = inl true →
  ControlPlaneRef (Spec (st_cluster s1)) = None →
  (run (reconcileEtcdCluster env) s).1 = (Result_zero, Some ErrReferenceNotSet).
Proof.
  intros Hetcd Hext Hrq Hp Hdel Hready Hcp.
  unfold reconcileEtcdCluster. munfold. unfold run in Hext.
  rewrite Hetcd.
  destruct (reconcileExternal env FManagedExternalEtcdRef s) as [[x | x] s2];
    injection Hext as -> ->; cbn [fst snd];
    rewrite Hrq, Hp, Hdel, Hready; cbn [negb st_cluster st_world Spec with_Status];
    rewrite Hcp; reflexivity.
Qed.

(** C3 (the code at the failing input): a Cluster with an etcd reference and
    no control-plane reference, its etcd object ready.  The etcd
    sub-reconciler asks for the control-plane object all the same and
    returns the error of that fetch. *)
Theorem reconcileEtcdCluster_without_controlPlane :
  ControlPlaneRef (Spec etcdOnlyCluster) = None
  ∧ IsReady readyEtcd = inl true
  ∧ (run (reconcileEtcdCluster env0) (mkState etcdOnlyCluster etcdOnlyWorld)).1
    = (Result_zero, Some ErrReferenceNotSet).
Proof. split; [reflexivity |]. split; [reflexivity |]. vm_compute. reflexivity. Qed.

(** C4 (the code at the failing input): etcd is not ready and the
    control-plane object carries an annotation of its own.  After the
    control-plane sub-reconciler the stored object is paused, and the paused
    annotation is the only one left. *)
Theorem reconcileControlPlane_pause_replaces_annotations :
  let s' := (run (reconcileControlPlane env0) (mkState gatedCluster gatedWorld)).2 in
  obj_Annotations annotatedControlPlane !! "example.com/team" = Some "platform"
  ∧ obj_Annotations <$> (objects (st_world s') !! key_of annotatedControlPlane)
    = Some {[ PausedAnnotation := "true" ]}
  ∧ (objects (st_world s') !! key_of annotatedControlPlane
       ≫= λ o, obj_Annotations o !! "example.com/team") = None.
Proof. vm_compute. done. Qed.

(** The replacement in general: whatever the object carried, only the paused
    annotation is there after the assignment the pause step makes. *)
Lemma pause_assignment_annotations (controlPlane : Unstructured) (k : string) :
  obj_Annotations (SetAnnotations {[ PausedAnnotation := "true" ]} controlPlane) !! k
  = if bool_decide (k = PausedAnnotation) then Some "true" else None.
Proof.
  cbn [obj_Annotations SetAnnotations]. case_bool_decide as Hk.
  - subst. apply lookup_singleton_eq.
  - by apply lookup_singleton_ne.
Qed.

(** Scenario 1: a fresh cluster whose infrastructure object is absent. *)
Example scenario_fresh_cluster :
  let r := run (reconcileInfrastructure env0) (mkState freshCluster emptyWorld) in
  r.1 = (mkResult false (30 * Second), None)
  ∧ Phase (Status (reconcilePhase (st_cluster r.2))) = ClusterPhaseProvisioning
  ∧ FailureReason (Status (st_cluster r.2)) = None
  ∧ FailureMessage (Status (st_cluster r.2)) = None.
Proof. vm_compute. done. Qed.

(** Scenario 5: the infrastructure object reports a failure. *)
Example scenario_subordinate_failure :
  let r := run (reconcileInfrastructure env0) (mkState freshCluster failingWorld) in
  FailureReason (Status (st_cluster r.2)) = Some "InvalidImage"
  ∧ FailureMessage (Status (st_cluster r.2))
    = Some ("Failure detected from referenced resource "
            +:+ "infrastructure.cluster.x-k8s.io/v1beta1, Kind=Foo with name "
            +:+ Quote "foo1" +:+ ": not found")
  ∧ Phase (Status (reconcilePhase (st_cluster r.2))) = ClusterPhaseFailed
  ∧ (objects (st_world r.2) !! key_of failingFoo ≫= λ o, obj_Labels o !! ClusterLabelName)
    = Some "c1".
Proof. vm_compute. done. Qed.

(** Scenarios 3 and 4: etcd gates the control plane, then becomes ready. *)
Example scenario_etcd_gate :
  let paused := (run (reconcileControlPlane env0) (mkState gatedCluster gatedWorld)).2 in
  let etcdNowReady :=
    with_objects (<[ key_of readyEtcd := readyEtcd ]>) (st_world paused) in
  let r := run (reconcileEtcdCluster env0) (mkState (st_cluster paused) etcdNowReady) in
  (objects (st_world paused) !! key_of annotatedControlPlane
     ≫= λ o, obj_Annotations o !! PausedAnnotation) = Some "true"
  ∧ r.1 = (Result_zero, None)
  ∧ (objects (st_world r.2) !! key_of annotatedControlPlane
       ≫= λ o, obj_Annotations o !! PausedAnnotation) = None
  ∧ ManagedExternalEtcdReady (Status (st_cluster r.2)) = true.
Proof. vm_compute. done. Qed.

(** ** The resource enumerator *)

Lemma elem_of_excludeVersions crd acc s :
  s ∈ excludeVersions crd acc
  ↔ s ∈ acc ∨ ∃ version, version ∈ crd_Versions crd
                ∧ s = GVK_String (mkGVK (crd_Group crd) version (crd_Kind crd)).
Proof.
  unfold excludeVersions. revert acc.
  induction (crd_Versions crd) as [| v vs IH]; intros acc; cbn [fold_left].
  - split; [by left | intros [H | (v & Hv & _)]; [done | by apply elem_of_nil in Hv]].
  - rewrite IH, elem_of_union, elem_of_singleton. split.
    + intros [[-> | H] | (v' & Hv' & ->)].
      * right. exists v. split; [apply elem_of_cons; by left | done].
      * by left.
      * right. exists v'. split; [apply elem_of_cons; by right | done].
    + intros [H | (v' & Hv' & ->)]; [by left; right |].
      apply elem_of_cons in Hv' as [-> | Hv']; [by left; left |].
      right. by exists v'.
Qed.

Lemma elem_of_crdsToExclude_acc labels crds acc s :
  s ∈ fold_left (λ acc crd, if excludeCRD labels crd then excludeVersions crd acc else acc)
        crds acc
  ↔ s ∈ acc ∨ ∃ crd version, crd ∈ crds ∧ excludeCRD labels crd = true
                   ∧ version ∈ crd_Versions crd
                   ∧ s = GVK_String (mkGVK (crd_Group crd) version (crd_Kind crd)).
Proof.
  revert acc. induction crds as [| crd crds IH]; intros acc; cbn [fold_left].
  - split; [by left | intros [H | (c & v & Hc & _)]; [done | by apply elem_of_nil in Hc]].
  - rewrite IH. destruct (excludeCRD labels crd) eqn:Hex.
    + rewrite elem_of_excludeVersions. split.
      * intros [[H | (v & Hv & ->)] | (c & v & Hc & Hx & Hv & ->)].
        -- by left.
        -- right. exists crd, v. split; [apply elem_of_cons; by left | done].
        -- right. exists c, v. split; [apply elem_of_cons; by right | done].
      * intros [H | (c & v & Hc & Hx & Hv & ->)]; [by left; left |].
        apply elem_of_cons in Hc as [-> | Hc]; [left; right; by exists v |].
        right. by exists c, v.
    + split.
      * intros [H | (c & v & Hc & Hx & Hv & ->)]; [by left |].
        right. exists c, v. split; [apply elem_of_cons; by right | done].
      * intros [H | (c & v & Hc & Hx & Hv & ->)]; [by left |].
        apply elem_of_cons in Hc as [-> | Hc]; [congruence |].
        right. by exists c, v.
Qed.

Lemma excludeCRD_true labels crd :
  excludeCRD labels crd = true
  ↔ labels !! ClusterctlCoreLabelName = Some ClusterctlCoreLabelCertManagerValue
    ∨ is_Some (crd_Labels crd !! ProviderLabelName).
Proof.
  unfold excludeCRD. rewrite orb_true_iff, !bool_decide_eq_true. done.
Qed.

(** The exclusion set: every declared version of every CRD that carries the
    provider label, and of every CRD at all when the selector asks for the
    cert-manager core component. *)
Lemma elem_of_crdsToExclude labels crds s :
  s ∈ crdsToExclude labels crds
  ↔ ∃ crd version,
      crd ∈ crds ∧ version ∈ crd_Versions crd
      ∧ (labels !! ClusterctlCoreLabelName = Some ClusterctlCoreLabelCertManagerValue
         ∨ is_Some (crd_Labels crd !! ProviderLabelName))
      ∧ s = GVK_String (mkGVK (crd_Group crd) version (crd_Kind crd)).
Proof.
  unfold crdsToExclude. rewrite elem_of_crdsToExclude_acc. split.
  - intros [H | (c & v & Hc & Hx & Hv & ->)]; [by apply not_elem_of_empty in H |].
    exists c, v. by rewrite <- excludeCRD_true.
  - intros (c & v & Hc & Hv & Hx & ->). right. exists c, v.
    by rewrite excludeCRD_true.
Qed.

Lemma listObjByGVK_items srv gv kind labels ns items o :
  listObjByGVK srv gv kind labels ns = inl items →
  o ∈ items →
  obj_APIVersion o = gv ∧ obj_Kind o = kind ∧ o ∈ srv_objects srv
  ∧ matchesLabels labels o = true.
Proof.
  unfold listObjByGVK, serverList. intros H Ho.
  destruct (srv_listFault srv gv kind) as [err |].
  - destruct (negb (IsNotFound err)); simplify_eq. by apply elem_of_nil in Ho.
  - simplify_eq. apply list_elem_of_filter in Ho as [(? & ? & ? & ?) ?]. done.
Qed.

Lemma listObjByGVK_complete srv gv kind labels ns o :
  srv_listFault srv gv kind = None →
  o ∈ srv_objects srv → obj_APIVersion o = gv → obj_Kind o = kind →
  matchesLabels labels o = true → inNamespace ns o = true →
  ∃ items, listObjByGVK srv gv kind labels ns = inl items ∧ o ∈ items.
Proof.
  intros Hf Ho Hgv Hk Hl Hn. unfold listObjByGVK, serverList. rewrite Hf.
  eexists. split; [done |]. apply list_elem_of_filter. done.
Qed.

(** *** Nothing excluded is listed *)

Section loops.
Context (srv : Server) (labels : gmap string string) (excluded : gset string)
        (namespaces : list string).

Lemma listInNamespaces_sound gv kind g v nss ret ret' :
  ParseGroupVersion gv = Some (g, v) →
  GVK_String (mkGVK g v kind) ∉ excluded →
  Forall (listedUnder excluded) ret →
  listInNamespaces srv labels gv kind nss ret = inl ret' →
  Forall (listedUnder excluded) ret'.
Proof.
  intros Hp Hx. revert ret.
  induction nss as [| ns nss IH]; intros ret Hret H; cbn in H; [by simplify_eq |].
  destruct (listObjByGVK srv gv kind labels (Some ns)) as [items | err] eqn:Hl;
    [| done].
  apply (IH (ret ++ items)%list); [| exact H].
  apply Forall_app. split; [done |].
  apply Forall_forall. intros o Ho.
  destruct (listObjByGVK_items _ _ _ _ _ _ _ Hl Ho) as (Hgv & Hk & _).
  exists g, v. by rewrite Hgv, Hk.
Qed.

Lemma listKinds_sound gv kinds ret ret' :
  Forall (listedUnder excluded) ret →
  listKinds srv labels excluded namespaces gv kinds ret = inl ret' →
  Forall (listedUnder excluded) ret'.
Proof.
  revert ret. induction kinds as [| r kinds IH]; intros ret Hret H; cbn in H;
    [by simplify_eq |].
  destruct (duplicatedInExtensions gv r); [by eapply IH |].
  destruct (ParseGroupVersion gv) as [[g v] |] eqn:Hp; [| done].
  case_bool_decide as Hx; [by eapply IH |].
  destruct (res_Namespaced r).
  - destruct (listInNamespaces srv labels gv (res_Kind r) namespaces ret)
      as [ret1 | err] eqn:Hl; [| done].
    eapply IH; [| exact H]. by eapply listInNamespaces_sound.
  - destruct (listObjByGVK srv gv (res_Kind r) labels None) as [items | err] eqn:Hl;
      [| done].
    eapply IH; [| exact H].
    apply Forall_app. split; [done |].
    apply Forall_forall. intros o Ho.
    destruct (listObjByGVK_items _ _ _ _ _ _ _ Hl Ho) as (Hgv & Hk & _).
    exists g, v. by rewrite Hgv, Hk.
Qed.

Lemma listGroups_sound groups ret ret' :
  Forall (listedUnder excluded) ret →
  listGroups srv labels excluded namespaces groups ret = inl ret' →
  Forall (listedUnder excluded) ret'.
Proof.
  revert ret. induction groups as [| rl groups IH]; intros ret Hret H; cbn in H;
    [by simplify_eq |].
  destruct (listKinds srv labels excluded namespaces (GroupVersion rl)
              (APIResources rl) ret) as [ret1 | err] eqn:Hl; [| done].
  eapply IH; [| exact H]. by eapply listKinds_sound.
Qed.

(** *** What is listed is returned *)

Lemma listInNamespaces_mono gv kind nss ret ret' :
  listInNamespaces srv labels gv kind nss ret = inl ret' →
  (∀ o, o ∈ ret → o ∈ ret')
  ∧ (∀ ns items o, ns ∈ nss →
       listObjByGVK srv gv kind labels (Some ns) = inl items → o ∈ items → o ∈ ret').
Proof.
  revert ret. induction nss as [| ns nss IH]; intros ret H; cbn in H.
  - simplify_eq. split; [done |]. intros ns items o Hns. by apply elem_of_nil in Hns.
  - destruct (listObjByGVK srv gv kind labels (Some ns)) as [items | err] eqn:Hl;
      [| done].
    destruct (IH _ H) as [Hret Hitems]. split.
    + intros o Ho. apply Hret, elem_of_app. by left.
    + intros ns' items' o Hns Hl' Ho.
      apply elem_of_cons in Hns as [-> | Hns]; [| by eapply Hitems].
      rewrite Hl in Hl'. simplify_eq. apply Hret, elem_of_app. by right.
Qed.

Lemma listKinds_mono gv kinds ret ret' :
  listKinds srv labels excluded namespaces gv kinds ret = inl ret' →
  (∀ o, o ∈ ret → o ∈ ret')
  ∧ (∀ r g v o, r ∈ kinds →
       duplicatedInExtensions gv r = false →
       ParseGroupVersion gv = Some (g, v) →
       GVK_String (mkGVK g v (res_Kind r)) ∉ excluded →
       srv_listFault srv gv (res_Kind r) = None →
       answers srv labels namespaces gv r o → o ∈ ret').
Proof.
  revert ret. induction kinds as [| r kinds IH]; intros ret H; cbn in H.
  { simplify_eq. split; [done |]. intros r g v o Hr. by apply elem_of_nil in Hr. }
  assert (∀ ret1,
    listKinds srv labels excluded namespaces gv kinds ret1 = inl ret' →
    (∀ o, o ∈ ret → o ∈ ret1) →
    (∀ g v o, duplicatedInExtensions gv r = false →
       ParseGroupVersion gv = Some (g, v) →
       GVK_String (mkGVK g v (res_Kind r)) ∉ excluded →
       srv_listFault srv gv (res_Kind r) = None →
       answers srv labels namespaces gv r o → o ∈ ret1) →
    (∀ o, o ∈ ret → o ∈ ret')
    ∧ (∀ r0 g v o, r0 ∈ r :: kinds →
         duplicatedInExtensions gv r0 = false →
         ParseGroupVersion gv = Some (g, v) →
         GVK_String (mkGVK g v (res_Kind r0)) ∉ excluded →
         srv_listFault srv gv (res_Kind r0) = None →
         answers srv labels namespaces gv r0 o → o ∈ ret')) as Hstep.
  { intros ret1 H1 Hsub Hhere. destruct (IH _ H1) as [Hret Hrest]. split; [by auto |].
    intros r0 g v o Hr0 Hd Hp Hx Hf Ha.
    apply elem_of_cons in Hr0 as [-> | Hr0]; [| by eapply Hrest].
    by eapply Hret, Hhere. }
  destruct (duplicatedInExtensions gv r) eqn:Hdup.
  { apply (Hstep ret H); [done | intros; congruence]. }
  destruct (ParseGroupVersion gv) as [[g v] |] eqn:Hp; [| done].
  case_bool_decide as Hx.
  { apply (Hstep ret H); [done |]. intros g' v' o _ [= <- <-] Hx'. done. }
  destruct (res_Namespaced r) eqn:Hnsd.
  - destruct (listInNamespaces srv labels gv (res_Kind r) namespaces ret)
      as [ret1 | err] eqn:Hl; [| done].
    destruct (listInNamespaces_mono _ _ _ _ _ Hl) as [Hsub Hitems].
    apply (Hstep ret1 H); [done |].
    intros g' v' o _ _ _ Hf (Ho & Hgv & Hk & Hm & Hns).
    destruct (listObjByGVK_complete srv gv (res_Kind r) labels
                (Some (obj_Namespace o)) o) as (items & Hli & Hoi); try done.
    { cbn. by apply bool_decide_eq_true. }
    eapply Hitems; [by apply Hns | exact Hli | exact Hoi].
  - destruct (listObjByGVK srv gv (res_Kind r) labels None) as [items | err] eqn:Hl;
      [| done].
    apply (Hstep _ H).
    + intros o Ho. apply elem_of_app. by left.
    + intros g' v' o _ _ _ Hf (Ho & Hgv & Hk & Hm & _).
      destruct (listObjByGVK_complete srv gv (res_Kind r) labels None o)
        as (items' & Hli & Hoi); try done.
      rewrite Hl in Hli. simplify_eq. apply elem_of_app. by right.
Qed.

Lemma listGroups_mono groups ret ret' :
  listGroups srv labels excluded namespaces groups ret = inl ret' →
  (∀ o, o ∈ ret → o ∈ ret')
  ∧ (∀ rl r g v o, rl ∈ groups → r ∈ APIResources rl →
       duplicatedInExtensions (GroupVersion rl) r = false →
       ParseGroupVersion (GroupVersion rl) = Some (g, v) →
       GVK_String (mkGVK g v (res_Kind r)) ∉ excluded →
       srv_listFault srv (GroupVersion rl) (res_Kind r) = None →
       answers srv labels namespaces (GroupVersion rl) r o → o ∈ ret').
Proof.
  revert ret. induction groups as [| rl groups IH]; intros ret H; cbn in H.
  { simplify_eq. split; [done |]. intros rl r g v o Hrl. by apply elem_of_nil in Hrl. }
  destruct (listKinds srv labels excluded namespaces (GroupVersion rl)
              (APIResources rl) ret) as [ret1 | err] eqn:Hl; [| done].
  destruct (listKinds_mono _ _ _ _ Hl) as [Hsub Hkinds].
  destruct (IH _ H) as [Hret Hrest]. split; [by auto |].
  intros rl0 r g v o Hrl Hr Hd Hp Hx Hf Ha.
  apply elem_of_cons in Hrl as [-> | Hrl]; [| by eapply Hrest].
  by eapply Hret, Hkinds.
Qed.
End loops.

Lemma elem_of_FilteredBy rls rl r :
  rl ∈ rls → r ∈ APIResources rl → supportsListDelete r = true →
  ∃ rl', rl' ∈ FilteredBy rls ∧ GroupVersion rl' = GroupVersion rl
         ∧ r ∈ APIResources rl'.
Proof.
  intros Hrl Hr Hs.
  assert (r ∈ filter (λ r, supportsListDelete r = true) (APIResources rl)) as Hin
    by (by apply list_elem_of_filter).
  exists (mkAPIResourceList (GroupVersion rl)
            (filter (λ r, supportsListDelete r = true) (APIResources rl))).
  split; [| done].
  unfold FilteredBy. apply list_elem_of_omap. exists rl. split; [done |].
  cbv zeta. destruct (filter _ (APIResources rl)); [by apply elem_of_nil in Hin | done].
Qed.

(** C6: [ListResources] returns no object whose (group, version, kind) is
    in the exclusion set; that set holds every declared version of every CRD
    that carries the [cluster.x-k8s.io/provider] label, and of every CRD
    when the selector maps [clusterctl.cluster.x-k8s.io/core] to
    [cert-manager]; and the objects of every other listable, deletable
    resource that match the selector are returned. *)
Theorem ListResources_excludes_crds srv labels namespaces crds ret :
  srv_crds srv = inl crds →
  ListResources srv labels namespaces = inl ret →
  (∀ s, s ∈ crdsToExclude labels crds
        ↔ ∃ crd version,
            crd ∈ crds ∧ version ∈ crd_Versions crd
            ∧ (labels !! ClusterctlCoreLabelName = Some ClusterctlCoreLabelCertManagerValue
               ∨ is_Some (crd_Labels crd !! ProviderLabelName))
            ∧ s = GVK_String (mkGVK (crd_Group crd) version (crd_Kind crd)))
  ∧ (∀ o, o ∈ ret →
       (GVK_String (obj_GroupVersionKind o) ∉ crdsToExclude labels crds)
       ∧ (∀ crd version,
            crd ∈ crds → version ∈ crd_Versions crd →
            labels !! ClusterctlCoreLabelName = Some ClusterctlCoreLabelCertManagerValue
            ∨ is_Some (crd_Labels crd !! ProviderLabelName) →
            obj_GroupVersionKind o ≠ mkGVK (crd_Group crd) version (crd_Kind crd)))
  ∧ (∀ rls rl r g v o,
       srv_preferredResources srv = inl rls →
       rl ∈ rls → r ∈ APIResources rl → supportsListDelete r = true →
       duplicatedInExtensions (GroupVersion rl) r = false →
       ParseGroupVersion (GroupVersion rl) = Some (g, v) →
       GVK_String (mkGVK g v (res_Kind r)) ∉ crdsToExclude labels crds →
       srv_listFault srv (GroupVersion rl) (res_Kind r) = None →
       answers srv labels namespaces (GroupVersion rl) r o →
       o ∈ ret).
Proof.
  intros Hcrds H. unfold ListResources in H. rewrite Hcrds in H.
  destruct (srv_newClientSet srv); [done |].
  destruct (srv_newClient srv); [done |].
  destruct (srv_preferredResources srv) as [rls0 | err] eqn:Hrls; [| done].
  cbv zeta in H.
  split; [apply elem_of_crdsToExclude |]. split.
  - intros o Ho.
    pose proof (listGroups_sound _ _ _ _ _ _ _ (Forall_nil_2 _) H) as Hall.
    rewrite Forall_forall in Hall. destruct (Hall o Ho) as (g & v & Hp & Hx).
    assert (obj_GroupVersionKind o = mkGVK g v (obj_Kind o)) as Hgvk
      by (unfold obj_GroupVersionKind, FromAPIVersionAndKind; by rewrite Hp).
    rewrite Hgvk. split; [done |].
    intros crd version Hc Hv Hl Heq. apply Hx. rewrite Heq.
    apply elem_of_crdsToExclude. by exists crd, version.
  - intros rls rl r g v o [= <-] Hrl Hr Hs Hd Hp Hx Hf Ha.
    destruct (elem_of_FilteredBy _ _ _ Hrl Hr Hs) as (rl' & Hrl' & Hgv & Hr').
    destruct (listGroups_mono _ _ _ _ _ _ _ H) as [_ Hgroups].
    apply (Hgroups rl' r g v o); by rewrite ?Hgv.
Qed.

(** Scenario 6, by running the enumerator. *)
Example scenario_crd_exclusion :
  ListResources awsServer awsSelector ["default"] = inl [awsDeployment].
Proof. vm_compute. reflexivity. Qed.

Lemma ListResources_excludes_crds_witness :
  (GVK_String (obj_GroupVersionKind awsDeployment)
   ∉ crdsToExclude awsSelector [awsClusterCRD])
  ∧ (awsDeployment ∈ [awsDeployment]).
Proof.
  destruct (ListResources_excludes_crds awsServer awsSelector ["default"]
              [awsClusterCRD] [awsDeployment]) as (_ & Hsound & Hcomplete).
  - reflexivity.
  - vm_compute. reflexivity.
  - split.
    + apply (Hsound awsDeployment). apply elem_of_cons. by left.
    + apply (Hcomplete awsResources
               (mkAPIResourceList "apps/v1"
                  [mkAPIResource "deployments" "Deployment" true allVerbs])
               (mkAPIResource "deployments" "Deployment" true allVerbs)
               "apps" "v1" awsDeployment).
      * reflexivity.
      * apply elem_of_cons. by left.
      * apply elem_of_cons. by left.
      * vm_compute. reflexivity.
      * vm_compute. reflexivity.
      * vm_compute. reflexivity.
      * apply (Hsound awsDeployment). apply elem_of_cons. by left.
      * reflexivity.
      * unfold answers. split; [apply elem_of_cons; right; apply elem_of_cons; by left |].
        split; [reflexivity |]. split; [reflexivity |].
        split; [vm_compute; reflexivity |].
        intros _. apply elem_of_cons. by left.
Defined.

(** * Further properties of the reconciler *)

(** ** The phase labeler *)

(** Running the labeler on its own result changes nothing. *)
Theorem reconcilePhase_idempotent (c : Cluster) :
  reconcilePhase (reconcilePhase c) = reconcilePhase c.
Proof.
  rewrite !reconcilePhase_unfold.
  destruct c as [n ns u an dt [ep cp ir er] [fd fr fm ph iry cpr ei ery cs]].
  unfold SetTypedPhase, with_Status, set_Phase; cbn.
  destruct (negb (Time_IsZero dt)); [done |].
  destruct (bool_decide (fr ≠ None) || bool_decide (fm ≠ None)); [done |].
  destruct (iry && IsValid ep); [done |].
  destruct (bool_decide (ir ≠ None)); [done |].
  destruct (bool_decide_reflect (ph = "")) as [-> | Hph]; [done |].
  by rewrite bool_decide_eq_false_2.
Qed.

(** The labeler writes [status.phase] and nothing else; the phase it leaves
    is never empty; it is one of the five of the vocabulary whenever some
    clause fired, and it is the phase of the input when none did. *)
Theorem reconcilePhase_only_phase (c : Cluster) :
  let p := Phase (Status (reconcilePhase c)) in
  let fired :=
    bool_decide (Phase (Status c) = "")
    || bool_decide (InfrastructureRef (Spec c) ≠ None)
    || (InfrastructureReady (Status c) && IsValid (ControlPlaneEndpoint (Spec c)))
    || (bool_decide (FailureReason (Status c) ≠ None)
        || bool_decide (FailureMessage (Status c) ≠ None))
    || negb (Time_IsZero (DeletionTimestamp c)) in
  reconcilePhase c = with_Status (set_Phase p) c
  ∧ p ≠ ""
  ∧ (if fired
     then p ∈ ["Pending"; "Provisioning"; "Provisioned"; "Failed"; "Deleting"]
     else p = Phase (Status c)).
Proof.
  cbv zeta. rewrite reconcilePhase_unfold.
  destruct c as [n ns u an dt [ep cp ir er] [fd fr fm ph iry cpr ei ery cs]].
  cbn [SetTypedPhase with_Status set_Phase Status Phase Spec DeletionTimestamp
       FailureReason FailureMessage InfrastructureReady ControlPlaneEndpoint
       InfrastructureRef].
  split; [reflexivity |].
  destruct (negb (Time_IsZero dt));
    [rewrite !orb_true_r; split; [done | set_solver] |].
  destruct (bool_decide (fr ≠ None) || bool_decide (fm ≠ None));
    [rewrite !orb_true_r; split; [done | set_solver] |].
  destruct (iry && IsValid ep); [rewrite !orb_true_r; split; [done | set_solver] |].
  destruct (bool_decide (ir ≠ None)); [rewrite !orb_true_r; split; [done | set_solver] |].
  destruct (bool_decide_reflect (ph = "")) as [-> | Hph];
    [split; [done | set_solver] |].
  split; [done | reflexivity].
Qed.

(** ** The external reconciler *)

Lemma upsertOwnerRef_elem (ref : OwnerReference) (l : list OwnerReference) :
  ref ∈ upsertOwnerRef ref l.
Proof.
  induction l as [| r l IH]; cbn; [set_solver |].
  destruct (referSameObject r ref); set_solver.
Qed.

Lemma SetControllerReference_owner env c o o' :
  SetControllerReference env c o = inl o' →
  o' = SetOwnerReferences (upsertOwnerRef (controllerRefOf c) (obj_OwnerReferences o)) o.
Proof.
  unfold SetControllerReference. intros H. repeat case_match; by simplify_eq.
Qed.

Lemma controllerRefOf_set_ref f r c : controllerRefOf (set_ref f r c) = controllerRefOf c.
Proof. by destruct f. Qed.

Lemma reconcileExternal_cases env f s :
  let r := (run (reconcileExternal env f) s).1 in
  (∃ e, r = (ReconcileOutput_zero, Some e))
  ∨ r = (mkOutput (30 * Second) false None, None)
  ∨ r = (mkOutput 0 true None, None)
  ∨ (∃ o, r = (mkOutput 0 false (Some o), None)).
Proof.
  cbv zeta. unfold reconcileExternal. munfold. destruct s as [c w].
  cbn [st_cluster st_world].
  mexec; eauto 6.
Qed.

(** The external reconciler ends in one of four ways: an error with an empty
    output, a 30 second requeue, a pause, or the object.  So a caller that
    has seen no error, no requeue and no pause holds an object. *)
Theorem reconcileExternal_outcomes env f s :
  let r := (run (reconcileExternal env f) s).1 in
  ((∃ e, r = (ReconcileOutput_zero, Some e))
   ∨ r = (mkOutput (30 * Second) false None, None)
   ∨ r = (mkOutput 0 true None, None)
   ∨ (∃ o, r = (mkOutput 0 false (Some o), None)))
  ∧ (r.2 = None → bool_decide (out_RequeueAfter r.1 > 0) = false →
     out_Paused r.1 = false → is_Some (out_Result r.1)).
Proof.
  cbv zeta. split; [apply reconcileExternal_cases |].
  destruct (reconcileExternal_cases env f s) as [[e ->] | [-> | [-> | [o ->]]]];
    cbn; try done; intros _ _ _; by eexists.
Qed.

(** Adoption: an object the external reconciler hands back is stored on the
    server as returned, carries the cluster-name label with the Cluster's
    name and a controller owner reference to the Cluster, and its kind is
    watched. *)
Theorem reconcileExternal_adopts env f s :
  let r := run (reconcileExternal env f) s in
  match out_Result r.1.1 with
  | Some o =>
      objects (st_world r.2) !! key_of o = Some o
      ∧ obj_Labels o !! ClusterLabelName = Some (Name (st_cluster s))
      ∧ controllerRefOf (st_cluster s) ∈ obj_OwnerReferences o
      ∧ own_Controller (controllerRefOf (st_cluster s)) = true
      ∧ obj_Kind o ∈ watches (st_world r.2)
  | None => True
  end.
Proof.
  cbv zeta. unfold reconcileExternal. munfold. destruct s as [c w].
  cbn [st_cluster st_world].
  mexec; cbn [out_Result ReconcileOutput_zero] in *; try discriminate; try done.
  all: match goal with H : Some _ = Some _ |- _ => injection H as <- end.
  all: match goal with
       | H : SetControllerReference _ _ _ = inl _ |- _ =>
           apply SetControllerReference_owner in H; subst
       end.
  all: rewrite controllerRefOf_set_ref.
  all: cbn [st_world with_objects objects watches obj_Labels obj_OwnerReferences obj_Kind
            SetLabels SetOwnerReferences].
  all: split; [apply lookup_insert_eq |].
  all: split; [rewrite lookup_insert_eq; f_equal; by destruct f |].
  all: split; [apply upsertOwnerRef_elem |].
  all: split; [done | set_solver].
Qed.

(** The external reconciler writes nothing but the object it fetched, and of
    that object only the labels and the owner references; secrets are never
    touched. *)
Theorem reconcileExternal_writes_only_fetched env f s :
  let s' := (run (reconcileExternal env f) s).2 in
  secrets (st_world s') = secrets (st_world s)
  ∧ (objects (st_world s') = objects (st_world s)
     ∨ ∃ fetched labels owners,
         external_Get env (st_world s) (get_ref f (st_cluster s'))
                      (Namespace (st_cluster s)) = inl fetched
         ∧ objects (st_world s')
           = <[ key_of fetched := SetLabels labels (SetOwnerReferences owners fetched) ]>
               (objects (st_world s))).
Proof.
  cbv zeta. unfold reconcileExternal. munfold. destruct s as [c w].
  cbn [st_cluster st_world].
  mexec; cbn [st_world with_objects objects secrets]; (split; [done |]);
    try (by left).
  all: right.
  all: match goal with
       | H : SetControllerReference _ _ ?u = inl _ |- _ =>
           destruct (SetControllerReference_inv _ _ _ _ H) as [rs ->]; exists u
       end.
  all: match goal with
       | |- context [set_ref ?f ?r ?c] =>
           destruct (set_ref_facts f r c) as (Han & Hns & Hnm & Hst & Hr);
           set (c1 := set_ref f r c) in *; clearbody c1
       end.
  all: rewrite ?get_ref_with_Status, <- Hns.
  all: eexists _, _; split; [eassumption | reflexivity].
Qed.

(** ** The infrastructure sub-reconciler *)

Lemma run_eq {R} (m : M R R) s :
  run m s = match m s with (inl r, s') | (inr r, s') => (r, s') end.
Proof. reflexivity. Qed.

Lemma call_unfold {R R'} (m : M R R) s :
  @call R R' m s = (inl (run m s).1, (run m s).2).
Proof. unfold call. by destruct (run m s). Qed.

Ltac munfold_keep_call :=
  unfold UpdateReferenceAPIContract, check, orReturn, Patch, Update, Watch, Return,
    getCluster, getWorld, modifyCluster, modifyWorld, mbind, M_bind, mret, M_ret.

Ltac ext_frame :=
  match goal with
  | H : reconcileExternal _ _ _ = _ |- _ =>
      apply reconcileExternal_frame_raw in H; cbn [st_cluster] in H
  end.

Lemma SetMirror_keeps env target o ready reason sev msg c :
  Spec (SetMirror env target o ready reason sev msg c) = Spec c
  ∧ InfrastructureReady (Status (SetMirror env target o ready reason sev msg c))
    = InfrastructureReady (Status c)
  ∧ ControlPlaneReady (Status (SetMirror env target o ready reason sev msg c))
    = ControlPlaneReady (Status c)
  ∧ ManagedExternalEtcdReady (Status (SetMirror env target o ready reason sev msg c))
    = ManagedExternalEtcdReady (Status c)
  ∧ ManagedExternalEtcdInitialized (Status (SetMirror env target o ready reason sev msg c))
    = ManagedExternalEtcdInitialized (Status c).
Proof. by destruct c as [? ? ? ? ? ? []]. Qed.

(** A valid [spec.controlPlaneEndpoint] is never overwritten by the
    infrastructure sub-reconciler, whatever the infrastructure object says. *)
Theorem reconcileInfrastructure_keeps_valid_endpoint env s :
  IsValid (ControlPlaneEndpoint (Spec (st_cluster s))) = true →
  ControlPlaneEndpoint (Spec (st_cluster (run (reconcileInfrastructure env) s).2))
  = ControlPlaneEndpoint (Spec (st_cluster s)).
Proof.
  intros Hv. unfold reconcileInfrastructure. munfold. destruct s as [c w].
  cbn [st_cluster st_world] in *.
  mexec; try done; ext_frame;
    match goal with
    | H : externalFrame _ _ ?c1 |- _ =>
        destruct H as (_&_&_&_&_& Hep &_);
        destruct c1 as [? ? ? ? ? [] []]; cbn in *; subst
    end;
    try done; try congruence;
    match goal with H : negb (IsValid _) = true |- _ => by rewrite Hv in H end.
Qed.

Lemma reconcileInfrastructure_keeps_valid_endpoint_witness :
  ControlPlaneEndpoint
    (Spec (st_cluster (run (reconcileInfrastructure env0)
                         (mkState (with_Spec (set_ControlPlaneEndpoint
                                                (mkEndpoint "10.0.0.1" 6443))
                                             freshCluster) failingWorld)).2))
  = mkEndpoint "10.0.0.1" 6443.
Proof.
  apply (reconcileInfrastructure_keeps_valid_endpoint env0
           (mkState (with_Spec (set_ControlPlaneEndpoint (mkEndpoint "10.0.0.1" 6443))
                               freshCluster) failingWorld)).
  reflexivity.
Defined.

Lemma conditions_Get_replace_same tnow c cs :
  ∃ c', conditions_Get (replaceCondition tnow c cs) (cond_Type c) = Some c'
        ∧ cond_Status c' = cond_Status c.
Proof.
  unfold conditions_Get. induction cs as [| e cs IH]; cbn.
  - rewrite bool_decide_eq_true_2 by done. by eexists.
  - destruct (bool_decide_reflect (cond_Type e = cond_Type c)) as [Heq | Hne]; cbn.
    + destruct (bool_decide (cond_Status e = cond_Status c)); cbn;
        rewrite bool_decide_eq_true_2 by done; by eexists.
    + by rewrite bool_decide_eq_false_2.
Qed.

Lemma SetMirror_fallback_IsTrue env target o reason sev msg c :
  conditions_Get (obj_status_conditions o) ReadyCondition = None →
  conditions_IsTrue (SetMirror env target o true reason sev msg c) target = true.
Proof.
  intros Hnone. unfold conditions_IsTrue, SetMirror, conditions_Set. rewrite Hnone.
  destruct c as [? ? ? ? ? ? []]; cbn [Status with_Status Conditions set_Conditions].
  destruct (conditions_Get_replace_same (now env) (TrueCondition target) Conditions0)
    as (c' & Hc' & Hs).
  cbn [cond_Type TrueCondition] in Hc'. rewrite Hc', Hs. done.
Qed.

(** Scenario 2 in general: when the external reconciler hands back a live
    infrastructure object that is ready and names a control-plane endpoint,
    and the Cluster has no valid endpoint yet, the sub-reconciler succeeds,
    sets [infrastructureReady], takes the object's endpoint and, the object
    having no Ready condition of its own, marks InfrastructureReady True. *)
Theorem reconcileInfrastructure_ready_takes_endpoint env s o s1 ep :
  InfrastructureRef (Spec (st_cluster s)) ≠ None →
  run (reconcileExternal env FInfrastructureRef) s
  = ((mkOutput 0 false (Some o), None), s1) →
  Time_IsZero (obj_DeletionTimestamp o) = true →
  IsReady o = inl true →
  IsValid (ControlPlaneEndpoint (Spec (st_cluster s))) = false →
  obj_spec_controlPlaneEndpoint o = Present ep →
  obj_status_failureDomains o = Absent →
  conditions_Get (obj_status_conditions o) ReadyCondition = None →
  let r := run (reconcileInfrastructure env) s in
  r.1 = (Result_zero, None)
  ∧ st_world r.2 = st_world s1
  ∧ InfrastructureReady (Status (st_cluster r.2)) = true
  ∧ ControlPlaneEndpoint (Spec (st_cluster r.2)) = ep
  ∧ conditions_IsTrue (st_cluster r.2) InfrastructureReadyCondition = true.
Proof.
  intros Href Hext Hdel Hready Hinv Hep Hfd Hcond. cbv zeta.
  pose proof (reconcileExternal_frame env FInfrastructureRef s) as Hf.
  rewrite Hext in Hf. cbn [snd] in Hf. destruct Hf as (_&_&_&_&_& Hsame &_).
  unfold reconcileInfrastructure. munfold. unfold run in Hext.
  rewrite (bool_decide_eq_false_2 _ Href).
  destruct (SetMirror_keeps env InfrastructureReadyCondition o true
              WaitingForInfrastructureFallbackReason SeverityInfo ""
              (with_Status (set_InfrastructureReady true) (st_cluster s1)))
    as (Hspec & Hir & _).
  destruct (reconcileExternal env FInfrastructureRef s) as [[x | x] s2];
    injection Hext as -> ->; cbn [fst snd out_RequeueAfter out_Paused out_Result];
    change (theObject (Some o)) with o;
    rewrite Hdel, Hready, (bool_decide_eq_false_2 (0 > 0)) by lia;
    cbn [negb st_cluster st_world];
    rewrite Hspec; cbn [Spec with_Status]; rewrite Hsame, Hinv, Hep, Hfd;
    cbn [negb UnstructuredUnmarshalField st_cluster st_world fst snd];
    rewrite (bool_decide_eq_false_2 (ErrUnstructuredFieldNotFound ≠ _))
      by (by intros H; apply H);
    cbn [st_cluster st_world fst snd];
    (split; [done |]); (split; [done |]);
    (split; [by destruct (st_cluster s1) as [? ? ? ? ? [] []] |]);
    (split; [by destruct (st_cluster s1) as [? ? ? ? ? [] []] |]);
    unfold conditions_IsTrue; cbn [Status with_Spec];
    by apply (SetMirror_fallback_IsTrue env InfrastructureReadyCondition o).
Qed.

Lemma reconcileInfrastructure_ready_takes_endpoint_witness :
  let r := run (reconcileInfrastructure env0) (mkState freshCluster readyFooWorld) in
  r.1 = (Result_zero, None)
  ∧ InfrastructureReady (Status (st_cluster r.2)) = true
  ∧ ControlPlaneEndpoint (Spec (st_cluster r.2)) = mkEndpoint "1.2.3.4" 6443
  ∧ Phase (Status (reconcilePhase (st_cluster r.2))) = ClusterPhaseProvisioned.
Proof.
  destruct (reconcileInfrastructure_ready_takes_endpoint env0
              (mkState freshCluster readyFooWorld)
              (theObject (out_Result
                 (run (reconcileExternal env0 FInfrastructureRef)
                      (mkState freshCluster readyFooWorld)).1.1))
              (run (reconcileExternal env0 FInfrastructureRef)
                   (mkState freshCluster readyFooWorld)).2
              (mkEndpoint "1.2.3.4" 6443))
    as (Hr & _ & Hready & Hep & _);
    [discriminate | vm_compute; reflexivity | reflexivity | reflexivity | reflexivity
    | reflexivity | reflexivity | reflexivity |].
  cbv zeta. split; [exact Hr |]. split; [exact Hready |]. split; [exact Hep |].
  vm_compute. reflexivity.
Defined.

(** A missing endpoint is a hard error, reported after the readiness was
    written: with a ready, live infrastructure object that has no
    [spec.controlPlaneEndpoint] and a Cluster without a valid endpoint, the
    sub-reconciler returns the field-not-found error wrapped, and
    [status.infrastructureReady] is already true on the Cluster it leaves. *)
Theorem reconcileInfrastructure_missing_endpoint env s o s1 :
  InfrastructureRef (Spec (st_cluster s)) ≠ None →
  run (reconcileExternal env FInfrastructureRef) s
  = ((mkOutput 0 false (Some o), None), s1) →
  Time_IsZero (obj_DeletionTimestamp o) = true →
  IsReady o = inl true →
  IsValid (ControlPlaneEndpoint (Spec (st_cluster s))) = false →
  obj_spec_controlPlaneEndpoint o = Absent →
  let r := run (reconcileInfrastructure env) s in
  r.1 = (Result_zero,
         Some (ErrWrapped
                 "failed to retrieve Spec.ControlPlaneEndpoint from infrastructure provider"
                 ErrUnstructuredFieldNotFound))
  ∧ InfrastructureReady (Status (st_cluster r.2)) = true
  ∧ ControlPlaneEndpoint (Spec (st_cluster r.2))
    = ControlPlaneEndpoint (Spec (st_cluster s))
  ∧ FailureDomains (Status (st_cluster r.2)) = FailureDomains (Status (st_cluster s)).
Proof.
  intros Href Hext Hdel Hready Hinv Hep. cbv zeta.
  pose proof (reconcileExternal_frame env FInfrastructureRef s) as Hf.
  rewrite Hext in Hf. cbn [snd] in Hf.
  destruct Hf as (_&_&_&_&_& Hsame &_&_&_& Hfds &_).
  unfold reconcileInfrastructure. munfold. unfold run in Hext.
  rewrite (bool_decide_eq_false_2 _ Href).
  destruct (SetMirror_keeps env InfrastructureReadyCondition o true
              WaitingForInfrastructureFallbackReason SeverityInfo ""
              (with_Status (set_InfrastructureReady true) (st_cluster s1)))
    as (Hspec & Hir & _).
  destruct (reconcileExternal env FInfrastructureRef s) as [[x | x] s2];
    injection Hext as -> ->; cbn [fst snd out_RequeueAfter out_Paused out_Result];
    change (theObject (Some o)) with o;
    rewrite Hdel, Hready, (bool_decide_eq_false_2 (0 > 0)) by lia;
    cbn [negb st_cluster st_world];
    rewrite Hspec; cbn [Spec with_Status]; rewrite Hsame, Hinv, Hep;
    cbn [negb UnstructuredUnmarshalField st_cluster st_world fst snd];
    (split; [done |]);
    rewrite <- Hsame, <- Hfds;
    by destruct (st_cluster s1) as [? ? ? ? ? [] []].
Qed.

Lemma reconcileInfrastructure_missing_endpoint_witness :
  let r := run (reconcileInfrastructure env0)
               (mkState freshCluster readyFooNoEndpointWorld) in
  r.1.2 = Some (ErrWrapped
                  "failed to retrieve Spec.ControlPlaneEndpoint from infrastructure provider"
                  ErrUnstructuredFieldNotFound)
  ∧ InfrastructureReady (Status (st_cluster r.2)) = true.
Proof.
  destruct (reconcileInfrastructure_missing_endpoint env0
              (mkState freshCluster readyFooNoEndpointWorld)
              (theObject (out_Result
                 (run (reconcileExternal env0 FInfrastructureRef)
                      (mkState freshCluster readyFooNoEndpointWorld)).1.1))
              (run (reconcileExternal env0 FInfrastructureRef)
                   (mkState freshCluster readyFooNoEndpointWorld)).2)
    as (Hr & Hready & _);
    [discriminate | vm_compute; reflexivity | reflexivity | reflexivity | reflexivity
    | reflexivity |].
  cbv zeta. rewrite Hr. split; [reflexivity | exact Hready].
Defined.

(** [status.infrastructureReady] changes only to the [status.ready] of a
    live object the external reconciler handed back: on a requeue, a pause,
    an error or an object being deleted it keeps its value. *)
Theorem reconcileInfrastructure_ready_source env s :
  let r := run (reconcileInfrastructure env) s in
  InfrastructureReady (Status (st_cluster r.2))
  = InfrastructureReady (Status (st_cluster s))
  ∨ ∃ o, (run (reconcileExternal env FInfrastructureRef) s).1
         = (mkOutput 0 false (Some o), None)
         ∧ Time_IsZero (obj_DeletionTimestamp o) = true
         ∧ IsReady o = inl (InfrastructureReady (Status (st_cluster r.2))).
Proof.
  cbv zeta.
  pose proof (reconcileExternal_cases env FInfrastructureRef s) as Hcases.
  pose proof (reconcileExternal_frame env FInfrastructureRef s) as Hf.
  rewrite (run_eq (reconcileInfrastructure env)).
  unfold reconcileInfrastructure. munfold_keep_call.
  destruct s as [c w]. cbn [st_cluster st_world] in *.
  destruct (bool_decide (InfrastructureRef (Spec c) = None)); [by left |].
  rewrite call_unfold.
  destruct (run (reconcileExternal env FInfrastructureRef) (mkState c w))
    as [[out err] s1].
  cbn [fst snd] in *.
  destruct Hf as (_&_&_&_&_&_&_&_&_&_&_& Hir &_).
  destruct Hcases as [[e [= -> ->]] | [[= -> ->] | [[= -> ->] | [o [= -> ->]]]]];
    cbn [out_RequeueAfter out_Paused out_Result ReconcileOutput_zero];
    rewrite ?(bool_decide_eq_true_2 (30 * Second > 0)) by (unfold Second; lia);
    rewrite ?(bool_decide_eq_false_2 (0 > 0)) by lia;
    try (left; done).
  change (theObject (Some o)) with o.
  destruct (Time_IsZero (obj_DeletionTimestamp o)) eqn:Hdel; cbn [negb]; [| by left].
  destruct (IsReady o) as [ready | e] eqn:Hready; [| by left].
  right. exists o. split; [done |]. split; [done |].
  cbn [st_cluster st_world].
  destruct (SetMirror_keeps env InfrastructureReadyCondition o ready
              WaitingForInfrastructureFallbackReason SeverityInfo ""
              (with_Status (set_InfrastructureReady ready) (st_cluster s1)))
    as (_ & Hmir & _).
  f_equal. symmetry.
  mexec; cbn [st_cluster]; rewrite ?Hmir;
    by destruct (st_cluster s1) as [? ? ? ? ? [] []].
Qed.

(** ** The latched conditions *)

Lemma Conditions_set_InfrastructureReady c b :
  Conditions (Status (with_Status (set_InfrastructureReady b) c)) = Conditions (Status c).
Proof. by destruct c as [? ? ? ? ? ? []]. Qed.

Lemma Conditions_set_ControlPlaneReady c b :
  Conditions (Status (with_Status (set_ControlPlaneReady b) c)) = Conditions (Status c).
Proof. by destruct c as [? ? ? ? ? ? []]. Qed.

Lemma Conditions_set_ManagedExternalEtcdReady c b :
  Conditions (Status (with_Status (set_ManagedExternalEtcdReady b) c))
  = Conditions (Status c).
Proof. by destruct c as [? ? ? ? ? ? []]. Qed.

Lemma Conditions_set_ManagedExternalEtcdInitialized c b :
  Conditions (Status (with_Status (set_ManagedExternalEtcdInitialized b) c))
  = Conditions (Status c).
Proof. by destruct c as [? ? ? ? ? ? []]. Qed.

Lemma Conditions_set_ControlPlaneEndpoint c ep :
  Conditions (Status (with_Spec (set_ControlPlaneEndpoint ep) c)) = Conditions (Status c).
Proof. by destruct c as [? ? ? ? ? ? []]. Qed.

Lemma Conditions_set_FailureDomains c fds :
  Conditions (Status (with_Status (λ s, set_FailureDomains (fds ∪ FailureDomains s) s) c))
  = Conditions (Status c).
Proof. by destruct c as [? ? ? ? ? ? []]. Qed.

Lemma MarkTrue_other env t' c t :
  t' ≠ t →
  conditions_Get (Conditions (Status (MarkTrue env t' c))) t
  = conditions_Get (Conditions (Status c)) t.
Proof.
  intros Hne. unfold MarkTrue, conditions_Set.
  destruct c as [? ? ? ? ? ? []]; cbn [Status with_Status Conditions set_Conditions].
  by apply conditions_Get_replace.
Qed.

Lemma MarkFalse_other env t' reason sev msg c t :
  t' ≠ t →
  conditions_Get (Conditions (Status (MarkFalse env t' reason sev msg c))) t
  = conditions_Get (Conditions (Status c)) t.
Proof.
  intros Hne. unfold MarkFalse, conditions_Set.
  destruct c as [? ? ? ? ? ? []]; cbn [Status with_Status Conditions set_Conditions].
  by apply conditions_Get_replace.
Qed.

Lemma MarkTrue_IsTrue env t c : conditions_IsTrue (MarkTrue env t c) t = true.
Proof.
  unfold conditions_IsTrue, MarkTrue, conditions_Set.
  destruct c as [? ? ? ? ? ? []]; cbn [Status with_Status Conditions set_Conditions].
  destruct (conditions_Get_replace_same (now env) (TrueCondition t) Conditions0)
    as (c' & Hc' & Hs).
  cbn [cond_Type TrueCondition] in Hc'. by rewrite Hc', Hs.
Qed.

(** Brings [conditions_Get (Conditions (Status c')) t], for a cluster [c']
    some path of a phase leaves, back to the cluster the path started from. *)
Ltac conds_back :=
  repeat first
    [ rewrite SetMirror_other by done
    | rewrite MarkTrue_other by done
    | rewrite MarkFalse_other by done
    | rewrite Conditions_set_InfrastructureReady
    | rewrite Conditions_set_ControlPlaneReady
    | rewrite Conditions_set_ManagedExternalEtcdReady
    | rewrite Conditions_set_ManagedExternalEtcdInitialized
    | rewrite Conditions_set_ControlPlaneEndpoint
    | rewrite Conditions_set_FailureDomains ].

Ltac conds_back_in H :=
  repeat first
    [ rewrite SetMirror_other in H by done
    | rewrite MarkTrue_other in H by done
    | rewrite MarkFalse_other in H by done
    | rewrite Conditions_set_InfrastructureReady in H
    | rewrite Conditions_set_ControlPlaneReady in H
    | rewrite Conditions_set_ManagedExternalEtcdReady in H
    | rewrite Conditions_set_ManagedExternalEtcdInitialized in H
    | rewrite Conditions_set_ControlPlaneEndpoint in H
    | rewrite Conditions_set_FailureDomains in H ].

Lemma latch_frame_tail t c c1 c' :
  Conditions (Status c1) = Conditions (Status c) →
  conditions_Get (Conditions (Status c')) t = conditions_Get (Conditions (Status c1)) t →
  conditions_IsTrue c t = true → conditions_IsTrue c' t = true.
Proof. unfold conditions_IsTrue. intros <- ->. done. Qed.

(** A path of a phase keeps a latch that is True: the conditions it writes
    are of other types, or it marks the latch True, or it took the branch
    of a latch that is not True. *)
Ltac latch_tail :=
  lazymatch goal with
  | |- conditions_IsTrue ?c ?t = true → conditions_IsTrue ?c ?t = true => done
  | H : reconcileExternal _ _ _ = (_, ?s') |- _ =>
      apply reconcileExternal_frame_raw in H; cbn [st_cluster] in H;
      destruct H as (_&_&_&_&_&_&_&_&_&_&_&_&_&_&_& Hconds);
      intros Ht;
      first
        [ apply MarkTrue_IsTrue
        | by (eapply (latch_frame_tail _ _ (st_cluster s')); [exact Hconds | | exact Ht];
              conds_back)
        | exfalso;
          match goal with
          | Hb : negb (conditions_IsTrue _ _) = true |- _ =>
              apply negb_true_iff in Hb; unfold conditions_IsTrue in Hb, Ht;
              conds_back_in Hb; rewrite Hconds in Hb; congruence
          end ]
  end.

Lemma reconcileInfrastructure_latch env s t :
  isLatch t →
  conditions_IsTrue (st_cluster s) t = true →
  conditions_IsTrue (st_cluster (run (reconcileInfrastructure env) s).2) t = true.
Proof.
  intros [-> | ->]; unfold reconcileInfrastructure; munfold; destruct s as [c w];
    cbn [st_cluster st_world]; mexec; latch_tail.
Qed.

Lemma reconcileControlPlane_latch env s t :
  isLatch t →
  conditions_IsTrue (st_cluster s) t = true →
  conditions_IsTrue (st_cluster (run (reconcileControlPlane env) s).2) t = true.
Proof.
  intros [-> | ->]; unfold reconcileControlPlane; munfold; destruct s as [c w];
    cbn [st_cluster st_world]; mexec; latch_tail.
Qed.

Lemma reconcileEtcdCluster_latch env s t :
  isLatch t →
  conditions_IsTrue (st_cluster s) t = true →
  conditions_IsTrue (st_cluster (run (reconcileEtcdCluster env) s).2) t = true.
Proof.
  intros [-> | ->]; unfold reconcileEtcdCluster; munfold; destruct s as [c w];
    cbn [st_cluster st_world]; mexec; latch_tail.
Qed.

Lemma reconcileKubeconfig_cluster env s :
  st_cluster (run (reconcileKubeconfig env) s).2 = st_cluster s.
Proof.
  unfold reconcileKubeconfig, CreateSecret. munfold. destruct s as [c w].
  cbn [st_cluster st_world]. by mexec.
Qed.

Lemma runPhase_latch env s p t :
  isLatch t →
  conditions_IsTrue (st_cluster s) t = true →
  conditions_IsTrue (st_cluster (runPhase env s p)) t = true.
Proof.
  intros Hl Ht. destruct p; cbn [runPhase st_cluster].
  - by apply reconcileInfrastructure_latch.
  - by apply reconcileEtcdCluster_latch.
  - by apply reconcileControlPlane_latch.
  - by rewrite reconcileKubeconfig_cluster.
  - rewrite reconcilePhase_unfold. unfold conditions_IsTrue in *.
    by destruct (st_cluster s) as [? ? ? ? ? ? []].
Qed.

(** The latched conditions: once ControlPlaneInitialized, or
    ManagedEtcdInitialized, is True on the Cluster, it is still True after
    any sequence of phases, whatever the provider objects report. *)
Theorem latched_conditions_stay_true env ps s t :
  isLatch t →
  conditions_IsTrue (st_cluster s) t = true →
  conditions_IsTrue (st_cluster (runPhases env ps s)) t = true.
Proof.
  intros Hl. revert s. induction ps as [| p ps IH]; intros s Ht; [done |].
  apply IH. by apply runPhase_latch.
Qed.

Lemma latched_conditions_stay_true_witness :
  conditions_IsTrue
    (st_cluster (runPhases env0 reconcileOrder (mkState initializedCluster initializedWorld)))
    ControlPlaneInitializedCondition = true.
Proof.
  apply (latched_conditions_stay_true env0 reconcileOrder
           (mkState initializedCluster initializedWorld)
           ControlPlaneInitializedCondition);
    [by left | reflexivity].
Defined.

(** ** The control-plane sub-reconciler *)

Lemma external_Get_found env w ref ns o :
  external_Get env w (Some ref) ns = inl o →
  faults env (OpGet (ref_APIVersion ref, ref_Kind ref, ns, ref_Name ref)) = None
  ∧ objects w !! (ref_APIVersion ref, ref_Kind ref, ns, ref_Name ref) = Some o.
Proof. unfold external_Get. intros H. repeat case_match; by simplify_eq. Qed.

Lemma HasPausedAnnotation_pause :
  HasPausedAnnotation {[ PausedAnnotation := "true" ]} = true.
Proof.
  unfold HasPausedAnnotation. apply bool_decide_eq_true.
  rewrite lookup_singleton_eq. by eexists.
Qed.

(** Scenario 3 in general: while the etcd object is not ready, the
    control-plane sub-reconciler stores the control-plane object with the
    paused annotation, then finds it paused and returns an empty result
    without touching the Cluster's status; [controlPlaneReady] in particular
    keeps its value. *)
Theorem reconcileControlPlane_gated_by_etcd env cluster w cref eref etcd cp :
  ControlPlaneRef (Spec cluster) = Some cref →
  ManagedExternalEtcdRef (Spec cluster) = Some eref →
  external_Get env w (Some eref) (Namespace cluster) = inl etcd →
  IsReady etcd = inl false →
  external_Get env w (Some cref) (Namespace cluster) = inl cp →
  key_of cp = (ref_APIVersion cref, ref_Kind cref, Namespace cluster, ref_Name cref) →
  faults env (OpUpdate (key_of cp)) = None →
  contractVersion env cref = inr (ref_APIVersion cref) →
  let r := run (reconcileControlPlane env) (mkState cluster w) in
  r.1 = (Result_zero, None)
  ∧ objects (st_world r.2)
    = <[ key_of cp := SetAnnotations {[ PausedAnnotation := "true" ]} cp ]> (objects w)
  ∧ Status (st_cluster r.2) = Status cluster.
Proof.
  intros Hc He Hge Hre Hgc Hk Hu Hv. cbv zeta.
  destruct (external_Get_found _ _ _ _ _ Hgc) as [Hfault _].
  destruct (set_ref_facts FControlPlaneRef (Some (rewritten (ref_APIVersion cref) cref))
              cluster) as (Han & Hns & Hnm & Hst & Hr).
  unfold reconcileControlPlane, reconcileExternal. munfold. cbv zeta.
  cbn [st_cluster st_world].
  rewrite Hc, He.
  rewrite (bool_decide_eq_false_2 (Some cref = None)) by done.
  rewrite (bool_decide_eq_true_2 (Some eref ≠ None)) by done.
  cbn [st_cluster st_world].
  rewrite Hge, Hre. cbn [negb st_cluster st_world]. rewrite Hgc.
  change (key_of (SetAnnotations {[PausedAnnotation := "true"]} cp)) with (key_of cp).
  rewrite Hu. cbn [st_cluster st_world get_ref Spec].
  rewrite Hc, Hv.
  cbn [st_cluster st_world get_ref set_ref with_Spec Spec ControlPlaneRef Namespace
       ref_APIVersion ref_Kind ref_Name ref_Namespace].
  assert (external_Get env
            (with_objects
               <[key_of cp := SetAnnotations {[PausedAnnotation := "true"]} cp]> w)
            (Some (rewritten (ref_APIVersion cref) cref)) (Namespace cluster)
          = inl (SetAnnotations {[PausedAnnotation := "true"]} cp)) as Hget.
  { unfold external_Get, rewritten. cbn [ref_APIVersion ref_Kind ref_Name].
    rewrite Hfault. cbn [objects with_objects]. rewrite <- Hk.
    by rewrite lookup_insert_eq. }
  unfold rewritten in Hget. rewrite Hget.
  unfold IsPaused. cbn [obj_Annotations SetAnnotations Annotations].
  rewrite HasPausedAnnotation_pause, orb_true_r.
  cbn [fst snd st_cluster st_world out_RequeueAfter out_Paused].
  rewrite (bool_decide_eq_false_2 (0 > 0)) by lia.
  cbn [fst snd st_cluster st_world with_objects objects Status].
  done.
Qed.

Lemma reconcileControlPlane_gated_by_etcd_witness :
  let r := run (reconcileControlPlane env0) (mkState gatedCluster gatedWorld) in
  r.1 = (Result_zero, None)
  ∧ Status (st_cluster r.2) = Status gatedCluster.
Proof.
  destruct (reconcileControlPlane_gated_by_etcd env0 gatedCluster gatedWorld
              cpRef etcdRef pendingEtcd annotatedControlPlane)
    as (Hr & _ & Hst);
    [reflexivity | reflexivity | vm_compute; reflexivity | reflexivity
    | vm_compute; reflexivity | reflexivity | reflexivity | reflexivity |].
  by split.
Defined.


(** A failed pause is reported with both an error and [Requeue: true], and
    nothing has been written: neither the server nor the Cluster. *)
Theorem reconcileControlPlane_pause_update_error env cluster w cref eref etcd cp err :
  ControlPlaneRef (Spec cluster) = Some cref →
  ManagedExternalEtcdRef (Spec cluster) = Some eref →
  external_Get env w (Some eref) (Namespace cluster) = inl etcd →
  IsReady etcd = inl false →
  external_Get env w (Some cref) (Namespace cluster) = inl cp →
  faults env (OpUpdate (key_of cp)) = Some err →
  run (reconcileControlPlane env) (mkState cluster w)
  = ((mkResult true 0, Some err), mkState cluster w).
Proof.
  intros Hc He Hge Hre Hgc Hu.
  unfold reconcileControlPlane. munfold. cbv zeta.
  cbn [st_cluster st_world].
  rewrite Hc, He.
  rewrite (bool_decide_eq_false_2 (Some cref = None)) by done.
  rewrite (bool_decide_eq_true_2 (Some eref ≠ None)) by done.
  cbn [st_cluster st_world].
  rewrite Hge, Hre. cbn [negb st_cluster st_world]. rewrite Hgc.
  change (key_of (SetAnnotations {[PausedAnnotation := "true"]} cp)) with (key_of cp).
  by rewrite Hu.
Qed.

Lemma reconcileControlPlane_pause_update_error_witness :
  run (reconcileControlPlane updateFailsEnv) (mkState gatedCluster gatedWorld)
  = ((mkResult true 0, Some (ErrServer "the object has been modified")),
     mkState gatedCluster gatedWorld).
Proof.
  apply (reconcileControlPlane_pause_update_error updateFailsEnv gatedCluster gatedWorld
           cpRef etcdRef pendingEtcd annotatedControlPlane);
    [reflexivity | reflexivity | vm_compute; reflexivity | reflexivity
    | vm_compute; reflexivity | reflexivity].
Defined.

(** ** The etcd sub-reconciler *)

(** Resuming removes the paused annotation and nothing else: when the etcd
    object handed back is live and ready and the control-plane object is
    paused, the control-plane object is stored again without the paused
    annotation and with every other annotation as it was, and
    [managedExternalEtcdReady] is true on the Cluster. *)
Theorem reconcileEtcdCluster_resumes env s o s1 cp :
  ManagedExternalEtcdRef (Spec (st_cluster s)) ≠ None →
  run (reconcileExternal env FManagedExternalEtcdRef) s
  = ((mkOutput 0 false (Some o), None), s1) →
  Time_IsZero (obj_DeletionTimestamp o) = true →
  IsReady o = inl true →
  external_Get env (st_world s1) (ControlPlaneRef (Spec (st_cluster s1)))
               (Namespace (st_cluster s1)) = inl cp →
  HasPausedAnnotation (obj_Annotations cp) = true →
  faults env (OpUpdate (key_of cp)) = None →
  let r := run (reconcileEtcdCluster env) s in
  objects (st_world r.2)
  = <[ key_of cp := RemoveAnnotation PausedAnnotation cp ]> (objects (st_world s1))
  ∧ HasPausedAnnotation (obj_Annotations (RemoveAnnotation PausedAnnotation cp)) = false
  ∧ (∀ k, k ≠ PausedAnnotation →
       obj_Annotations (RemoveAnnotation PausedAnnotation cp) !! k
       = obj_Annotations cp !! k)
  ∧ ManagedExternalEtcdReady (Status (st_cluster r.2)) = true.
Proof.
  intros Href Hext Hdel Hready Hget Hp Hu. cbv zeta.
  assert (HasPausedAnnotation (obj_Annotations (RemoveAnnotation PausedAnnotation cp))
          = false) as Hgone.
  { unfold HasPausedAnnotation, RemoveAnnotation. cbn [obj_Annotations SetAnnotations].
    apply bool_decide_eq_false. rewrite lookup_delete_eq. by intros []. }
  assert (∀ k, k ≠ PausedAnnotation →
            obj_Annotations (RemoveAnnotation PausedAnnotation cp) !! k
            = obj_Annotations cp !! k) as Hkeep.
  { intros k Hk. unfold RemoveAnnotation. cbn [obj_Annotations SetAnnotations].
    by rewrite lookup_delete_ne. }
  split; [| split; [done | split; [done |]]].
  all: unfold reconcileEtcdCluster; munfold; unfold run in Hext;
    rewrite (bool_decide_eq_false_2 _ Href);
    destruct (reconcileExternal env FManagedExternalEtcdRef s) as [[x | x] s2];
    injection Hext as -> ->; cbn [fst snd out_RequeueAfter out_Paused out_Result];
    change (theObject (Some o)) with o;
    rewrite Hdel, Hready, (bool_decide_eq_false_2 (0 > 0)) by lia;
    cbn [negb st_cluster st_world Spec Namespace with_Status];
    rewrite Hget, Hp;
    change (key_of (RemoveAnnotation PausedAnnotation cp)) with (key_of cp);
    rewrite Hu; cbn [st_cluster st_world];
    mexec; cbn [st_world st_cluster with_objects objects]; try done.
  all: rewrite ?(proj1 (proj2 (proj2 (proj2 (SetMirror_keeps _ _ _ _ _ _ _ _)))));
    unfold MarkTrue, MarkFalse, conditions_Set;
    by destruct (st_cluster s1) as [? ? ? ? ? [] []].
Qed.

Lemma reconcileEtcdCluster_resumes_witness :
  let r := run (reconcileEtcdCluster env0) (mkState gatedCluster resumeWorld) in
  (objects (st_world r.2) !! key_of pausedControlPlane
     ≫= λ cp, obj_Annotations cp !! "example.com/team") = Some "platform"
  ∧ ManagedExternalEtcdReady (Status (st_cluster r.2)) = true.
Proof.
  destruct (reconcileEtcdCluster_resumes env0 (mkState gatedCluster resumeWorld)
              (theObject (out_Result
                 (run (reconcileExternal env0 FManagedExternalEtcdRef)
                      (mkState gatedCluster resumeWorld)).1.1))
              (run (reconcileExternal env0 FManagedExternalEtcdRef)
                   (mkState gatedCluster resumeWorld)).2
              pausedControlPlane)
    as (Hobj & _ & Hkeep & Hready);
    [discriminate | vm_compute; reflexivity | reflexivity | reflexivity
    | vm_compute; reflexivity | vm_compute; reflexivity | reflexivity |].
  cbv zeta. split; [| exact Hready].
  rewrite Hobj, lookup_insert_eq. cbn [mbind option_bind].
  rewrite Hkeep by done. vm_compute. reflexivity.
Defined.

(** ** The kubeconfig sub-reconciler *)

(** The kubeconfig sub-reconciler never changes the Cluster, the stored
    objects or the watches; the only thing it may write is the kubeconfig
    secret of the Cluster.  With a control-plane reference, or without a
    valid endpoint, it does nothing at all. *)
Theorem reconcileKubeconfig_writes_only_secret env s :
  let r := run (reconcileKubeconfig env) s in
  let c := st_cluster s in
  st_cluster r.2 = c
  ∧ objects (st_world r.2) = objects (st_world s)
  ∧ watches (st_world r.2) = watches (st_world s)
  ∧ (secrets (st_world r.2) = secrets (st_world s)
     ∨ secrets (st_world r.2)
       = {[ (Namespace c, kubeconfigSecretName c) ]} ∪ secrets (st_world s))
  ∧ (ControlPlaneRef (Spec c) ≠ None ∨ IsValid (ControlPlaneEndpoint (Spec c)) = false →
     r = ((Result_zero, None), s)).
Proof.
  cbv zeta. unfold reconcileKubeconfig, CreateSecret. munfold. destruct s as [c w].
  cbn [st_cluster st_world].
  mexec; cbn [st_cluster st_world objects watches secrets];
    repeat match goal with
           | |- _ ∧ _ => split
           end; try done; try (by left); try (by right).
  all: intros [Hcp | Hv];
    repeat match goal with
           | H : negb _ = false |- _ => apply negb_false_iff in H
           | H : bool_decide _ = false |- _ => apply bool_decide_eq_false in H
           end; try done; try congruence.
  all: exfalso; match goal with H : ¬ (_ ≠ None) |- _ => apply H end; done.
Qed.

(** With a valid endpoint, no control-plane reference, the CA secret present
    and no fault, the kubeconfig secret exists after the sub-reconciler, and
    running it again changes nothing. *)
Theorem reconcileKubeconfig_creates_once env s :
  let c := st_cluster s in
  IsValid (ControlPlaneEndpoint (Spec c)) = true →
  ControlPlaneRef (Spec c) = None →
  faults env (OpSecretGet (Namespace c) (kubeconfigSecretName c)) = None →
  faults env (OpCreateSecret (Namespace c) (kubeconfigSecretName c)) = None →
  (Namespace c, caSecretName c) ∈ secrets (st_world s) →
  let r := run (reconcileKubeconfig env) s in
  r.1 = (Result_zero, None)
  ∧ (Namespace c, kubeconfigSecretName c) ∈ secrets (st_world r.2)
  ∧ run (reconcileKubeconfig env) r.2 = ((Result_zero, None), r.2).
Proof.
  cbv zeta. destruct s as [c w]. cbn [st_cluster st_world].
  intros Hv Hcp Hg Hcr Hca.
  assert (∀ w', (Namespace c, kubeconfigSecretName c) ∈ secrets w' →
            run (reconcileKubeconfig env) (mkState c w')
            = ((Result_zero, None), mkState c w')) as Hnoop.
  { intros w' Hin. unfold reconcileKubeconfig, secret_Get. munfold.
    cbn [st_cluster st_world].
    rewrite Hv, Hcp, Hg. cbn [negb].
    rewrite (bool_decide_eq_false_2 (None ≠ None)) by (by intros H; apply H).
    by rewrite (bool_decide_eq_true_2 _ Hin). }
  destruct (decide ((Namespace c, kubeconfigSecretName c) ∈ secrets w)) as [Hin | Hnin].
  - rewrite (Hnoop w Hin). cbn [fst snd st_world]. by rewrite (Hnoop w Hin).
  - assert (run (reconcileKubeconfig env) (mkState c w)
            = ((Result_zero, None),
               mkState c (mkWorld (objects w)
                            ({[(Namespace c, kubeconfigSecretName c)]} ∪ secrets w)
                            (watches w)))) as ->.
    { unfold reconcileKubeconfig, secret_Get, CreateSecret. munfold.
      cbn [st_cluster st_world].
      rewrite Hv, Hcp, Hg. cbn [negb].
      rewrite (bool_decide_eq_false_2 (None ≠ None)) by (by intros H; apply H).
      rewrite (bool_decide_eq_false_2 _ Hnin). cbn [IsNotFound st_world].
      by rewrite (bool_decide_eq_true_2 _ Hca), Hcr. }
    cbn [fst snd st_world secrets]. split; [done |]. split; [set_solver |].
    apply Hnoop. cbn [secrets]. set_solver.
Qed.

Lemma reconcileKubeconfig_creates_once_witness :
  let r := run (reconcileKubeconfig env0) (mkState bareCluster caWorld) in
  r.1 = (Result_zero, None)
  ∧ ("default", "c1-kubeconfig") ∈ secrets (st_world r.2)
  ∧ run (reconcileKubeconfig env0) r.2 = ((Result_zero, None), r.2).
Proof.
  apply (reconcileKubeconfig_creates_once env0 (mkState bareCluster caWorld));
    [reflexivity | reflexivity | reflexivity | reflexivity |].
  vm_compute. reflexivity.
Defined.

(** Without the CA secret nothing can be minted: the sub-reconciler asks for
    a requeue in 30 seconds, reports no error and writes nothing. *)
Theorem reconcileKubeconfig_waits_for_ca env s :
  let c := st_cluster s in
  IsValid (ControlPlaneEndpoint (Spec c)) = true →
  ControlPlaneRef (Spec c) = None →
  faults env (OpSecretGet (Namespace c) (kubeconfigSecretName c)) = None →
  (Namespace c, kubeconfigSecretName c) ∉ secrets (st_world s) →
  (Namespace c, caSecretName c) ∉ secrets (st_world s) →
  run (reconcileKubeconfig env) s = ((mkResult false (30 * Second), None), s).
Proof.
  cbv zeta. destruct s as [c w]. cbn [st_cluster st_world].
  intros Hv Hcp Hg Hnin Hca.
  unfold reconcileKubeconfig, secret_Get, CreateSecret. munfold.
  cbn [st_cluster st_world].
  rewrite Hv, Hcp, Hg. cbn [negb].
  rewrite (bool_decide_eq_false_2 (None ≠ None)) by (by intros H; apply H).
  rewrite (bool_decide_eq_false_2 _ Hnin). cbn [IsNotFound st_world].
  rewrite (bool_decide_eq_false_2 _ Hca).
  by rewrite bool_decide_eq_true_2.
Qed.

Lemma reconcileKubeconfig_waits_for_ca_witness :
  run (reconcileKubeconfig env0) (mkState bareCluster emptyWorld)
  = ((mkResult false (30 * Second), None), mkState bareCluster emptyWorld).
Proof.
  apply (reconcileKubeconfig_waits_for_ca env0 (mkState bareCluster emptyWorld));
    [reflexivity | reflexivity | reflexivity | |];
    cbn [st_world emptyWorld secrets]; apply not_elem_of_empty.
Defined.

(** * The clusterctl proxy *)

(** ** Namespaces and contexts *)

(** When the kubeconfig loads, [CurrentNamespace] looks at the context the
    proxy was given and, only if none was given, at the current context of
    the file; it fails when that context is missing, and otherwise answers a
    namespace that is never empty: the context's own, or [default]. *)
Theorem CurrentNamespace_of_selected_context lib k config :
  cc_Load lib (configLoadingRules k) = inl config →
  let selected :=
    if bool_decide (kc_Context (kubeconfig k) = "")
    then CurrentContext config else kc_Context (kubeconfig k) in
  match Contexts config !! selected with
  | Some v =>
      ∃ ns, CurrentNamespace lib k = inl ns ∧ ns ≠ ""
            ∧ (ctx_Namespace v ≠ "" → ns = ctx_Namespace v)
            ∧ (ctx_Namespace v = "" → ns = "default")
  | None => ∃ e, CurrentNamespace lib k = inr e
  end.
Proof.
  intros Hload. cbv zeta. unfold CurrentNamespace. rewrite Hload. cbv zeta.
  destruct (bool_decide_reflect (kc_Context (kubeconfig k) = "")) as [He | Hne].
  - rewrite (bool_decide_eq_false_2 (kc_Context (kubeconfig k) ≠ "")) by (by intros H; apply H).
    destruct (Contexts config !! CurrentContext config) as [v |].
    + destruct (bool_decide_reflect (ctx_Namespace v ≠ "")) as [Hn | Hn].
      * exists (ctx_Namespace v). split; [done |]. split; [done |]. by split.
      * exists "default". split; [done |]. split; [done |].
        split; [by intros ? | done].
    + destruct (bool_decide (kc_Path (kubeconfig k) ≠ "")); by eexists.
  - rewrite (bool_decide_eq_true_2 _ Hne).
    destruct (Contexts config !! kc_Context (kubeconfig k)) as [v |].
    + destruct (bool_decide_reflect (ctx_Namespace v ≠ "")) as [Hn | Hn].
      * exists (ctx_Namespace v). split; [done |]. split; [done |]. by split.
      * exists "default". split; [done |]. split; [done |].
        split; [by intros ? | done].
    + destruct (bool_decide (kc_Path (kubeconfig k) ≠ "")); by eexists.
Qed.

Ltac selected_context H :=
  cbv zeta in H;
  match type of H with
  | match ?x with _ => _ end =>
      let Hv := fresh "Hv" in
      revert H; destruct x as [v |] eqn:Hv; intros H;
      [vm_compute in Hv; injection Hv as <- | vm_compute in Hv; discriminate]
  end.

Lemma CurrentNamespace_of_selected_context_witness :
  CurrentNamespace devLib (newProxy devLib (mkKubeconfig "" "prod") []) = inl "capi-system"
  ∧ CurrentNamespace devLib (newProxy devLib (mkKubeconfig "" "") []) = inl "default".
Proof.
  split.
  - pose proof (CurrentNamespace_of_selected_context devLib
                  (newProxy devLib (mkKubeconfig "" "prod") []) devConfig eq_refl) as H.
    selected_context H.
    destruct H as (ns & -> & _ & Hns & _). f_equal. by apply Hns.
  - pose proof (CurrentNamespace_of_selected_context devLib
                  (newProxy devLib (mkKubeconfig "" "") []) devConfig eq_refl) as H.
    selected_context H.
    destruct H as (ns & -> & _ & _ & Hns). f_equal. by apply Hns.
Defined.

(** [GetContexts] answers exactly the names of the contexts of the file that
    begin with the prefix, each once; a loading error is passed on as it is. *)
Theorem GetContexts_exactly_prefixed lib k prefix :
  match cc_Load lib (configLoadingRules k) with
  | inl config =>
      ∃ names, GetContexts lib k prefix = inl names
               ∧ NoDup names
               ∧ ∀ name, name ∈ names
                         ↔ is_Some (Contexts config !! name)
                           ∧ HasPrefix name prefix = true
  | inr err => GetContexts lib k prefix = inr err
  end.
Proof.
  unfold GetContexts. destruct (cc_Load lib (configLoadingRules k)) as [config | err];
    [| done].
  eexists. split; [done |]. split.
  - apply NoDup_filter, NoDup_fst_map_to_list.
  - intros name. rewrite list_elem_of_filter, list_elem_of_fmap. split.
    + intros [Hp ([n v] & -> & Hin)]. apply elem_of_map_to_list in Hin.
      split; [by eexists | done].
    + intros [[v Hv] Hp]. split; [done |]. exists (name, v).
      split; [done | by apply elem_of_map_to_list].
Qed.

(** ** Resource names *)

(** With a client and a server that answers the list call,
    [GetResourceNames] returns exactly the names, beginning with the prefix,
    of the stored objects of that apiVersion and kind that match the
    options; when the server answers not-found for the kind, it returns no
    name and no error. *)
Theorem GetResourceNames_exactly_prefixed srv groupVersion kind labels namespace prefix :
  srv_newClient srv = None →
  (srv_listFault srv groupVersion kind = None →
   ∃ names,
     GetResourceNames srv groupVersion kind labels namespace prefix = inl names
     ∧ ∀ name, name ∈ names
               ↔ HasPrefix name prefix = true
                 ∧ ∃ o, o ∈ srv_objects srv ∧ obj_Name o = name
                        ∧ obj_APIVersion o = groupVersion ∧ obj_Kind o = kind
                        ∧ matchesLabels labels o = true
                        ∧ inNamespace namespace o = true)
  ∧ (srv_listFault srv groupVersion kind = Some ErrNotFound →
     GetResourceNames srv groupVersion kind labels namespace prefix = inl []).
Proof.
  intros Hc. unfold GetResourceNames, listObjByGVK, serverList. rewrite Hc. split.
  - intros ->. eexists. split; [done |]. intros name.
    rewrite list_elem_of_filter, list_elem_of_fmap. split.
    + intros [Hp (o & -> & Ho)]. apply list_elem_of_filter in Ho as [(? & ? & ? & ?) ?].
      split; [done |]. by exists o.
    + intros [Hp (o & Ho & <- & ? & ? & ? & ?)]. split; [done |]. exists o.
      split; [done |]. by apply list_elem_of_filter.
  - by intros ->.
Qed.

Lemma GetResourceNames_exactly_prefixed_witness :
  GetResourceNames awsServer "apps/v1" "Deployment" awsSelector (Some "default") "capa"
  = inl ["capa-controller-manager"].
Proof.
  destruct (GetResourceNames_exactly_prefixed awsServer "apps/v1" "Deployment"
              awsSelector (Some "default") "capa" eq_refl) as [Hok _].
  destruct (Hok eq_refl) as (names & Heq & _).
  rewrite Heq. vm_compute in Heq. by injection Heq as <-.
Defined.

(** ** Building the proxy *)




(** ** The client configuration *)

Lemma prefix_app (a rest : string) : String.prefix a (a +:+ rest) = true.
Proof.
  induction a as [| c a IH]; [by destruct rest |].
  change (String c a +:+ rest) with (String c (a +:+ rest)).
  cbn [String.prefix]. destruct (Ascii.ascii_dec c c); [exact IH | done].
Qed.

Lemma dropString_app (a rest : string) : dropString (String.length a) (a +:+ rest) = rest.
Proof. induction a as [| c a IH]; [done | exact IH]. Qed.

Lemma replaceFirst_prefix (old new rest : string) :
  replaceFirst old new (old +:+ rest) = new +:+ rest.
Proof.
  destruct (old +:+ rest) as [| c r] eqn:Heq; cbn [replaceFirst];
    rewrite <- Heq, prefix_app, dropString_app; done.
Qed.

(** When the client configuration is refused with a text that begins with
    [invalid configuration:], [GetConfig] reports the text with that
    beginning replaced by the clusterctl one and the rest intact; on success
    the configuration it returns always has QPS 20, burst 100 and the
    clusterctl user agent. *)
Theorem GetConfig_results lib k config :
  cc_Load lib (configLoadingRules k) = inl config →
  let overrides :=
    mkOverrides (kc_Context (kubeconfig k)) (cc_durationString lib (timeout k)) in
  (∀ rest,
     cc_ClientConfig lib config overrides = inr (invalidConfigurationPrefix +:+ rest) →
     GetConfig lib k = inr (Errorf (invalidKubeconfigPrefix +:+ rest)))
  ∧ (∀ text,
       cc_ClientConfig lib config overrides = inr text →
       HasPrefix text invalidConfigurationPrefix = false →
       GetConfig lib k = inr (Errorf text))
  ∧ (∀ restConfig,
       cc_ClientConfig lib config overrides = inl restConfig →
       ∃ c, GetConfig lib k = inl c
            ∧ rc_QPS c = 20 ∧ rc_Burst c = 100
            ∧ rc_Host c = rc_Host restConfig
            ∧ rc_UserAgent c
              = "clusterctl/" +:+ cc_GitVersion lib +:+ " (" +:+ cc_Platform lib +:+ ")").
Proof.
  intros Hload. cbv zeta. unfold GetConfig. rewrite Hload. cbv zeta.
  split; [| split].
  - intros rest ->. unfold HasPrefix. by rewrite prefix_app, replaceFirst_prefix.
  - intros text -> Hp. by rewrite Hp.
  - intros restConfig ->. by eexists.
Qed.

Lemma GetConfig_results_witness :
  GetConfig devLib (newProxy devLib (mkKubeconfig "" "") [])
  = inr (Errorf (invalidKubeconfigPrefix +:+ " no server found")).
Proof.
  destruct (GetConfig_results devLib (newProxy devLib (mkKubeconfig "" "") []) devConfig
              eq_refl) as (Hinvalid & _ & _).
  apply (Hinvalid " no server found"). reflexivity.
Defined.

(** ** The enumerator: what it returns and how it fails *)

Lemma listObjByGVK_inNamespace srv gv kind labels ns items o :
  listObjByGVK srv gv kind labels ns = inl items → o ∈ items →
  inNamespace ns o = true.
Proof.
  unfold listObjByGVK, serverList. intros H Ho.
  destruct (srv_listFault srv gv kind) as [err |].
  - destruct (negb (IsNotFound err)); simplify_eq. by apply elem_of_nil in Ho.
  - simplify_eq. apply list_elem_of_filter in Ho as [(? & ? & ? & ?) ?]. done.
Qed.

Lemma listObjByGVK_failure srv gv kind labels ns e :
  listObjByGVK srv gv kind labels ns = inr e → listFailure srv e.
Proof.
  unfold listObjByGVK. intros H.
  destruct (srv_listFault srv gv kind) as [err |] eqn:Hf; [| done].
  destruct (IsNotFound err) eqn:Hnf; cbn in H; simplify_eq.
  by exists gv, kind, err.
Qed.

Section enumeration.
Context (srv : Server) (labels : gmap string string) (excluded : gset string)
        (namespaces : list string) (P : Unstructured → Prop).

Lemma listInNamespaces_inv gv kind nss ret ret' :
  (∀ ns items o, ns ∈ nss → listObjByGVK srv gv kind labels (Some ns) = inl items →
                 o ∈ items → P o) →
  Forall P ret →
  listInNamespaces srv labels gv kind nss ret = inl ret' →
  Forall P ret'.
Proof.
  revert ret. induction nss as [| ns nss IH]; intros ret Hitems Hret H; cbn in H;
    [by simplify_eq |].
  destruct (listObjByGVK srv gv kind labels (Some ns)) as [items | err] eqn:Hl; [| done].
  apply (IH (ret ++ items)%list); [| | exact H].
  - intros ns' items' o Hns. apply Hitems. apply elem_of_cons. by right.
  - apply Forall_app. split; [done |]. apply Forall_forall. intros o Ho.
    apply (Hitems ns items o); [apply elem_of_cons; by left | done | done].
Qed.

Lemma listKinds_inv gv kinds ret ret' :
  (∀ o, listedIn srv labels namespaces gv kinds o → P o) →
  Forall P ret →
  listKinds srv labels excluded namespaces gv kinds ret = inl ret' →
  Forall P ret'.
Proof.
  revert ret. induction kinds as [| r kinds IH]; intros ret HP Hret H; cbn in H;
    [by simplify_eq |].
  assert (∀ o, listedIn srv labels namespaces gv kinds o → P o) as HP'.
  { intros o (Ho & Hm & Hgv & r' & Hr' & Hrest). apply HP.
    split; [done |]. split; [done |]. split; [done |]. exists r'.
    split; [apply elem_of_cons; by right | done]. }
  destruct (duplicatedInExtensions gv r) eqn:Hdup; [by eapply IH |].
  destruct (ParseGroupVersion gv) as [[g v] |] eqn:Hp; [| done].
  case_bool_decide as Hx; [by eapply IH |].
  assert (∀ o, obj_APIVersion o = gv → obj_Kind o = res_Kind r →
                  o ∈ srv_objects srv → matchesLabels labels o = true →
                  (res_Namespaced r = true → obj_Namespace o ∈ namespaces) → P o) as Hhere.
  { intros o Hgv Hk Ho Hm Hns. apply HP.
    split; [done |]. split; [done |]. split; [done |]. exists r.
    split; [apply elem_of_cons; by left | done]. }
  destruct (res_Namespaced r) eqn:Hnsd.
  - destruct (listInNamespaces srv labels gv (res_Kind r) namespaces ret)
      as [ret1 | err] eqn:Hl; [| done].
    eapply IH; [exact HP' | | exact H].
    eapply listInNamespaces_inv; [| exact Hret | exact Hl].
    intros ns items o Hns Hli Ho.
    destruct (listObjByGVK_items _ _ _ _ _ _ _ Hli Ho) as (Hgv & Hk & Hin & Hm).
    pose proof (listObjByGVK_inNamespace _ _ _ _ _ _ _ Hli Ho) as Hn.
    cbn in Hn. apply bool_decide_eq_true in Hn.
    apply (Hhere o); try done. intros _. by rewrite Hn.
  - destruct (listObjByGVK srv gv (res_Kind r) labels None) as [items | err] eqn:Hl;
      [| done].
    eapply IH; [exact HP' | | exact H].
    apply Forall_app. split; [done |]. apply Forall_forall. intros o Ho.
    destruct (listObjByGVK_items _ _ _ _ _ _ _ Hl Ho) as (Hgv & Hk & Hin & Hm).
    by apply (Hhere o).
Qed.

Lemma listGroups_inv groups ret ret' :
  (∀ rl o, rl ∈ groups →
           listedIn srv labels namespaces (GroupVersion rl) (APIResources rl) o → P o) →
  Forall P ret →
  listGroups srv labels excluded namespaces groups ret = inl ret' →
  Forall P ret'.
Proof.
  revert ret. induction groups as [| rl groups IH]; intros ret HP Hret H; cbn in H;
    [by simplify_eq |].
  destruct (listKinds srv labels excluded namespaces (GroupVersion rl)
              (APIResources rl) ret) as [ret1 | err] eqn:Hl; [| done].
  eapply IH; [| | exact H].
  - intros rl' o Hrl'. apply HP. apply elem_of_cons. by right.
  - eapply listKinds_inv; [| exact Hret | exact Hl].
    intros o. apply HP. apply elem_of_cons. by left.
Qed.

Lemma listInNamespaces_failure gv kind nss ret e :
  listInNamespaces srv labels gv kind nss ret = inr e → listFailure srv e.
Proof.
  revert ret. induction nss as [| ns nss IH]; intros ret H; cbn in H; [done |].
  destruct (listObjByGVK srv gv kind labels (Some ns)) as [items | err] eqn:Hl.
  - by eapply IH.
  - simplify_eq. by eapply listObjByGVK_failure.
Qed.

Lemma listKinds_failure gv kinds ret e :
  listKinds srv labels excluded namespaces gv kinds ret = inr e →
  ParseGroupVersion gv = None ∨ listFailure srv e.
Proof.
  revert ret. induction kinds as [| r kinds IH]; intros ret H; cbn in H; [done |].
  destruct (duplicatedInExtensions gv r); [by eapply IH |].
  destruct (ParseGroupVersion gv) as [[g v] |] eqn:Hp; [| by left].
  case_bool_decide as Hx; [by eapply IH |].
  destruct (res_Namespaced r).
  - destruct (listInNamespaces srv labels gv (res_Kind r) namespaces ret)
      as [ret1 | err] eqn:Hl; [by eapply IH |].
    simplify_eq. right. by eapply listInNamespaces_failure.
  - destruct (listObjByGVK srv gv (res_Kind r) labels None) as [items | err] eqn:Hl;
      [by eapply IH |].
    simplify_eq. right. by eapply listObjByGVK_failure.
Qed.

Lemma listGroups_failure groups ret e :
  listGroups srv labels excluded namespaces groups ret = inr e →
  (∃ rl, rl ∈ groups ∧ ParseGroupVersion (GroupVersion rl) = None) ∨ listFailure srv e.
Proof.
  revert ret. induction groups as [| rl groups IH]; intros ret H; cbn in H; [done |].
  destruct (listKinds srv labels excluded namespaces (GroupVersion rl)
              (APIResources rl) ret) as [ret1 | err] eqn:Hl.
  - destruct (IH _ H) as [(rl' & Hrl' & Hp) | Hf]; [| by right].
    left. exists rl'. split; [apply elem_of_cons; by right | done].
  - simplify_eq. destruct (listKinds_failure _ _ _ _ Hl) as [Hp | Hf]; [| by right].
    left. exists rl. split; [apply elem_of_cons; by left | done].
Qed.
End enumeration.

Lemma elem_of_FilteredBy_inv rls rl' :
  rl' ∈ FilteredBy rls →
  ∃ rl, rl ∈ rls ∧ GroupVersion rl' = GroupVersion rl
        ∧ ∀ r, r ∈ APIResources rl' → r ∈ APIResources rl ∧ supportsListDelete r = true.
Proof.
  unfold FilteredBy. intros H. apply list_elem_of_omap in H as (rl & Hrl & Hf).
  cbv zeta in Hf. exists rl. split; [done |].
  destruct (filter (λ r, supportsListDelete r = true) (APIResources rl)) as [| r0 rs] eqn:Hfl;
    [done |].
  simplify_eq. cbn [GroupVersion APIResources]. split; [done |].
  intros r Hr. rewrite <- Hfl in Hr. apply list_elem_of_filter in Hr as [? ?]. done.
Qed.

(** Everything [ListResources] returns is a stored object that matches the
    selector and was listed for a resource of the discovery list that has
    the list and delete verbs and is not one of the [extensions/v1beta1]
    aliases; an object of a namespaced resource lies in one of the given
    namespaces. *)
Theorem ListResources_returns_only_selected srv labels namespaces rls ret :
  srv_preferredResources srv = inl rls →
  ListResources srv labels namespaces = inl ret →
  ∀ o, o ∈ ret → listedFor srv labels namespaces rls o.
Proof.
  intros Hrls H. unfold ListResources in H. rewrite Hrls in H.
  destruct (srv_newClientSet srv); [done |].
  destruct (srv_newClient srv); [done |].
  destruct (srv_crds srv) as [crds | err]; [| done].
  cbv zeta in H. apply Forall_forall.
  eapply listGroups_inv; [| apply Forall_nil_2 | exact H].
  intros rl' o Hrl' (Ho & Hm & Hgv & r & Hr & Hdup & Hk & Hns).
  destruct (elem_of_FilteredBy_inv _ _ Hrl') as (rl & Hrl & Hgveq & Hres).
  destruct (Hres r Hr) as [Hrin Hs].
  split; [done |]. split; [done |]. exists rl, r.
  rewrite <- Hgveq. done.
Qed.

Lemma ListResources_returns_only_selected_witness :
  listedFor awsServer awsSelector ["default"] awsResources awsDeployment.
Proof.
  apply (ListResources_returns_only_selected awsServer awsSelector ["default"]
           awsResources [awsDeployment]);
    [reflexivity | vm_compute; reflexivity | apply elem_of_cons; by left].
Defined.

(** [ListResources] fails only when a client cannot be built, discovery or
    the CRD listing fails, a group version of the discovery list does not
    parse, or a list call fails with something other than not-found: a
    not-found answer to a list call never fails the enumeration. *)
Theorem ListResources_failures srv labels namespaces e :
  ListResources srv labels namespaces = inr e →
  srv_newClientSet srv = Some e
  ∨ srv_newClient srv = Some e
  ∨ (∃ e', srv_preferredResources srv = inr e'
           ∧ e = ErrWrapped "failed to list api resources" e')
  ∨ (∃ e', srv_crds srv = inr e' ∧ e = ErrWrapped "failed to list CRDs" e')
  ∨ (∃ rls rl, srv_preferredResources srv = inl rls ∧ rl ∈ rls
               ∧ ParseGroupVersion (GroupVersion rl) = None)
  ∨ listFailure srv e.
Proof.
  unfold ListResources. intros H.
  destruct (srv_newClientSet srv) as [e0 |]; [simplify_eq; by left |].
  destruct (srv_newClient srv) as [e0 |]; [simplify_eq; by right; left |].
  destruct (srv_preferredResources srv) as [rls | e0];
    [| simplify_eq; right; right; left; by eexists].
  destruct (srv_crds srv) as [crds | e0];
    [| simplify_eq; right; right; right; left; by eexists].
  cbv zeta in H. do 4 right.
  destruct (listGroups_failure _ _ _ _ _ _ _ H) as [(rl' & Hrl' & Hp) | Hf]; [| by right].
  left. destruct (elem_of_FilteredBy_inv _ _ Hrl') as (rl & Hrl & Hgv & _).
  exists rls, rl. by rewrite <- Hgv.
Qed.

Lemma ListResources_failures_witness :
  ListResources awsServerCRDGone awsSelector ["default"] = inl [awsDeployment].
Proof.
  destruct (ListResources awsServerCRDGone awsSelector ["default"]) as [ret | e] eqn:H.
  { vm_compute in H. by injection H as <-. }
  exfalso.
  destruct (ListResources_failures awsServerCRDGone awsSelector ["default"] e H)
    as [Hf | [Hf | [(e' & Hf & _) | [(e' & Hf & _) | [(rls & rl & Hr & Hin & Hp) | Hf]]]]].
  - discriminate Hf.
  - discriminate Hf.
  - discriminate Hf.
  - discriminate Hf.
  - injection Hr as <-.
    repeat (apply elem_of_cons in Hin as [-> | Hin]; [vm_compute in Hp; discriminate Hp |]).
    by apply elem_of_nil in Hin.
  - destruct Hf as (gv & kind & e' & Hfault & Hnf & _).
    cbn [awsServerCRDGone srv_listFault] in Hfault.
    destruct (bool_decide (kind = "AWSCluster")); [| discriminate Hfault].
    injection Hfault as <-. discriminate Hnf.
Defined.

(** ** Instances *)

Lemma reconcileExternal_outcomes_witness :
  is_Some (out_Result
             (run (reconcileExternal env0 FInfrastructureRef)
                  (mkState freshCluster failingWorld)).1.1).
Proof.
  destruct (reconcileExternal_outcomes env0 FInfrastructureRef
              (mkState freshCluster failingWorld)) as [_ Hsome].
  apply Hsome; vm_compute; reflexivity.
Defined.

Lemma reconcileKubeconfig_writes_only_secret_witness :
  run (reconcileKubeconfig env0) (mkState gatedCluster gatedWorld)
  = ((Result_zero, None), mkState gatedCluster gatedWorld).
Proof.
  destruct (reconcileKubeconfig_writes_only_secret env0 (mkState gatedCluster gatedWorld))
    as (_ & _ & _ & _ & Hskip).
  apply Hskip. left. discriminate.
Defined.

Lemma GetContexts_exactly_prefixed_witness :
  ∃ names, GetContexts devLib (newProxy devLib (mkKubeconfig "" "") []) "prod" = inl names
           ∧ "prod-eu" ∈ names ∧ "dev" ∉ names.
Proof.
  pose proof (GetContexts_exactly_prefixed devLib
                (newProxy devLib (mkKubeconfig "" "") []) "prod") as H.
  change (cc_Load devLib (configLoadingRules (newProxy devLib (mkKubeconfig "" "") [])))
    with (@inl ApiConfig error devConfig) in H.
  destruct H as (names & Heq & _ & Hiff).
  exists names. split; [exact Heq |]. split.
  - apply Hiff. split; [vm_compute; by eexists | reflexivity].
  - intros Hin. apply Hiff in Hin as [_ Hp]. vm_compute in Hp. discriminate Hp.
Defined.
